(** * FinCore: a shallow embedding of [app.py]

    The dashboard pulls 10-K figures from a filings provider, stores them
    in SQLite or MongoDB, reads them back into a flat table and derives a
    handful of ratios.  This development embeds the non-UI core of
    [app.py] and checks the statements of the specification against it.

    Conventions of the embedding.
    - Monetary amounts are IEEE binary64 numbers (Python [float],
      numpy [float64], SQLite [REAL]): Rocq's primitive floats.
    - Python exceptions are values of [exn]; code that may raise lives in
      the error monad [res].
    - Streamlit output ([st.warning], [st.error], [st.success]) is a log
      of messages; progress widgets carry no data and are left out.
    - The filings provider, the clock and the two database engines are
      outside the repository.  The provider and the clock are inputs
      ([world]); the engines are modelled by the few operations the
      program calls on them, each documented where it is defined. *)

From Stdlib Require Import ZArith List Ascii String Bool Lia.
From Stdlib Require Import Floats.PrimFloat Floats.SpecFloat Floats.FloatOps Floats.FloatAxioms.
From Stdlib Require Import Numbers.Cyclic.Int63.Uint63.
From stdpp Require Import base option list strings gmap.

Local Open Scope string_scope.
Local Open Scope list_scope.

(* Decimal constants of the source such as 1.2 denote, as in Python, the
   nearest binary64 number. *)
Set Warnings "-inexact-float".

(** ** Python exceptions and the error monad *)

Inductive exn : Type :=
| KeyError (k : string)
| TypeError
| ZeroDivisionError
| ProviderError (what : string)   (* anything the edgar client raises *)
| OperationalError (what : string) (* sqlite3: unknown column, bad SQL *)
| IntegrityError                  (* sqlite3: PRIMARY KEY violated *)
| OverflowError.                  (* sqlite3: Python int too large for INTEGER *)

Inductive res (A : Type) : Type :=
| Ok (a : A)
| Raise (e : exn).
Arguments Ok {A} a.
Arguments Raise {A} e.

#[global] Instance res_ret : MRet res := fun _ a => Ok a.
#[global] Instance res_bind : MBind res := fun _ _ f m =>
  match m with
  | Ok a => f a
  | Raise e => Raise e
  end.

(** ** Numbers *)

Module Num.

(** A signed 64-bit integer seen as a binary64 number (numpy's cast). *)
Definition of_Z (z : Z) : float :=
  if (z <? 0)%Z then PrimFloat.opp (PrimFloat.of_uint63 (Uint63.of_Z (- z)))
  else PrimFloat.of_uint63 (Uint63.of_Z z).

Definition two52 : float := 4503599627370496%float.

(** [numpy.rint]: the nearest integer, ties to even, the sign kept.
    Below [2^52] the sum with [2^52] lands where the spacing of
    binary64 numbers is one, so the addition itself rounds. *)
Definition rint (x : float) : float :=
  if PrimFloat.ltb (PrimFloat.abs x) two52 then
    let r := PrimFloat.sub (PrimFloat.add (PrimFloat.abs x) two52) two52 in
    if PrimFloat.get_sign x then PrimFloat.opp r else r
  else x.

(** [numpy.around] to the decimals of [scale = 10^decimals]: scale,
    [rint], scale back. *)
Definition around (scale x : float) : float :=
  PrimFloat.div (rint (PrimFloat.mul x scale)) scale.

(** [Series.round(4)] runs [numpy.around(x, 4)] on a float64 column. *)
Definition round4 (x : float) : float := around 10000%float x.

(** pandas' notion of a missing number. *)
Definition isna (x : float) : bool := PrimFloat.is_nan x.

End Num.

(** ** Tables

    A [DataFrame] is an ordered list of named columns of equal length.
    A cell is a missing value ([None]), a float64, an int64 or a string. *)

Inductive cell : Type :=
| CNone
| CNum (x : float)
| CInt (z : Z)
| CStr (s : string).

Abbreviation series := (list cell).
Abbreviation DataFrame := (list (string * series)).

(** The number a cell stands for in float arithmetic; an int64 takes
    part through its binary64 value, [None] and strings raise.  Python
    computes with its own exact integers where both operands are ints,
    which [Num.of_Z] follows only for integers that binary64 holds
    exactly; the statements about arithmetic below are about floats. *)
Definition cell_float (c : cell) : res float :=
  match c with
  | CNum x => Ok x
  | CInt z => Ok (Num.of_Z z)
  | CNone | CStr _ => Raise TypeError
  end.

Definition cell_is_null (c : cell) : bool :=
  match c with
  | CNone => true
  | CNum x => Num.isna x
  | _ => false
  end.

Module Frame.

Definition columns (df : DataFrame) : list string := map fst df.

Definition has_column (c : string) (df : DataFrame) : bool :=
  existsb (String.eqb c) (columns df).

Definition nrows (df : DataFrame) : nat :=
  match df with
  | [] => 0
  | (_, s) :: _ => length s
  end.

(** [df.empty] *)
Definition empty (df : DataFrame) : bool := Nat.eqb (nrows df) 0.

Fixpoint lookup_col (c : string) (df : DataFrame) : option series :=
  match df with
  | [] => None
  | (k, s) :: rest => if String.eqb c k then Some s else lookup_col c rest
  end.

(** [df[c]] *)
Definition get (df : DataFrame) (c : string) : res series :=
  match lookup_col c df with
  | Some s => Ok s
  | None => Raise (KeyError c)
  end.

(** [df[c] = s]: an existing column is replaced where it stands, a new
    one goes last. *)
Fixpoint set (df : DataFrame) (c : string) (s : series) : DataFrame :=
  match df with
  | [] => [(c, s)]
  | (k, s0) :: rest =>
      if String.eqb c k then (k, s) :: rest else (k, s0) :: set rest c s
  end.

(** [df[c] = None]: the scalar is broadcast over the rows. *)
Definition set_none (df : DataFrame) (c : string) : DataFrame :=
  set df c (repeat CNone (nrows df)).

(** The [i]-th row as pandas hands it to [apply(axis=1)]. *)
Definition row_at (df : DataFrame) (i : nat) : list (string * cell) :=
  omap (fun '(k, s) => match s !! i with
                       | Some c => Some (k, c)
                       | None => None
                       end) df.

Definition rows (df : DataFrame) : list (list (string * cell)) :=
  map (row_at df) (seq 0 (nrows df)).

End Frame.

(** Element-wise arithmetic of two columns of one frame.  numpy divides
    float64 by float64 without raising: a zero divisor gives an infinity
    or NaN.  A string makes the column an object column, on which
    Python's operator raises [TypeError].  For a [None] of an object
    column pandas computes NaN where this definition raises: the
    statements below take float columns, where no such cell occurs. *)
Fixpoint series_zip (op : float -> float -> float) (a b : series) : res series :=
  match a, b with
  | x :: a', y :: b' =>
      fx ← cell_float x;
      fy ← cell_float y;
      rest ← series_zip op a' b';
      mret (CNum (op fx fy) :: rest)
  | _, _ => mret []
  end.

Definition series_div : series -> series -> res series := series_zip PrimFloat.div.
Definition series_sub : series -> series -> res series := series_zip PrimFloat.sub.

(** [Series.round(4)] *)
Definition series_round4 (s : series) : series :=
  map (fun c => match c with
                | CNum x => CNum (Num.round4 x)
                | other => other
                end) s.

(** ** Ratio Engine *)

(** *** Python scalars of one row

    [apply(axis=1)] hands [calculate_advanced_metrics] a row whose cells
    are Python scalars: comparing anything with [0] is allowed, while
    arithmetic on [None] or on a string raises [TypeError] and a float
    division by zero raises [ZeroDivisionError]. *)

Abbreviation row := (list (string * cell)).

Fixpoint row_lookup (k : string) (r : row) : option cell :=
  match r with
  | [] => None
  | (k', c) :: rest => if String.eqb k k' then Some c else row_lookup k rest
  end.

(** [row[k]] *)
Definition row_get (r : row) (k : string) : res cell :=
  match row_lookup k r with
  | Some c => Ok c
  | None => Raise (KeyError k)
  end.

(** [c == 0] *)
Definition py_eq0 (c : cell) : bool :=
  match c with
  | CNum x => PrimFloat.eqb x 0%float
  | CInt z => Z.eqb z 0
  | CNone | CStr _ => false
  end.

Definition py_sub (a b : cell) : res float :=
  x ← cell_float a; y ← cell_float b; mret (PrimFloat.sub x y).

Definition py_truediv (a b : cell) : res float :=
  x ← cell_float a; y ← cell_float b;
  if PrimFloat.eqb y 0%float then Raise ZeroDivisionError
  else mret (PrimFloat.div x y).

Section AltmanZ.

(** Python's builtin [round(z, 2)] on a float: a parameter, since the
    score below is the same function of it whatever its digits. *)
Variable round2 : float -> float.

(** The formula of the source on three already computed ratios. *)
Definition z_formula (liquidity profitability leverage : float) : float :=
  PrimFloat.add
    (PrimFloat.add (PrimFloat.mul 1.2%float liquidity)
                   (PrimFloat.mul 3.3%float profitability))
    (PrimFloat.mul 0.6%float leverage).

(** The body of the [try] block. *)
Definition advanced_metrics_try (r : row) : res (option float) :=
  a ← row_get r "assets";
  stop ← (if py_eq0 a then mret true
          else l ← row_get r "liabilities"; mret (py_eq0 l));
  if (stop : bool) then mret None
  else
    a ← row_get r "assets";
    l ← row_get r "liabilities";
    d ← py_sub a l;
    liquidity ← py_truediv (CNum d) a;
    a' ← row_get r "assets";
    profitability ←
      (if negb (py_eq0 a') then
         n ← row_get r "net_income"; py_truediv n a'
       else mret 0%float);
    e ← row_get r "equity";
    l' ← row_get r "liabilities";
    leverage ← py_truediv e l';
    mret (Some (round2 (z_formula liquidity profitability leverage))).

(** [calculate_advanced_metrics(row)]: the bare [except:] turns every
    exception into [None]. *)
Definition calculate_advanced_metrics (r : row) : option float :=
  match advanced_metrics_try r with
  | Ok z => z
  | Raise _ => None
  end.

End AltmanZ.

(** *** Tables on the heap

    A pandas frame is a mutable object and a Python variable holds a
    reference to it.  The heap maps references to frames; assignment to
    a column updates the frame in place, [copy] allocates. *)

Definition loc := nat.
Abbreviation heap := (gmap loc DataFrame).

Definition M (A : Type) : Type := heap -> res A * heap.

#[global] Instance M_ret : MRet M := fun _ a h => (Ok a, h).
#[global] Instance M_bind : MBind M := fun _ _ f m h =>
  match m h with
  | (Ok a, h') => f a h'
  | (Raise e, h') => (Raise e, h')
  end.

(** [df.copy()]: a deep copy at a reference not in use.  A reference
    held by the program always points to a frame, which [!!!] reads. *)
Definition df_copy (df : loc) : M loc := fun h =>
  let l := fresh (dom h) in (Ok l, <[l := h !!! df]> h).

(** The right-hand side of one assignment of [calculate_financial_ratios]:
    [(df[num] / df[den]).round(4) if guard in df.columns else None],
    stored under [name]. *)
Definition with_ratio (name num den guard : string) (df : DataFrame) : res DataFrame :=
  if Frame.has_column guard df then
    n ← Frame.get df num;
    d ← Frame.get df den;
    q ← series_div n d;
    mret (Frame.set df name (series_round4 q))
  else mret (Frame.set_none df name).

(** [df[name] = ...] on the frame a reference points to. *)
Definition assign_ratio (df : loc) (name num den guard : string) : M unit := fun h =>
  match with_ratio name num den guard (h !!! df) with
  | Ok df' => (Ok tt, <[df := df']> h)
  | Raise e => (Raise e, h)
  end.

Definition calculate_financial_ratios (df : loc) : M loc :=
  df ← df_copy df;
  _ ← assign_ratio df "ROE" "net_income" "equity" "equity";
  _ ← assign_ratio df "Debt_to_Equity" "liabilities" "equity" "equity";
  _ ← assign_ratio df "Profit_Margin" "net_income" "revenue" "revenue";
  _ ← assign_ratio df "Asset_Turnover" "revenue" "assets" "assets";
  mret df.

(** What the four assignments make of a frame, the heap set aside. *)
Definition ratios_of (df : DataFrame) : res DataFrame :=
  df1 ← with_ratio "ROE" "net_income" "equity" "equity" df;
  df2 ← with_ratio "Debt_to_Equity" "liabilities" "equity" "equity" df1;
  df3 ← with_ratio "Profit_Margin" "net_income" "revenue" "revenue" df2;
  with_ratio "Asset_Turnover" "revenue" "assets" "assets" df3.

(** pandas' type inference on a freshly built column: numbers mixed with
    missing values become a float64 column, the missing ones NaN.  A
    column without numbers, or one holding a string, stays as it is. *)
Definition is_number (c : cell) : bool :=
  match c with
  | CNum _ | CInt _ => true
  | _ => false
  end.

Definition is_none (c : cell) : bool :=
  match c with
  | CNone => true
  | _ => false
  end.

Definition infer_column (s : series) : series :=
  if forallb (fun c => is_number c || is_none c) s
     && existsb is_number s && existsb is_none s
  then map (fun c => match c with
                     | CNone => CNum PrimFloat.nan
                     | CInt z => CNum (Num.of_Z z)
                     | other => other
                     end) s
  else s.

(** *** The Analytics tab (lines 406-407) *)

Definition cell_of_score (z : option float) : cell :=
  match z with
  | Some x => CNum x
  | None => CNone
  end.

(** [df.apply(calculate_advanced_metrics, axis=1)] *)
Definition altman_column (round2 : float -> float) (df : DataFrame) : series :=
  infer_column
    (map (fun r => cell_of_score (calculate_advanced_metrics round2 r)) (Frame.rows df)).

Definition assign_altman (round2 : float -> float) (df : loc) : M unit := fun h =>
  (Ok tt, <[df := Frame.set (h !!! df) "Altman_Z_Score" (altman_column round2 (h !!! df))]> h).

Definition analytics_tab (round2 : float -> float) (df : loc) : M loc :=
  c ← df_copy df;
  df_analytics ← calculate_financial_ratios c;
  _ ← assign_altman round2 df_analytics;
  mret df_analytics.

(** ** The outside world *)

(** What [latest_filing.obj().financials] answers; an accessor returns a
    number or [None]. *)
Record financials : Type := {
  get_revenue : cell;
  get_net_income : cell;
  get_total_assets : cell;
  get_total_equity : cell;
  get_total_liabilities : cell
}.

Record filing : Type := {
  filing_financials : financials;
  company_name : string;
  company_cik : Z;
  filing_date : Z
}.

(** The three ways the lookup of one ticker can end: the client raises
    (unknown ticker, network, parse error), there is no 10-K, or there
    is a latest one. *)
Inductive provider_answer : Type :=
| LookupRaises (e : exn)
| NoFilings
| Latest (f : filing).

(** The provider, and the clock as read while item [idx] is processed. *)
Record world : Type := {
  provider : string -> provider_answer;
  now_year : nat -> Z;
  now : nat -> Z
}.

(** Streamlit messages. *)
Inductive message : Type :=
| WarnNoFiling (t : string)          (* st.warning: No 10-K found for t *)
| ErrorFor (t : string) (e : exn)    (* st.error: Error for t: e *)
| SuccessSaved (n : nat)             (* saved n companies to SQLite *)
| SuccessSynced (n : nat)            (* synced n companies to MongoDB *)
| ErrorMongoUnavailable              (* MongoDB not available *)
| SidebarLoaded (n : nat)
| SidebarNoData
| SidebarError (e : exn)
| SidebarMongoNotConnected.

(** ** Relational store

    The [financials] table of [finance_warehouse.db]: its columns, its
    primary key and its rows, each row giving a cell to every column.
    The database either has the table or not.  Column types are left
    out: a value is stored as the cell it is bound from, except that
    NaN becomes NULL.  That is what SQLite does with the strings of a
    TEXT column, the integers of an INTEGER column and the floats of a
    REAL column other than -0.0; what the affinity of a column makes of
    other values (numeric text, -0.0, an integer in a REAL column) is
    not modelled. *)

Record table : Type := {
  tcols : list string;
  tkey : list string;
  trows : list row
}.

Definition database := option table.

Definition financials_schema : table :=
  {| tcols := ["ticker"; "year"; "revenue"; "net_income"; "assets";
               "liabilities"; "equity"];
     tkey := ["ticker"; "year"];
     trows := [] |}.

(** [CREATE TABLE IF NOT EXISTS financials (...)] *)
Definition init_sqlite_db (db : database) : database :=
  match db with
  | Some t => Some t
  | None => Some financials_schema
  end.

Module Sql.

(** SQL equality of two stored values; NULL equals nothing. *)
Definition value_eqb (a b : cell) : bool :=
  match a, b with
  | CStr s, CStr s' => String.eqb s s'
  | CInt z, CInt z' => Z.eqb z z'
  | CNum x, CNum y => PrimFloat.eqb x y
  | CInt z, CNum y => PrimFloat.eqb (Num.of_Z z) y
  | CNum x, CInt z' => PrimFloat.eqb x (Num.of_Z z')
  | _, _ => false
  end.

Definition key_of (key : list string) (r : row) : list cell :=
  map (fun k => default CNone (row_lookup k r)) key.

Fixpoint key_eqb (a b : list cell) : bool :=
  match a, b with
  | [], [] => true
  | x :: a', y :: b' => value_eqb x y && key_eqb a' b'
  | _, _ => false
  end.

(** No two of the rows agree on the key. *)
Fixpoint key_unique (key : list string) (rs : list row) : bool :=
  match rs with
  | [] => true
  | r :: rest =>
      negb (existsb (fun r' => key_eqb (key_of key r) (key_of key r')) rest)
      && key_unique key rest
  end.

(** A value as sqlite3 binds it: NaN is stored as NULL. *)
Definition bind_value (c : cell) : cell :=
  if cell_is_null c then CNone else c.

(** The row an INSERT naming the columns of [r] stores: the table's
    columns in order, NULL where the statement names none. *)
Definition stored_row (cols : list string) (r : row) : row :=
  map (fun c => (c, bind_value (default CNone (row_lookup c r)))) cols.

Definition has_col (t : table) (c : string) : bool :=
  existsb (String.eqb c) (tcols t).

(** A value that sqlite3 can bind: a Python int has to fit a signed
    64-bit integer. *)
Definition bindable (c : cell) : bool :=
  match c with
  | CInt z => (- 2 ^ 63 <=? z)%Z && (z <? 2 ^ 63)%Z
  | _ => true
  end.

Definition bindable_row (r : row) : bool := forallb (fun kc => bindable (snd kc)) r.

(** One multi-row INSERT; it is applied entirely or not at all.  The
    statement is compiled first (every column it names has to exist),
    then its values are bound, then it runs against the key.  The
    engine's bound on the number of values of one statement (999 in
    older builds of SQLite) is left out. *)
Definition insert_rows (names : list string) (rs : list row) (t : table) : res table :=
  match filter (fun c => negb (has_col t c)) names with
  | c :: _ => Raise (OperationalError ("table financials has no column named " ++ c))
  | [] =>
      if negb (forallb bindable_row rs) then Raise OverflowError
      else
        let rows' := trows t ++ map (stored_row (tcols t)) rs in
        if match tkey t with
           | [] => true
           | _ => key_unique (tkey t) rows'
           end
        then Ok {| tcols := tcols t; tkey := tkey t; trows := rows' |}
        else Raise IntegrityError
  end.

End Sql.

(** [pd.DataFrame(results)] for a list of dicts that all have the keys
    of the first one. *)
Definition frame_of_records (rs : list row) : DataFrame :=
  match rs with
  | [] => []
  | r :: _ =>
      map (fun k => (k, infer_column (map (fun r' => default CNone (row_lookup k r')) rs)))
          (map fst r)
  end.

(** [df.to_sql("financials", conn, if_exists="append", index=False)]:
    a missing table is first created from the frame, without a key, and
    that is committed; then the rows are inserted under the frame's
    column names.  An insert that fails leaves the table as it was
    before the insert, a table just created included. *)
Definition to_sql_append (df : DataFrame) (db : database) : res unit * database :=
  let t := match db with
           | Some t => t
           | None => {| tcols := Frame.columns df; tkey := []; trows := [] |}
           end in
  match Sql.insert_rows (Frame.columns df) (Frame.rows df) t with
  | Ok t' => (Ok tt, Some t')
  | Raise e => (Raise e, Some t)
  end.

(** [pd.read_sql("SELECT * FROM financials", conn)] *)
Definition read_sql_all (db : database) : res DataFrame :=
  match db with
  | None => Raise (OperationalError "no such table: financials")
  | Some t =>
      Ok (map (fun c => (c, infer_column
                              (map (fun r => default CNone (row_lookup c r)) (trows t))))
              (tcols t))
  end.

(** ** Ingestion into SQLite *)

Definition py_add (a b : cell) : res float :=
  x ← cell_float a; y ← cell_float b; mret (PrimFloat.add x y).

(** The [data] dict of one ticker, before validation. *)
Definition sqlite_data (w : world) (idx : nat) (t : string) (f : filing) : row :=
  [ ("ticker", CStr t);
    ("year", CInt (now_year w idx));
    ("revenue", get_revenue (filing_financials f));
    ("net_income", get_net_income (filing_financials f));
    ("assets", get_total_assets (filing_financials f));
    ("equity", get_total_equity (filing_financials f));
    ("liabilities", get_total_liabilities (filing_financials f)) ].

(** [1 if abs(data['assets'] - (data['liabilities'] + data['equity'])) < 1e6 else 0] *)
Definition sqlite_audit (data : row) : res Z :=
  a ← row_get data "assets";
  l ← row_get data "liabilities";
  e ← row_get data "equity";
  s ← py_add l e;
  d ← py_sub a (CNum s);
  mret (if PrimFloat.ltb (PrimFloat.abs d) 1e6%float then 1%Z else 0%Z).

(** The body of the [try] for one ticker: [None] is the [continue] taken
    when there is no 10-K, [Some data] the dict appended to [results]. *)
Definition sqlite_item (w : world) (idx : nat) (t : string) : res (option row) :=
  match provider w t with
  | LookupRaises e => Raise e
  | NoFilings => mret None
  | Latest f =>
      let data := sqlite_data w idx t f in
      audit ← sqlite_audit data;
      mret (Some (data ++ [("audit_pass", CInt audit)]))
  end.

(** The [for] loop with its [except Exception] handler. *)
Fixpoint sqlite_loop (w : world) (idx : nat) (tickers : list string)
    (results : list row) (log : list message) : list row * list message :=
  match tickers with
  | [] => (results, log)
  | t :: rest =>
      match sqlite_item w idx t with
      | Ok None => sqlite_loop w (S idx) rest results (log ++ [WarnNoFiling t])
      | Ok (Some data) => sqlite_loop w (S idx) rest (results ++ [data]) log
      | Raise e => sqlite_loop w (S idx) rest results (log ++ [ErrorFor t e])
      end
  end.

(** [fetch_to_sqlite(tickers)]: the outcome of the call ([Raise] when an
    exception leaves the function), the database and the messages. *)
Definition fetch_to_sqlite (w : world) (tickers : list string) (db : database)
    : res unit * database * list message :=
  let '(results, log) := sqlite_loop w 0 tickers [] [] in
  match results with
  | [] => (Ok tt, db, log)
  | _ =>
      match to_sql_append (frame_of_records results) db with
      | (Ok _, db') => (Ok tt, db', log ++ [SuccessSaved (length results)])
      | (Raise e, db') => (Raise e, db', log)
      end
  end.

(** ** Document store *)

Record financials_doc : Type := {
  revenue : cell;
  net_income : cell;
  total_assets : cell;
  total_liabilities : cell
}.

Record metadata_doc : Type := {
  md_company_name : string;
  md_cik : Z;
  md_filing_date : Z
}.

Record document : Type := {
  ticker : string;
  timestamp : Z;
  report_type : string;
  doc_financials : financials_doc;
  metadata : metadata_doc;
  audit_pass : Z
}.

(** The [filings] collection, in the order [find({})] returns it. *)
Abbreviation collection := (list document).

(** [collection.update_one({"ticker": t}, {"$set": document}, upsert=True)]:
    the first document of that ticker takes the new fields, and when
    there is none the document is inserted.  Every field of a stored
    document is one that [$set] writes. *)
Fixpoint update_one (t : string) (d : document) (c : collection) : collection :=
  match c with
  | [] => [d]
  | d0 :: rest =>
      if String.eqb (ticker d0) t then d :: rest else d0 :: update_one t d rest
  end.

(** The two candidate servers; [None] is a port that does not answer. *)
Record mongo : Type := {
  port27017 : option collection;
  port27018 : option collection
}.

Inductive port : Type := P27017 | P27018.

(** [get_mongo_client()] *)
Definition get_mongo_client (m : mongo) : option port :=
  match port27017 m, port27018 m with
  | Some _, _ => Some P27017
  | None, Some _ => Some P27018
  | None, None => None
  end.

Definition filings_of (m : mongo) (p : port) : collection :=
  match p with
  | P27017 => default [] (port27017 m)
  | P27018 => default [] (port27018 m)
  end.

Definition with_filings (m : mongo) (p : port) (c : collection) : mongo :=
  match p with
  | P27017 => {| port27017 := Some c; port27018 := port27018 m |}
  | P27018 => {| port27017 := port27017 m; port27018 := Some c |}
  end.

(** ** Ingestion into MongoDB *)

(** [a > 0] *)
Definition py_gt0 (a : cell) : res bool :=
  match a with
  | CNum x => Ok (PrimFloat.ltb 0%float x)
  | CInt z => Ok (0 <? z)%Z
  | CNone | CStr _ => Raise TypeError
  end.

Definition mongo_item (w : world) (idx : nat) (t : string) : res (option document) :=
  match provider w t with
  | LookupRaises e => Raise e
  | NoFilings => mret None
  | Latest f =>
      let figures :=
        {| revenue := get_revenue (filing_financials f);
           net_income := get_net_income (filing_financials f);
           total_assets := get_total_assets (filing_financials f);
           total_liabilities := get_total_liabilities (filing_financials f) |} in
      positive ← py_gt0 (total_assets figures);
      mret (Some {| ticker := t;
                    timestamp := now w idx;
                    report_type := "10-K";
                    doc_financials := figures;
                    metadata := {| md_company_name := company_name f;
                                   md_cik := company_cik f;
                                   md_filing_date := filing_date f |};
                    audit_pass := if (positive : bool) then 1 else 0 |})
  end.

Fixpoint mongo_loop (w : world) (idx : nat) (tickers : list string)
    (c : collection) (log : list message) : collection * list message :=
  match tickers with
  | [] => (c, log)
  | t :: rest =>
      match mongo_item w idx t with
      | Ok None => mongo_loop w (S idx) rest c (log ++ [WarnNoFiling t])
      | Ok (Some d) => mongo_loop w (S idx) rest (update_one t d c) log
      | Raise e => mongo_loop w (S idx) rest c (log ++ [ErrorFor t e])
      end
  end.

(** [fetch_to_mongodb(tickers)]; nothing in it can leave the function
    by an exception, so there is no outcome to return. *)
Definition fetch_to_mongodb (w : world) (tickers : list string) (m : mongo)
    : mongo * list message :=
  match get_mongo_client m with
  | None => (m, [ErrorMongoUnavailable])
  | Some p =>
      let '(c, log) := mongo_loop w 0 tickers (filings_of m p) [] in
      (with_filings m p c, log ++ [SuccessSynced (length tickers)])
  end.

(** ** Read paths (lines 209-250) *)

Inductive data_source : Type := SQLite | MongoDB.

(** The frame built from [json_normalize(mongo_data)]. *)
Definition mongo_frame (c : collection) : res DataFrame :=
  let col (f : financials_doc -> cell) := infer_column (map (fun d => f (doc_financials d)) c) in
  equity ← series_sub (col total_assets) (col total_liabilities);
  mret [ ("ticker", map (fun d => CStr (ticker d)) c);
         ("revenue", col revenue);
         ("net_income", col net_income);
         ("assets", col total_assets);
         ("liabilities", col total_liabilities);
         ("equity", equity) ].

(** The table the rest of the script works on, and the sidebar message. *)
Definition load (src : data_source) (db : database) (m : mongo)
    : DataFrame * list message :=
  match src with
  | SQLite =>
      match read_sql_all db with
      | Ok df => (df, [if Frame.empty df then SidebarNoData
                       else SidebarLoaded (Frame.nrows df)])
      | Raise e => ([], [SidebarError e])
      end
  | MongoDB =>
      match get_mongo_client m with
      | None => ([], [SidebarMongoNotConnected])
      | Some p =>
          match filings_of m p with
          | [] => ([], [SidebarNoData])
          | c =>
              match mongo_frame c with
              | Ok df => (df, [SidebarLoaded (Frame.nrows df)])
              | Raise e => ([], [SidebarError e])
              end
          end
      end
  end.

(** ** Ad-hoc query surface (lines 353-362)

    The text area's content goes to [pd.read_sql] as it is.  What a
    statement does to the database is decided by sqlite3 and pandas, so
    the engine is a parameter here. *)

Inductive query_message : Type :=
| QueryReturned (df : DataFrame) (n : nat)   (* st.dataframe, st.success *)
| InvalidSQL (e : exn).                      (* st.error *)

Section QuerySurface.

Variable read_sql : string -> database -> res DataFrame * database.

Definition sql_query_interface (search_query : string) (db : database)
    : database * query_message :=
  match read_sql search_query db with
  | (Ok query_df, db') => (db', QueryReturned query_df (Frame.nrows query_df))
  | (Raise e, db') => (db', InvalidSQL e)
  end.

End QuerySurface.

(** ** Script runs

    Streamlit runs the script from the top on every interaction, so
    [init_sqlite_db()] (line 197) precedes whatever a button does. *)

Definition press_fetch_to_sqlite (w : world) (tickers : list string) (db : database)
    : res unit * database * list message :=
  fetch_to_sqlite w tickers (init_sqlite_db db).

(** The database after a series of such runs, raised or not. *)
Definition after_runs (runs : list (world * list string)) (db : database) : database :=
  fold_left (fun db '(w, tickers) => snd (fst (press_fetch_to_sqlite w tickers db))) runs db.

(** ** Views of a run

    What one identifier contributes to the messages and to the records
    of a run, read off the outcome of its [try] block. *)

Definition item_messages {A : Type} (t : string) (r : res (option A)) : list message :=
  match r with
  | Ok None => [WarnNoFiling t]
  | Ok (Some _) => []
  | Raise e => [ErrorFor t e]
  end.

Definition item_records {A : Type} (r : res (option A)) : list A :=
  match r with
  | Ok (Some d) => [d]
  | _ => []
  end.

Fixpoint run_messages {A : Type} (item : nat -> string -> res (option A))
    (idx : nat) (tickers : list string) : list message :=
  match tickers with
  | [] => []
  | t :: rest => item_messages t (item idx t) ++ run_messages item (S idx) rest
  end.

Fixpoint run_records {A : Type} (item : nat -> string -> res (option A))
    (idx : nat) (tickers : list string) : list A :=
  match tickers with
  | [] => []
  | t :: rest => item_records (item idx t) ++ run_records item (S idx) rest
  end.

(** The keys of the [data] dict, in the order they are set. *)
Definition record_keys : list string :=
  ["ticker"; "year"; "revenue"; "net_income"; "assets"; "equity";
   "liabilities"; "audit_pass"].

(** The per-item messages: warnings and errors. *)
Definition is_item_message (m : message) : Prop :=
  match m with
  | WarnNoFiling _ | ErrorFor _ _ => True
  | _ => False
  end.

(** The documents of a run written one after the other. *)
Definition upsert_all (ds : list document) (c : collection) : collection :=
  fold_left (fun c d => update_one (ticker d) d c) ds c.

Definition row_count (db : database) : nat :=
  match db with
  | None => 0
  | Some t => length (trows t)
  end.

(** The row of the loaded table that a document flattens to. *)
Definition flat_row (d : document) (equity : cell) : row :=
  [ ("ticker", CStr (ticker d));
    ("revenue", revenue (doc_financials d));
    ("net_income", net_income (doc_financials d));
    ("assets", total_assets (doc_financials d));
    ("liabilities", total_liabilities (doc_financials d));
    ("equity", equity) ].

(** A document whose four figures are numbers. *)
Definition numeric_doc (d : document) : Prop :=
  exists r n a l,
    doc_financials d =
    {| revenue := CNum r; net_income := CNum n;
       total_assets := CNum a; total_liabilities := CNum l |}.

Definition number_of (c : cell) : float :=
  match c with
  | CNum x => x
  | _ => PrimFloat.nan
  end.

(** A value that the relational store hands back as it got it: a
    string, or a number that is not NaN. *)
Definition plain (c : cell) : bool :=
  match c with
  | CStr _ => true
  | CNum x => negb (Num.isna x)
  | _ => false
  end.

(** ** Sample inputs *)

Definition sample_frame : DataFrame :=
  [ ("ticker", [CStr "AAPL"; CStr "ZERO"]);
    ("revenue", [CNum 100; CNum 50]);
    ("net_income", [CNum 10; CNum 10]);
    ("assets", [CNum 500; CNum 40]);
    ("liabilities", [CNum 200; CNum 40]);
    ("equity", [CNum 300; CNum 0]) ].

Definition sample_row : row :=
  [ ("ticker", CStr "AAPL"); ("revenue", CNum 100); ("net_income", CNum 10);
    ("assets", CNum 500); ("liabilities", CNum 200); ("equity", CNum 300) ].

Definition aapl_filing : filing :=
  {| filing_financials :=
       {| get_revenue := CNum 100; get_net_income := CNum 10;
          get_total_assets := CNum 500; get_total_equity := CNum 300;
          get_total_liabilities := CNum 200 |};
     company_name := "Apple Inc."; company_cik := 320193; filing_date := 20241101 |}.

(** A filing whose reported equity leaves out a minority interest of 50. *)
Definition corp_filing : filing :=
  {| filing_financials :=
       {| get_revenue := CNum 100; get_net_income := CNum 10;
          get_total_assets := CNum 500; get_total_equity := CNum 250;
          get_total_liabilities := CNum 200 |};
     company_name := "Corp"; company_cik := 1; filing_date := 20241101 |}.

(** A provider that knows AAPL and CORP, has no 10-K for NEWCO and
    raises on anything else; the clock shows the given year. *)
Definition sample_world (year : Z) : world :=
  {| provider := fun t =>
       if String.eqb t "AAPL" then Latest aapl_filing
       else if String.eqb t "CORP" then Latest corp_filing
       else if String.eqb t "NEWCO" then NoFilings
       else LookupRaises (ProviderError "unknown ticker");
     now_year := fun _ => year;
     now := fun idx => (year * 1000 + Z.of_nat idx)%Z |}.

(** The table of [init_sqlite_db] after somebody added the column that
    the ingested frame carries. *)
Definition widened_schema : table :=
  {| tcols := tcols financials_schema ++ ["audit_pass"];
     tkey := tkey financials_schema;
     trows := [] |}.

(** The row that table holds for AAPL once ingested in [year]. *)
Definition aapl_stored_row (year : Z) : row :=
  [ ("ticker", CStr "AAPL"); ("year", CInt year); ("revenue", CNum 100);
    ("net_income", CNum 10); ("assets", CNum 500); ("liabilities", CNum 200);
    ("equity", CNum 300); ("audit_pass", CInt 1) ].

Definition widened_with (rows : list row) : table :=
  {| tcols := tcols widened_schema; tkey := tkey widened_schema; trows := rows |}.

(** The document written for AAPL by item [idx] of a run in [year]. *)
Definition aapl_document (year : Z) (idx : nat) : document :=
  {| ticker := "AAPL";
     timestamp := (year * 1000 + Z.of_nat idx)%Z;
     report_type := "10-K";
     doc_financials := {| revenue := CNum 100; net_income := CNum 10;
                          total_assets := CNum 500; total_liabilities := CNum 200 |};
     metadata := {| md_company_name := "Apple Inc."; md_cik := 320193;
                    md_filing_date := 20241101 |};
     audit_pass := 1 |}.

(** The table of [init_sqlite_db] holding AAPL's figures for [year]. *)
Definition aapl_table (year : Z) : table :=
  {| tcols := tcols financials_schema;
     tkey := tkey financials_schema;
     trows := [ [ ("ticker", CStr "AAPL"); ("year", CInt year); ("revenue", CNum 100);
                  ("net_income", CNum 10); ("assets", CNum 500);
                  ("liabilities", CNum 200); ("equity", CNum 300) ] ] |}.

(** The [data] dict of AAPL in [year], validated. *)
Definition aapl_record (year : Z) : row :=
  [ ("ticker", CStr "AAPL"); ("year", CInt year); ("revenue", CNum 100);
    ("net_income", CNum 10); ("assets", CNum 500); ("equity", CNum 300);
    ("liabilities", CNum 200); ("audit_pass", CInt 1) ].

Definition mongo_up (c : collection) : mongo :=
  {| port27017 := Some c; port27018 := None |}.

(** ** The ticker box (lines 487-517)

    [tickers = [t.strip().upper() for t in ticker_input.split(',') if t.strip()]].
    The functions below are Python's on ASCII text, which is what a
    ticker list is: [str.isspace] holds of the codes 9-13, 28-31 and 32,
    and [str.upper] moves a-z to A-Z. *)

Module Text.

Definition is_space (a : ascii) : bool :=
  let n := nat_of_ascii a in
  (Nat.leb 9 n && Nat.leb n 13) || (Nat.leb 28 n && Nat.leb n 31) || Nat.eqb n 32.

Definition is_comma (a : ascii) : bool := Ascii.eqb a ","%char.

Definition upper_char (a : ascii) : ascii :=
  let n := nat_of_ascii a in
  if Nat.leb 97 n && Nat.leb n 122 then ascii_of_nat (n - 32) else a.

Definition is_ascii (a : ascii) : bool := Nat.ltb (nat_of_ascii a) 128.

Fixpoint all_chars (p : ascii -> bool) (s : string) : bool :=
  match s with
  | EmptyString => true
  | String a s' => p a && all_chars p s'
  end.

(** [s.lstrip()] *)
Fixpoint lstrip (s : string) : string :=
  match s with
  | EmptyString => EmptyString
  | String a s' => if is_space a then lstrip s' else s
  end.

(** [s.rstrip()] *)
Fixpoint rstrip (s : string) : string :=
  match s with
  | EmptyString => EmptyString
  | String a s' =>
      match rstrip s' with
      | EmptyString => if is_space a then EmptyString else String a EmptyString
      | r => String a r
      end
  end.

(** [s.strip()] *)
Definition strip (s : string) : string := rstrip (lstrip s).

(** [s.upper()] *)
Fixpoint upper (s : string) : string :=
  match s with
  | EmptyString => EmptyString
  | String a s' => String (upper_char a) (upper s')
  end.

(** [s.split(',')]: one more part than there are commas. *)
Fixpoint split (s : string) : list string :=
  match s with
  | EmptyString => [EmptyString]
  | String a s' =>
      if is_comma a then EmptyString :: split s'
      else match split s' with
           | p :: ps => String a p :: ps
           | [] => [String a EmptyString]
           end
  end.

(** Truth of a string in a condition: it is not empty. *)
Definition truthy (s : string) : bool :=
  match s with
  | EmptyString => false
  | String _ _ => true
  end.

(** [','.join(parts)] *)
Fixpoint join (parts : list string) : string :=
  match parts with
  | [] => EmptyString
  | [p] => p
  | p :: rest => p ++ String ","%char (join rest)
  end.

End Text.

Definition parse_tickers (ticker_input : string) : list string :=
  map (fun t => Text.upper (Text.strip t))
      (filter (fun t => Text.truthy (Text.strip t) = true) (Text.split ticker_input)).

(** What pressing one of the two fetch buttons comes to. *)
Inductive button_outcome : Type :=
| AskForTicker                                    (* Please enter at least one ticker *)
| MongoNotAvailable                               (* MongoDB not available. ... *)
| RanSqlite (r : res unit) (log : list message)   (* fetch_to_sqlite was called *)
| RanMongo (log : list message).                  (* fetch_to_mongodb was called *)

(** A script run in which "Fetch to SQLite" is pressed: [init_sqlite_db()]
    first, then the handler of lines 498-504. *)
Definition fetch_to_sqlite_button (ticker_input : string) (w : world) (db : database)
    : database * button_outcome :=
  let db := init_sqlite_db db in
  match parse_tickers ticker_input with
  | [] => (db, AskForTicker)
  | tickers =>
      let '(r, db', log) := fetch_to_sqlite w tickers db in
      (db', RanSqlite r log)
  end.

(** The handler of "Fetch to MongoDB" (lines 507-517). *)
Definition fetch_to_mongodb_button (ticker_input : string) (w : world) (m : mongo)
    : mongo * button_outcome :=
  match parse_tickers ticker_input with
  | [] => (m, AskForTicker)
  | tickers =>
      match get_mongo_client m with
      | Some _ =>
          let '(m', log) := fetch_to_mongodb w tickers m in
          (m', RanMongo log)
      | None => (m, MongoNotAvailable)
      end
  end.

(** A string that does not begin with white space. *)
Definition starts_clean (s : string) : bool :=
  match s with
  | EmptyString => true
  | String a _ => negb (Text.is_space a)
  end.

Definition no_comma (s : string) : bool :=
  Text.all_chars (fun a => negb (Text.is_comma a)) s.

Definition blank (s : string) : bool :=
  Text.all_chars (fun a => Text.is_space a || Text.is_comma a) s.

(** The quotient column of the ratio engine: element-wise division,
    rounded to 4 decimals. *)
Definition ratio_column (num den : list float) : series :=
  map CNum (zip_with (fun n d => Num.round4 (PrimFloat.div n d)) num den).

Definition ratio_names : list string :=
  ["ROE"; "Debt_to_Equity"; "Profit_Margin"; "Asset_Turnover"].

(** A table of names only, and one with equity but no net income. *)
Definition names_only_frame : DataFrame :=
  [ ("ticker", [CStr "AAPL"; CStr "MSFT"]) ].

Definition no_income_frame : DataFrame :=
  [ ("ticker", [CStr "AAPL"]); ("equity", [CNum 300]) ].

(** A field of a row that is absent, [None] or a string. *)
Definition not_numeric (o : option cell) : Prop :=
  match o with
  | Some (CNum _) | Some (CInt _) => False
  | _ => True
  end.

Definition score_fields : list string :=
  ["assets"; "liabilities"; "net_income"; "equity"].

(** ** The Z-score chart (line 464)

    [df_z = df_analytics[['ticker', 'Altman_Z_Score']].dropna()]: the
    (ticker, score) pairs of the rows in which neither is missing. *)

Definition chart_pair (p : cell * cell) : bool :=
  negb (cell_is_null (fst p)) && negb (cell_is_null (snd p)).

Definition z_chart_rows (df_analytics : DataFrame) : res (list (cell * cell)) :=
  tickers ← Frame.get df_analytics "ticker";
  scores ← Frame.get df_analytics "Altman_Z_Score";
  mret (filter (fun p => chart_pair p = true) (zip tickers scores)).

(** The score of the source as a function of four numbers. *)
Definition z_score (round2 : float -> float) (a l n e : float) : float :=
  round2 (z_formula (PrimFloat.div (PrimFloat.sub a l) a) (PrimFloat.div n a)
                    (PrimFloat.div e l)).

(** Reading the chart data off the table a reference points to. *)
Definition read_z_chart (df_analytics : loc) : M (list (cell * cell)) :=
  fun h => (z_chart_rows (h !!! df_analytics), h).

(** The chart data as the Analytics tab computes it from the loaded
    table. *)
Definition z_chart (round2 : float -> float) (df : loc) : M (list (cell * cell)) :=
  df_analytics ← analytics_tab round2 df;
  read_z_chart df_analytics.

(** The table of the ratio engine for numeric columns. *)
Definition with_ratios (df : DataFrame) (ni eq li rv a : list float) : DataFrame :=
  Frame.set
    (Frame.set
       (Frame.set (Frame.set df "ROE" (ratio_column ni eq))
                  "Debt_to_Equity" (ratio_column li eq))
       "Profit_Margin" (ratio_column ni rv))
    "Asset_Turnover" (ratio_column rv a).

(** ** Document viewer (lines 556-560) *)

(** [mongo_data] as the load at the top of the script leaves it (lines
    211 and 226-231): the documents of the server picked, or the empty
    list.  It is set before the table is built from it. *)
Definition load_mongo_data (src : data_source) (m : mongo) : collection :=
  match src with
  | SQLite => []
  | MongoDB =>
      match get_mongo_client m with
      | Some p => filings_of m p
      | None => []
      end
  end.

(** [next((d for d in mongo_data if d['ticker'] == selected_ticker), None)] *)
Definition raw_doc (mongo_data : collection) (selected_ticker : string) : option document :=
  List.find (fun d => String.eqb (ticker d) selected_ticker) mongo_data.

(** ** Database statistics (lines 525-547) *)

Inductive metric : Type :=
| Records (n : nat)
| NotConnected.                    (* N/A (Not Connected) *)

(** The count of all rows of [financials]; the bare [except] shows 0
    when the table is missing. *)
Definition sqlite_statistic (db : database) : metric := Records (row_count db).

(** [collection.count_documents({})] on the server picked. *)
Definition mongo_statistic (m : mongo) : metric :=
  match get_mongo_client m with
  | Some p => Records (length (filings_of m p))
  | None => NotConnected
  end.

(** A filing that reports no liabilities, and a provider that answers
    every ticker with it. *)
Definition bare_filing : filing :=
  {| filing_financials :=
       {| get_revenue := CNum 100; get_net_income := CNum 10;
          get_total_assets := CNum 500; get_total_equity := CNum 300;
          get_total_liabilities := CNone |};
     company_name := "Bare"; company_cik := 2; filing_date := 20241101 |}.

Definition bare_world : world :=
  {| provider := fun _ => Latest bare_filing;
     now_year := fun _ => 2025%Z;
     now := fun idx => Z.of_nat idx |}.

(** ** A script run, from the load to the statistics

    Between the load at the top of the script (lines 209-250) and the
    Database Statistics (lines 521-547) the query box runs its
    statement, when SQLite is the source and the table loaded is not
    empty (lines 346-362).  A fetch button that changes a store
    restarts the script, and a tab that raises ends the run: the
    statistics below are what a run shows that reaches them. *)

Section ScriptRun.

Variable read_sql : string -> database -> res DataFrame * database.

Definition statistics_of_run (src : data_source) (search_query : string)
    (db : database) (m : mongo) : list message * metric * metric :=
  let '(df, sidebar) := load src db m in
  let db' := match src with
             | SQLite => if Frame.empty df then db
                         else fst (sql_query_interface read_sql search_query db)
             | MongoDB => db
             end in
  (sidebar, sqlite_statistic db', mongo_statistic m).

End ScriptRun.




(** An engine on which every statement reads an empty table and changes
    nothing. *)
Definition reads_nothing (search_query : string) (db : database)
    : res DataFrame * database :=
  (Ok [], db).

(** * Properties *)

(** ** Frames and columns *)

Lemma lookup_col_set (df : DataFrame) (c c' : string) (s : series) :
  Frame.lookup_col c (Frame.set df c' s) =
  if String.eqb c c' then Some s else Frame.lookup_col c df.
Proof.
  induction df as [|[k s0] rest IH]; simpl.
  - destruct (String.eqb c c'); reflexivity.
  - destruct (String.eqb_spec c' k) as [->|Hne]; simpl.
    + destruct (String.eqb c k); reflexivity.
    + destruct (String.eqb_spec c k) as [->|Hck].
      * destruct (String.eqb_spec k c') as [->|_]; [congruence | reflexivity].
      * exact IH.
Qed.

Lemma has_column_lookup (df : DataFrame) (c : string) :
  Frame.has_column c df = true <-> Frame.lookup_col c df <> None.
Proof.
  unfold Frame.has_column, Frame.columns.
  induction df as [|[k s] rest IH]; simpl.
  - split; [discriminate | congruence].
  - destruct (String.eqb c k); simpl; [split; [discriminate | reflexivity] | exact IH].
Qed.

Lemma has_column_some (df : DataFrame) (c : string) (s : series) :
  Frame.lookup_col c df = Some s -> Frame.has_column c df = true.
Proof. intros H. apply has_column_lookup. congruence. Qed.

Lemma series_zip_numbers (op : float -> float -> float) (xs ys : list float) :
  series_zip op (map CNum xs) (map CNum ys) = Ok (map CNum (zip_with op xs ys)).
Proof.
  revert ys. induction xs as [|x xs IH]; intros [|y ys]; simpl; try reflexivity.
  rewrite IH. reflexivity.
Qed.

Lemma lookup_zip_numbers (op : float -> float -> float) (xs ys : list float)
    (i : nat) (x y : float) :
  xs !! i = Some x -> ys !! i = Some y ->
  map CNum (zip_with op xs ys) !! i = Some (CNum (op x y)).
Proof.
  revert ys i. induction xs as [|x0 xs IH]; intros [|y0 ys] [|i]; simpl;
    try discriminate.
  - intros [= ->] [= ->]. reflexivity.
  - apply IH.
Qed.

Lemma series_round4_numbers (xs : list float) :
  series_round4 (map CNum xs) = map CNum (map Num.round4 xs).
Proof. induction xs as [|x xs IH]; simpl; [reflexivity | now rewrite IH]. Qed.

(** One assignment of the ratio engine on numeric columns. *)
Lemma with_ratio_numbers (name num den : string) (df : DataFrame) (ns ds : list float) :
  Frame.lookup_col num df = Some (map CNum ns) ->
  Frame.lookup_col den df = Some (map CNum ds) ->
  with_ratio name num den den df =
  Ok (Frame.set df name
        (map CNum (zip_with (fun n d => Num.round4 (PrimFloat.div n d)) ns ds))).
Proof.
  intros Hn Hd. unfold with_ratio, Frame.get.
  rewrite (has_column_some _ _ _ Hd), Hn, Hd. simpl.
  unfold series_div. rewrite series_zip_numbers. simpl.
  rewrite series_round4_numbers. do 3 f_equal.
  clear. revert ds. induction ns as [|n ns IH]; intros [|d ds]; simpl; try reflexivity.
  now rewrite IH.
Qed.

(** ** The heap discipline of [calculate_financial_ratios] *)

Lemma assign_ratio_run (l : loc) (name num den guard : string) (h : heap) :
  assign_ratio l name num den guard h =
  match with_ratio name num den guard (h !!! l) with
  | Ok df' => (Ok tt, <[l := df']> h)
  | Raise e => (Raise e, h)
  end.
Proof. reflexivity. Qed.

(** References other than the one assigned through keep their frame. *)
Lemma assign_ratio_frame (l k : loc) (name num den guard : string) (h h' : heap) (r : res unit) :
  assign_ratio l name num den guard h = (r, h') -> k <> l -> h' !! k = h !! k.
Proof.
  unfold assign_ratio. intros H Hk.
  destruct (with_ratio name num den guard (h !!! l)); inversion H; subst; clear H.
  - by rewrite lookup_insert_ne.
  - reflexivity.
Qed.

Lemma df_copy_fresh (h : heap) : h !! fresh (dom h) = None.
Proof. apply not_elem_of_dom, is_fresh. Qed.

(** The call copies first and then only touches the copy: it runs like
    [ratios_of] on the frame and allocates exactly one reference. *)
Lemma calculate_financial_ratios_run (l : loc) (h : heap) :
  exists r h',
    calculate_financial_ratios l h = (r, h') /\
    (forall k, k <> fresh (dom h) -> h' !! k = h !! k) /\
    match r with
    | Ok l' => l' = fresh (dom h) /\
               exists df', ratios_of (h !!! l) = Ok df' /\ h' !! l' = Some df'
    | Raise e => ratios_of (h !!! l) = Raise e
    end.
Proof.
  set (c := fresh (dom h)).
  unfold calculate_financial_ratios, df_copy, ratios_of.
  unfold mbind at 1, M_bind at 1. fold c.
  set (h0 := <[c := h !!! l]> h).
  assert (H0 : h0 !!! c = h !!! l) by (unfold h0; apply lookup_total_insert_eq).
  assert (Hk0 : forall k, k <> c -> h0 !! k = h !! k)
    by (intros k Hk; unfold h0; by rewrite lookup_insert_ne).
  unfold mbind at 1, M_bind at 1. rewrite assign_ratio_run, H0.
  destruct (with_ratio "ROE" _ _ _ (h !!! l)) as [df1|e] eqn:E1; simpl;
    [|eexists _, _; split; [reflexivity | split; [exact Hk0 | reflexivity]]].
  set (h1 := <[c := df1]> h0).
  assert (H1 : h1 !!! c = df1) by (unfold h1; apply lookup_total_insert_eq).
  assert (Hk1 : forall k, k <> c -> h1 !! k = h !! k)
    by (intros k Hk; unfold h1; rewrite lookup_insert_ne by done; by apply Hk0).
  unfold mbind at 1, M_bind at 1. rewrite assign_ratio_run, H1.
  destruct (with_ratio "Debt_to_Equity" _ _ _ df1) as [df2|e] eqn:E2; simpl;
    [|eexists _, _; split; [reflexivity | split; [exact Hk1 | reflexivity]]].
  set (h2 := <[c := df2]> h1).
  assert (H2 : h2 !!! c = df2) by (unfold h2; apply lookup_total_insert_eq).
  assert (Hk2 : forall k, k <> c -> h2 !! k = h !! k)
    by (intros k Hk; unfold h2; rewrite lookup_insert_ne by done; by apply Hk1).
  unfold mbind at 1, M_bind at 1. rewrite assign_ratio_run, H2.
  destruct (with_ratio "Profit_Margin" _ _ _ df2) as [df3|e] eqn:E3; simpl;
    [|eexists _, _; split; [reflexivity | split; [exact Hk2 | reflexivity]]].
  set (h3 := <[c := df3]> h2).
  assert (H3 : h3 !!! c = df3) by (unfold h3; apply lookup_total_insert_eq).
  assert (Hk3 : forall k, k <> c -> h3 !! k = h !! k)
    by (intros k Hk; unfold h3; rewrite lookup_insert_ne by done; by apply Hk2).
  unfold mbind at 1, M_bind at 1. rewrite assign_ratio_run, H3.
  destruct (with_ratio "Asset_Turnover" _ _ _ df3) as [df4|e] eqn:E4; simpl;
    [|eexists _, _; split; [reflexivity | split; [exact Hk3 | reflexivity]]].
  eexists _, _; split; [reflexivity|]. split.
  - intros k Hk. rewrite lookup_insert_ne by done. by apply Hk3.
  - split; [reflexivity|]. exists df4. split; [reflexivity|].
    unfold mret, M_ret. simpl. apply lookup_insert_eq.
Qed.

(** The table the four assignments build from numeric columns. *)
Lemma ratios_of_numbers_frame (df : DataFrame) (ni eq li rv a : list float) :
  Frame.lookup_col "net_income" df = Some (map CNum ni) ->
  Frame.lookup_col "equity" df = Some (map CNum eq) ->
  Frame.lookup_col "liabilities" df = Some (map CNum li) ->
  Frame.lookup_col "revenue" df = Some (map CNum rv) ->
  Frame.lookup_col "assets" df = Some (map CNum a) ->
  ratios_of df =
  Ok (Frame.set
        (Frame.set
           (Frame.set (Frame.set df "ROE" (ratio_column ni eq))
                      "Debt_to_Equity" (ratio_column li eq))
           "Profit_Margin" (ratio_column ni rv))
        "Asset_Turnover" (ratio_column rv a)).
Proof.
  intros Hni Heq Hli Hrv Ha. unfold ratios_of, ratio_column.
  rewrite (with_ratio_numbers _ _ _ _ _ _ Hni Heq). simpl.
  set (df1 := Frame.set df "ROE" _).
  assert (L1 : forall c, String.eqb c "ROE" = false ->
                         Frame.lookup_col c df1 = Frame.lookup_col c df)
    by (intros c Hc; unfold df1; rewrite lookup_col_set, Hc; reflexivity).
  rewrite (with_ratio_numbers "Debt_to_Equity" "liabilities" "equity" df1 li eq)
    by (rewrite L1 by reflexivity; assumption).
  simpl. set (df2 := Frame.set df1 "Debt_to_Equity" _).
  assert (L2 : forall c, String.eqb c "Debt_to_Equity" = false ->
                         Frame.lookup_col c df2 = Frame.lookup_col c df1)
    by (intros c Hc; unfold df2; rewrite lookup_col_set, Hc; reflexivity).
  rewrite (with_ratio_numbers "Profit_Margin" "net_income" "revenue" df2 ni rv)
    by (rewrite L2, L1 by reflexivity; assumption).
  simpl. set (df3 := Frame.set df2 "Profit_Margin" _).
  assert (L3 : forall c, String.eqb c "Profit_Margin" = false ->
                         Frame.lookup_col c df3 = Frame.lookup_col c df2)
    by (intros c Hc; unfold df3; rewrite lookup_col_set, Hc; reflexivity).
  rewrite (with_ratio_numbers "Asset_Turnover" "revenue" "assets" df3 rv a)
    by (rewrite L3, L2, L1 by reflexivity; assumption).
  reflexivity.
Qed.

(** What a call on the heap returns for such a table. *)
Lemma calculate_financial_ratios_numbers (df : loc) (h : heap) (ni eq li rv a : list float) :
  Frame.lookup_col "net_income" (h !!! df) = Some (map CNum ni) ->
  Frame.lookup_col "equity" (h !!! df) = Some (map CNum eq) ->
  Frame.lookup_col "liabilities" (h !!! df) = Some (map CNum li) ->
  Frame.lookup_col "revenue" (h !!! df) = Some (map CNum rv) ->
  Frame.lookup_col "assets" (h !!! df) = Some (map CNum a) ->
  exists out h',
    calculate_financial_ratios df h = (Ok out, h') /\
    h' !!! out =
    Frame.set
      (Frame.set
         (Frame.set (Frame.set (h !!! df) "ROE" (ratio_column ni eq))
                    "Debt_to_Equity" (ratio_column li eq))
         "Profit_Margin" (ratio_column ni rv))
      "Asset_Turnover" (ratio_column rv a).
Proof.
  intros Hni Heq Hli Hrv Ha.
  pose proof (ratios_of_numbers_frame _ _ _ _ _ _ Hni Heq Hli Hrv Ha) as Hr.
  destruct (calculate_financial_ratios_run df h) as (r & h' & Hrun & _ & Hres).
  destruct r as [out|e]; [|congruence].
  destruct Hres as (_ & df' & Hr' & Hout).
  exists out, h'. split; [exact Hrun|].
  rewrite (lookup_total_correct _ _ _ Hout). congruence.
Qed.

Lemma ratio_column_lookup (num den : list float) (i : nat) (n d : float) :
  num !! i = Some n -> den !! i = Some d ->
  ratio_column num den !! i = Some (CNum (Num.round4 (PrimFloat.div n d))).
Proof.
  intros Hn Hd.
  exact (lookup_zip_numbers (fun n d => Num.round4 (PrimFloat.div n d)) _ _ _ _ _ Hn Hd).
Qed.

(** C10, as the code has it.  [calculate_financial_ratios] never mutates
    its input: whatever the heap and the table passed, after the call,
    returned or raised, every table that existed before, the caller's
    in particular, has exactly the columns and values it had.  On a
    table whose net_income, equity, liabilities, revenue and assets are
    float columns the call returns: the result lives at a reference
    that was not in use, it has every other column of the input with
    its values, and its columns ROE, Debt_to_Equity, Profit_Margin and
    Asset_Turnover hold in each row the quotient of that row, rounded
    to 4 decimals. *)
Theorem calculate_financial_ratios_copies (df : loc) (h : heap) (frame : DataFrame) :
  h !! df = Some frame ->
  (exists r h',
     calculate_financial_ratios df h = (r, h') /\
     h' !! df = Some frame /\
     (forall k, k ∈ dom h -> h' !! k = h !! k)) /\
  (forall ni eq li rv a : list float,
     Frame.lookup_col "net_income" frame = Some (map CNum ni) ->
     Frame.lookup_col "equity" frame = Some (map CNum eq) ->
     Frame.lookup_col "liabilities" frame = Some (map CNum li) ->
     Frame.lookup_col "revenue" frame = Some (map CNum rv) ->
     Frame.lookup_col "assets" frame = Some (map CNum a) ->
     exists out h' augmented roe dte pm at_,
       calculate_financial_ratios df h = (Ok out, h') /\
       out <> df /\ h !! out = None /\
       h' !! out = Some augmented /\
       (forall c s, ~ In c ratio_names -> Frame.lookup_col c frame = Some s ->
                    Frame.lookup_col c augmented = Some s) /\
       Frame.lookup_col "ROE" augmented = Some roe /\
       Frame.lookup_col "Debt_to_Equity" augmented = Some dte /\
       Frame.lookup_col "Profit_Margin" augmented = Some pm /\
       Frame.lookup_col "Asset_Turnover" augmented = Some at_ /\
       forall i n e l r x,
         ni !! i = Some n -> eq !! i = Some e -> li !! i = Some l ->
         rv !! i = Some r -> a !! i = Some x ->
         roe !! i = Some (CNum (Num.round4 (PrimFloat.div n e))) /\
         dte !! i = Some (CNum (Num.round4 (PrimFloat.div l e))) /\
         pm !! i = Some (CNum (Num.round4 (PrimFloat.div n r))) /\
         at_ !! i = Some (CNum (Num.round4 (PrimFloat.div r x)))).
Proof.
  intros Hdf.
  destruct (calculate_financial_ratios_run df h) as (r & h' & Hrun & Hkeep & Hres).
  assert (Hold : forall k, k ∈ dom h -> k <> fresh (dom h))
    by (intros k Hk ->; by apply (is_fresh (dom h))).
  assert (Hin : df ∈ dom h) by (apply elem_of_dom; eauto).
  assert (Hframe : h !!! df = frame) by (by apply lookup_total_correct).
  split.
  - exists r, h'. split; [exact Hrun|]. split.
    + rewrite Hkeep by auto. exact Hdf.
    + intros k Hk. apply Hkeep. auto.
  - intros ni eq li rv a Hni Heq Hli Hrv Ha.
    rewrite <- Hframe in Hni, Heq, Hli, Hrv, Ha.
    pose proof (ratios_of_numbers_frame _ _ _ _ _ _ Hni Heq Hli Hrv Ha) as Hr.
    rewrite Hframe in Hr.
    destruct r as [out|e]; [|congruence].
    destruct Hres as (-> & df' & Hr' & Hout).
    rewrite Hframe, Hr in Hr'. injection Hr' as <-.
    eexists _, h', _, _, _, _, _. split; [exact Hrun|].
    split; [intros E; apply (Hold df Hin); congruence|].
    split; [apply df_copy_fresh|].
    split; [exact Hout|].
    split.
    { intros c s Hc Hs. rewrite !lookup_col_set.
      destruct (String.eqb_spec c "Asset_Turnover") as [->|_];
        [exfalso; apply Hc; simpl; tauto|].
      destruct (String.eqb_spec c "Profit_Margin") as [->|_];
        [exfalso; apply Hc; simpl; tauto|].
      destruct (String.eqb_spec c "Debt_to_Equity") as [->|_];
        [exfalso; apply Hc; simpl; tauto|].
      destruct (String.eqb_spec c "ROE") as [->|_];
        [exfalso; apply Hc; simpl; tauto|].
      exact Hs. }
    rewrite !lookup_col_set. simpl.
    do 4 (split; [reflexivity|]).
    intros i n e l r x Hn He Hl Hr0 Hx.
    repeat split; by apply ratio_column_lookup.
Qed.

Lemma calculate_financial_ratios_copies_witness :
  (exists r h',
     calculate_financial_ratios 0 {[ 0 := sample_frame ]} = (r, h') /\
     h' !! 0 = Some sample_frame /\
     (forall k, k ∈ dom ({[ 0 := sample_frame ]} : heap) ->
        h' !! k = ({[ 0 := sample_frame ]} : heap) !! k)) /\
  (exists out h' augmented roe dte pm at_,
     calculate_financial_ratios 0 {[ 0 := sample_frame ]} = (Ok out, h') /\
     out <> 0 /\ ({[ 0 := sample_frame ]} : heap) !! out = None /\
     h' !! out = Some augmented /\
     (forall c s, ~ In c ratio_names -> Frame.lookup_col c sample_frame = Some s ->
                  Frame.lookup_col c augmented = Some s) /\
     Frame.lookup_col "ROE" augmented = Some roe /\
     Frame.lookup_col "Debt_to_Equity" augmented = Some dte /\
     Frame.lookup_col "Profit_Margin" augmented = Some pm /\
     Frame.lookup_col "Asset_Turnover" augmented = Some at_ /\
     forall i n e l r x,
       [10%float; 10%float] !! i = Some n -> [300%float; 0%float] !! i = Some e ->
       [200%float; 40%float] !! i = Some l ->
       [100%float; 50%float] !! i = Some r -> [500%float; 40%float] !! i = Some x ->
       roe !! i = Some (CNum (Num.round4 (PrimFloat.div n e))) /\
       dte !! i = Some (CNum (Num.round4 (PrimFloat.div l e))) /\
       pm !! i = Some (CNum (Num.round4 (PrimFloat.div n r))) /\
       at_ !! i = Some (CNum (Num.round4 (PrimFloat.div r x)))).
Proof.
  assert (H : ({[ 0 := sample_frame ]} : heap) !! 0 = Some sample_frame) by reflexivity.
  destruct (calculate_financial_ratios_copies 0 {[ 0 := sample_frame ]} sample_frame H)
    as [Hkeep Hret].
  split; [exact Hkeep|].
  apply (Hret [10%float; 10%float] [300%float; 0%float] [200%float; 40%float]
              [100%float; 50%float] [500%float; 40%float]);
    reflexivity.
Defined.

(** C10 as stated fails on a table that has an equity column and no
    net_income column: the call raises [KeyError] and returns no
    table. *)
Lemma ratios_not_returned_counterexample :
  fst (calculate_financial_ratios 0 {[ 0 := no_income_frame ]})
  = Raise (KeyError "net_income").
Proof.
  destruct (calculate_financial_ratios_run 0 {[ 0 := no_income_frame ]})
    as (r & h' & Hrun & _ & Hres).
  rewrite Hrun. simpl. destruct r as [out|e].
  - destruct Hres as (_ & df' & Hr & _). vm_compute in Hr. discriminate.
  - vm_compute in Hres. congruence.
Qed.

(** The Analytics tab copies once more before the call and adds the
    score column to the table returned: the loaded table stays as it
    is there too. *)
Lemma analytics_tab_keeps_input (round2 : float -> float) (df : loc) (h : heap) :
  exists r h',
    analytics_tab round2 df h = (r, h') /\
    forall k, k ∈ dom h -> h' !! k = h !! k.
Proof.
  unfold analytics_tab, df_copy.
  unfold mbind at 1, M_bind at 1.
  set (c := fresh (dom h)). set (h0 := <[c := h !!! df]> h).
  assert (Hc : forall k, k ∈ dom h -> k <> c)
    by (intros k Hk ->; by apply (is_fresh (dom h))).
  assert (H0 : forall k, k ∈ dom h -> h0 !! k = h !! k)
    by (intros k Hk; unfold h0; rewrite lookup_insert_ne; [reflexivity | by apply not_eq_sym, Hc]).
  assert (Hdom : forall k, k ∈ dom h -> k ∈ dom h0)
    by (intros k Hk; unfold h0; apply dom_insert; set_solver).
  destruct (calculate_financial_ratios_run c h0) as (r1 & h1 & Hrun & Hkeep & Hres).
  unfold mbind at 1, M_bind at 1. rewrite Hrun.
  assert (H1 : forall k, k ∈ dom h -> h1 !! k = h !! k).
  { intros k Hk. rewrite Hkeep; [by apply H0|].
    intros ->. by apply (is_fresh (dom h0)), Hdom. }
  destruct r1 as [out|e]; [|eexists _, _; split; [reflexivity | exact H1]].
  destruct Hres as (-> & _).
  unfold mbind at 1, M_bind at 1. unfold assign_altman. simpl.
  eexists _, _. split; [reflexivity|].
  intros k Hk. rewrite lookup_insert_ne; [by apply H1|].
  intros <-. by apply (is_fresh (dom h0)), Hdom.
Qed.

(** ** Ratios *)

(** On a table whose five monetary columns are numbers the four
    assignments go through, and [ROE] is the rounded quotient column. *)
Lemma ratios_of_numbers (df : DataFrame) (ni eq li rv a : list float) :
  Frame.lookup_col "net_income" df = Some (map CNum ni) ->
  Frame.lookup_col "equity" df = Some (map CNum eq) ->
  Frame.lookup_col "liabilities" df = Some (map CNum li) ->
  Frame.lookup_col "revenue" df = Some (map CNum rv) ->
  Frame.lookup_col "assets" df = Some (map CNum a) ->
  exists df',
    ratios_of df = Ok df' /\
    Frame.lookup_col "ROE" df' =
      Some (map CNum (zip_with (fun n e => Num.round4 (PrimFloat.div n e)) ni eq)).
Proof.
  intros Hni Heq Hli Hrv Ha. unfold ratios_of.
  rewrite (with_ratio_numbers _ _ _ _ _ _ Hni Heq). simpl.
  set (df1 := Frame.set df "ROE" _).
  assert (L1 : forall c, String.eqb c "ROE" = false ->
                         Frame.lookup_col c df1 = Frame.lookup_col c df)
    by (intros c Hc; unfold df1; rewrite lookup_col_set, Hc; reflexivity).
  rewrite (with_ratio_numbers "Debt_to_Equity" "liabilities" "equity" df1 li eq)
    by (rewrite L1 by reflexivity; assumption).
  simpl. set (df2 := Frame.set df1 "Debt_to_Equity" _).
  assert (L2 : forall c, String.eqb c "Debt_to_Equity" = false ->
                         Frame.lookup_col c df2 = Frame.lookup_col c df1)
    by (intros c Hc; unfold df2; rewrite lookup_col_set, Hc; reflexivity).
  rewrite (with_ratio_numbers "Profit_Margin" "net_income" "revenue" df2 ni rv)
    by (rewrite L2, L1 by reflexivity; assumption).
  simpl. set (df3 := Frame.set df2 "Profit_Margin" _).
  assert (L3 : forall c, String.eqb c "Profit_Margin" = false ->
                         Frame.lookup_col c df3 = Frame.lookup_col c df2)
    by (intros c Hc; unfold df3; rewrite lookup_col_set, Hc; reflexivity).
  rewrite (with_ratio_numbers "Asset_Turnover" "revenue" "assets" df3 rv a)
    by (rewrite L3, L2, L1 by reflexivity; assumption).
  eexists. split; [reflexivity|].
  rewrite lookup_col_set. simpl.
  rewrite L3, L2 by reflexivity. unfold df1. rewrite lookup_col_set. reflexivity.
Qed.

(** *** Division by zero in binary64 *)

Lemma zero_divisor_spec (e : float) :
  PrimFloat.eqb e 0 = true -> exists s, Prim2SF e = S754_zero s.
Proof.
  rewrite FloatAxioms.eqb_spec. change (Prim2SF 0) with (S754_zero false).
  destruct (Prim2SF e) as [s|s| |s m x]; unfold SFeqb; simpl; try discriminate.
  - eauto.
  - destruct s; discriminate.
  - destruct s; discriminate.
Qed.

Lemma numerator_cases (n : float) :
  match Prim2SF n with
  | S754_nan => PrimFloat.is_nan n = true
  | S754_zero _ => PrimFloat.eqb n 0 = true /\ PrimFloat.is_nan n = false
  | _ => PrimFloat.is_nan n = false /\ PrimFloat.eqb n 0 = false
  end.
Proof.
  unfold PrimFloat.is_nan. rewrite !FloatAxioms.eqb_spec. change (Prim2SF 0) with (S754_zero false).
  destruct (Prim2SF n) as [s|s| |s m x]; unfold SFeqb; simpl; try reflexivity.
  - split; reflexivity.
  - destruct s; split; reflexivity.
  - destruct s; simpl; rewrite ?Z.compare_refl, ?Pos.compare_refl; split; reflexivity.
Qed.

(** A quotient by zero is NaN when the numerator is zero or NaN, and an
    infinity otherwise. *)
Lemma quotient_by_zero (n e : float) :
  PrimFloat.eqb e 0 = true ->
  ((PrimFloat.eqb n 0 = true \/ PrimFloat.is_nan n = true) /\
   PrimFloat.div n e = PrimFloat.nan)
  \/
  ((PrimFloat.eqb n 0 = false /\ PrimFloat.is_nan n = false) /\
   (PrimFloat.div n e = PrimFloat.infinity \/
    PrimFloat.div n e = PrimFloat.neg_infinity)).
Proof.
  intros He. destruct (zero_divisor_spec e He) as (se & Hse).
  pose proof (numerator_cases n) as Hn.
  pose proof (FloatAxioms.div_spec n e) as Hd. rewrite Hse in Hd.
  rewrite <- (FloatAxioms.SF2Prim_Prim2SF (PrimFloat.div n e)), Hd. clear Hd.
  destruct (Prim2SF n) as [s|s| |s m x]; unfold SF64div, SFdiv.
  - left. split; [left; tauto | reflexivity].
  - right. split; [tauto|]. destruct s, se; simpl; auto.
  - left. split; [right; exact Hn | reflexivity].
  - right. split; [tauto|]. destruct s, se; simpl; auto.
Qed.

(** Rounding to 4 decimals keeps NaN and the infinities. *)
Lemma round4_quotient_by_zero (n e : float) :
  PrimFloat.eqb e 0 = true ->
  (Num.isna (Num.round4 (PrimFloat.div n e)) = true <->
   PrimFloat.eqb n 0 = true \/ PrimFloat.is_nan n = true) /\
  (PrimFloat.is_infinity (Num.round4 (PrimFloat.div n e)) = true <->
   PrimFloat.eqb n 0 = false /\ PrimFloat.is_nan n = false).
Proof.
  intros He.
  destruct (quotient_by_zero n e He) as [[Hn ->]|[[Hz Hnan] [-> | ->]]].
  - split; (split; [intros H | intros H]).
    + exact Hn.
    + reflexivity.
    + vm_compute in H. discriminate.
    + destruct H as [Hz Hnan]. destruct Hn; congruence.
  - split; (split; [intros H | intros H]).
    + vm_compute in H. discriminate.
    + destruct H; congruence.
    + by split.
    + reflexivity.
  - split; (split; [intros H | intros H]).
    + vm_compute in H. discriminate.
    + destruct H; congruence.
    + by split.
    + reflexivity.
Qed.

(** C5, as the code has it.  For every table whose monetary columns are
    numbers, [calculate_financial_ratios] returns without raising, and
    the ROE of each row is the binary64 quotient net_income / equity of
    that row rounded to 4 decimals, whatever the other rows hold.  In a
    row whose equity is zero the ROE is null (NaN) exactly when the net
    income is zero or NaN, and an infinity otherwise. *)
Theorem roe_is_rounded_quotient (df : loc) (h : heap) (ni eq li rv a : list float) :
  Frame.lookup_col "net_income" (h !!! df) = Some (map CNum ni) ->
  Frame.lookup_col "equity" (h !!! df) = Some (map CNum eq) ->
  Frame.lookup_col "liabilities" (h !!! df) = Some (map CNum li) ->
  Frame.lookup_col "revenue" (h !!! df) = Some (map CNum rv) ->
  Frame.lookup_col "assets" (h !!! df) = Some (map CNum a) ->
  exists out h' roe,
    calculate_financial_ratios df h = (Ok out, h') /\
    Frame.lookup_col "ROE" (h' !!! out) = Some roe /\
    length roe = min (length ni) (length eq) /\
    forall i n e, ni !! i = Some n -> eq !! i = Some e ->
      roe !! i = Some (CNum (Num.round4 (PrimFloat.div n e))) /\
      (PrimFloat.eqb e 0 = true ->
       (cell_is_null (CNum (Num.round4 (PrimFloat.div n e))) = true <->
        PrimFloat.eqb n 0 = true \/ PrimFloat.is_nan n = true) /\
       (PrimFloat.is_infinity (Num.round4 (PrimFloat.div n e)) = true <->
        PrimFloat.eqb n 0 = false /\ PrimFloat.is_nan n = false)).
Proof.
  intros Hni Heq Hli Hrv Ha.
  destruct (ratios_of_numbers _ _ _ _ _ _ Hni Heq Hli Hrv Ha) as (df' & Hr & Hroe).
  destruct (calculate_financial_ratios_run df h) as (r & h' & Hrun & _ & Hres).
  destruct r as [out|e]; [|congruence].
  destruct Hres as (_ & df'' & Hr' & Hout).
  assert (df'' = df') by congruence. subst df''.
  exists out, h', (map CNum (zip_with (fun n e => Num.round4 (PrimFloat.div n e)) ni eq)).
  split; [exact Hrun|]. split; [|split].
  - rewrite (lookup_total_correct _ _ _ Hout). exact Hroe.
  - rewrite length_map, length_zip_with. reflexivity.
  - intros i n e Hn He. split.
    + exact (lookup_zip_numbers (fun n e => Num.round4 (PrimFloat.div n e)) _ _ _ _ _ Hn He).
    + intros He0. exact (round4_quotient_by_zero n e He0).
Qed.

Lemma roe_is_rounded_quotient_witness :
  exists out h' roe,
    calculate_financial_ratios 0 {[ 0 := sample_frame ]} = (Ok out, h') /\
    Frame.lookup_col "ROE" (h' !!! out) = Some roe /\
    length roe = min (length [10%float; 10%float]) (length [300%float; 0%float]) /\
    forall i n e, [10%float; 10%float] !! i = Some n -> [300%float; 0%float] !! i = Some e ->
      roe !! i = Some (CNum (Num.round4 (PrimFloat.div n e))) /\
      (PrimFloat.eqb e 0 = true ->
       (cell_is_null (CNum (Num.round4 (PrimFloat.div n e))) = true <->
        PrimFloat.eqb n 0 = true \/ PrimFloat.is_nan n = true) /\
       (PrimFloat.is_infinity (Num.round4 (PrimFloat.div n e)) = true <->
        PrimFloat.eqb n 0 = false /\ PrimFloat.is_nan n = false)).
Proof.
  apply (roe_is_rounded_quotient 0 {[ 0 := sample_frame ]}
           [10%float; 10%float] [300%float; 0%float] [200%float; 40%float]
           [100%float; 50%float] [500%float; 40%float]);
    reflexivity.
Defined.

(** C5 as stated fails on [sample_frame]: the first row's ROE is 0.0333,
    not the quotient 10/300, and the second row, whose equity is 0, gets
    an infinite ROE, which is not a null value. *)
Lemma roe_exact_or_null_counterexample :
  exists out h',
    calculate_financial_ratios 0 {[ 0 := sample_frame ]} = (Ok out, h') /\
    Frame.lookup_col "net_income" sample_frame = Some [CNum 10; CNum 10] /\
    Frame.lookup_col "equity" sample_frame = Some [CNum 300; CNum 0] /\
    Frame.lookup_col "ROE" (h' !!! out) = Some [CNum 0.0333; CNum PrimFloat.infinity] /\
    CNum 0.0333 <> CNum (10 / 300) /\
    cell_is_null (CNum PrimFloat.infinity) = false.
Proof.
  eexists _, _. split; [vm_compute; reflexivity|].
  repeat split; try (vm_compute; reflexivity).
  intros H.
  apply (f_equal (fun c => match c with
                           | CNum x => PrimFloat.eqb 0.0333 x
                           | _ => false
                           end)) in H.
  vm_compute in H. discriminate.
Qed.

(** ** Altman Z-score *)

Lemma is_nan_spec (x : float) : PrimFloat.is_nan x = true -> Prim2SF x = S754_nan.
Proof.
  intros H. pose proof (numerator_cases x) as Hx.
  destruct (Prim2SF x); [destruct Hx; congruence | destruct Hx; congruence
                        | reflexivity | destruct Hx; congruence].
Qed.

(** Arithmetic on NaN gives NaN. *)
Lemma nan_arith (op : float -> float -> float)
    (sf : spec_float -> spec_float -> spec_float) (x y : float) :
  (forall u v, Prim2SF (op u v) = sf (Prim2SF u) (Prim2SF v)) ->
  (forall s, sf S754_nan s = S754_nan) -> (forall s, sf s S754_nan = S754_nan) ->
  PrimFloat.is_nan x || PrimFloat.is_nan y = true ->
  PrimFloat.is_nan (op x y) = true.
Proof.
  intros Hspec Hl Hr H.
  assert (Hn : Prim2SF (op x y) = S754_nan).
  { rewrite Hspec. apply orb_true_iff in H as [H|H]; apply is_nan_spec in H; rewrite H; auto. }
  pose proof (numerator_cases (op x y)) as Hc. by rewrite Hn in Hc.
Qed.

Lemma sub_is_nan (x y : float) :
  PrimFloat.is_nan x || PrimFloat.is_nan y = true -> PrimFloat.is_nan (x - y) = true.
Proof.
  apply (nan_arith PrimFloat.sub SF64sub); [apply FloatAxioms.sub_spec | reflexivity|].
  by intros [].
Qed.

Lemma add_is_nan (x y : float) :
  PrimFloat.is_nan x || PrimFloat.is_nan y = true -> PrimFloat.is_nan (x + y) = true.
Proof.
  apply (nan_arith PrimFloat.add SF64add); [apply FloatAxioms.add_spec | reflexivity|].
  by intros [].
Qed.

Lemma mul_is_nan (x y : float) :
  PrimFloat.is_nan x || PrimFloat.is_nan y = true -> PrimFloat.is_nan (x * y) = true.
Proof.
  apply (nan_arith PrimFloat.mul SF64mul); [apply FloatAxioms.mul_spec | reflexivity|].
  by intros [].
Qed.

Lemma div_is_nan (x y : float) :
  PrimFloat.is_nan x || PrimFloat.is_nan y = true -> PrimFloat.is_nan (x / y) = true.
Proof.
  apply (nan_arith PrimFloat.div SF64div); [apply FloatAxioms.div_spec | reflexivity|].
  by intros [].
Qed.

Lemma is_nan_eq (x : float) : PrimFloat.is_nan x = true -> x = PrimFloat.nan.
Proof. intros H. apply Prim2SF_inj. by rewrite (is_nan_spec x H). Qed.

(** The formula of the score is NaN as soon as one of the four figures
    is. *)
Lemma z_formula_nan (a l n e : float) :
  PrimFloat.is_nan a || PrimFloat.is_nan l || PrimFloat.is_nan n || PrimFloat.is_nan e = true ->
  (1.2 * ((a - l) / a) + 3.3 * (n / a) + 0.6 * (e / l))%float = PrimFloat.nan.
Proof.
  intros H. apply is_nan_eq.
  destruct (PrimFloat.is_nan a) eqn:Ea.
  - apply add_is_nan, orb_true_iff. left. apply add_is_nan, orb_true_iff. left.
    apply mul_is_nan, orb_true_iff. right. apply div_is_nan. by rewrite Ea, orb_true_r.
  - destruct (PrimFloat.is_nan l) eqn:El.
    + apply add_is_nan, orb_true_iff. right.
      apply mul_is_nan, orb_true_iff. right. apply div_is_nan. by rewrite El, orb_true_r.
    + destruct (PrimFloat.is_nan n) eqn:En.
      * apply add_is_nan, orb_true_iff. left. apply add_is_nan, orb_true_iff. right.
        apply mul_is_nan, orb_true_iff. right. apply div_is_nan. by rewrite En.
      * simpl in H. apply add_is_nan, orb_true_iff. right.
        apply mul_is_nan, orb_true_iff. right. apply div_is_nan. by rewrite H.
Qed.

Ltac score_cases :=
  repeat (simpl; try (intros; reflexivity); try (intros; contradiction);
          match goal with
          | |- context [match row_lookup ?k ?r with _ => _ end] =>
              destruct (row_lookup k r) as [[| ? | ? | ?]|]
          | |- context [PrimFloat.eqb ?a ?b] => destruct (PrimFloat.eqb a b)
          | |- context [Z.eqb ?a ?b] => destruct (Z.eqb a b)
          end).

(** C4, as the code has it.  For every row whose assets, liabilities,
    net income and equity are floats, [calculate_advanced_metrics]
    answers [None] exactly when assets == 0 or liabilities == 0, and
    otherwise the value 1.2*((assets-liabilities)/assets) +
    3.3*(net_income/assets) + 0.6*(equity/liabilities) passed through
    [round(_, 2)], which is [round(nan, 2)] when one of the four is NaN.
    For every row in which one of the four is absent, [None] or a
    string it answers [None], whatever assets and liabilities are. *)
Theorem altman_z_score_as_coded (round2 : float -> float) (r : row) :
  (forall a l n e : float,
     row_lookup "assets" r = Some (CNum a) ->
     row_lookup "liabilities" r = Some (CNum l) ->
     row_lookup "net_income" r = Some (CNum n) ->
     row_lookup "equity" r = Some (CNum e) ->
     (calculate_advanced_metrics round2 r = None <->
      PrimFloat.eqb a 0 = true \/ PrimFloat.eqb l 0 = true) /\
     (PrimFloat.eqb a 0 = false -> PrimFloat.eqb l 0 = false ->
      calculate_advanced_metrics round2 r =
      Some (round2 (1.2 * ((a - l) / a) + 3.3 * (n / a) + 0.6 * (e / l))%float)) /\
     (PrimFloat.eqb a 0 = false -> PrimFloat.eqb l 0 = false ->
      PrimFloat.is_nan a || PrimFloat.is_nan l || PrimFloat.is_nan n || PrimFloat.is_nan e
        = true ->
      calculate_advanced_metrics round2 r = Some (round2 PrimFloat.nan))) /\
  (forall k : string,
     In k score_fields -> not_numeric (row_lookup k r) ->
     calculate_advanced_metrics round2 r = None).
Proof.
  split.
  - intros a l n e Ha Hl Hn He.
    assert (Hf : PrimFloat.eqb a 0 = false -> PrimFloat.eqb l 0 = false ->
                 calculate_advanced_metrics round2 r =
                 Some (round2 (1.2 * ((a - l) / a) + 3.3 * (n / a) + 0.6 * (e / l))%float)).
    { intros Ea El.
      unfold calculate_advanced_metrics, advanced_metrics_try, row_get, py_sub, py_truediv.
      rewrite Ha, Hl, Hn, He. simpl. rewrite Ea. simpl. rewrite El. reflexivity. }
    split; [|split; [exact Hf|]].
    + unfold calculate_advanced_metrics, advanced_metrics_try, row_get, py_sub, py_truediv.
      rewrite Ha, Hl, Hn, He. simpl.
      destruct (PrimFloat.eqb a 0) eqn:Ea; simpl.
      * split; [intros _; by left | reflexivity].
      * destruct (PrimFloat.eqb l 0) eqn:El; simpl.
        -- split; [intros _; by right | reflexivity].
        -- split; [discriminate | intros [?|?]; discriminate].
    + intros Ea El Hnan. rewrite (Hf Ea El). by rewrite (z_formula_nan a l n e Hnan).
  - intros k Hk. unfold calculate_advanced_metrics, advanced_metrics_try, row_get,
      py_sub, py_truediv, py_eq0, cell_float.
    destruct Hk as [<-|[<-|[<-|[<-|[]]]]]; score_cases.
Qed.

Lemma altman_z_score_as_coded_witness :
  ((calculate_advanced_metrics (Num.around 100) sample_row = None <->
    PrimFloat.eqb 500 0 = true \/ PrimFloat.eqb 200 0 = true) /\
   (PrimFloat.eqb 500 0 = false -> PrimFloat.eqb 200 0 = false ->
    calculate_advanced_metrics (Num.around 100) sample_row =
    Some (Num.around 100
            (1.2 * ((500 - 200) / 500) + 3.3 * (10 / 500) + 0.6 * (300 / 200))%float)) /\
   (PrimFloat.eqb 500 0 = false -> PrimFloat.eqb 200 0 = false ->
    PrimFloat.is_nan 500 || PrimFloat.is_nan 200 || PrimFloat.is_nan 10 || PrimFloat.is_nan 300
      = true ->
    calculate_advanced_metrics (Num.around 100) sample_row
    = Some (Num.around 100 PrimFloat.nan))) /\
  calculate_advanced_metrics (Num.around 100)
    [("ticker", CStr "BARE"); ("assets", CNum 500); ("liabilities", CNone);
     ("net_income", CNum 10); ("equity", CNum 300)] = None.
Proof.
  split.
  - apply (proj1 (altman_z_score_as_coded (Num.around 100) sample_row) 500 200 10 300)%float;
      reflexivity.
  - apply (proj2 (altman_z_score_as_coded (Num.around 100) _) "liabilities").
    + right. left. reflexivity.
    + exact I.
Defined.

(** C4 as stated fails on a row without net income: assets and
    liabilities are not zero and the score is null. *)
Lemma altman_missing_figure_counterexample :
  calculate_advanced_metrics (Num.around 100)
    [("ticker", CStr "AAPL"); ("assets", CNum 500); ("liabilities", CNum 200);
     ("net_income", CNone); ("equity", CNum 300)] = None
  /\ PrimFloat.eqb 500 0 = false /\ PrimFloat.eqb 200 0 = false.
Proof. repeat split; vm_compute; reflexivity. Qed.

(** ** The ingestion loops *)

(** The SQLite loop visits every identifier: each one adds its record or
    its message, and whatever its [try] block does the loop goes on with
    the next. *)
Lemma sqlite_loop_spec (w : world) (tickers : list string) :
  forall idx results log,
    sqlite_loop w idx tickers results log =
    (results ++ run_records (sqlite_item w) idx tickers,
     log ++ run_messages (sqlite_item w) idx tickers).
Proof.
  induction tickers as [|t rest IH]; intros idx results log; simpl.
  - by rewrite !app_nil_r.
  - destruct (sqlite_item w idx t) as [[data|]|e]; simpl; rewrite IH;
      by rewrite <- ?app_assoc.
Qed.

Lemma mongo_item_ticker (w : world) (idx : nat) (t : string) (d : document) :
  mongo_item w idx t = Ok (Some d) -> ticker d = t.
Proof.
  unfold mongo_item. destruct (provider w t) as [e| |f]; simpl; try discriminate.
  destruct (py_gt0 _); simpl; [|discriminate]. by intros [= <-].
Qed.

Lemma mongo_loop_spec (w : world) (tickers : list string) :
  forall idx c log,
    mongo_loop w idx tickers c log =
    (upsert_all (run_records (mongo_item w) idx tickers) c,
     log ++ run_messages (mongo_item w) idx tickers).
Proof.
  induction tickers as [|t rest IH]; intros idx c log; simpl.
  - by rewrite app_nil_r.
  - destruct (mongo_item w idx t) as [[d|]|e] eqn:E; simpl; rewrite IH;
      rewrite <- ?app_assoc; try reflexivity.
    by rewrite (mongo_item_ticker _ _ _ _ E).
Qed.

(** Every identifier is accounted for once: by a record or by a message. *)
Lemma run_accounting {A : Type} (item : nat -> string -> res (option A))
    (tickers : list string) :
  forall idx,
    length (run_records item idx tickers) + length (run_messages item idx tickers)
    = length tickers.
Proof.
  induction tickers as [|t rest IH]; intros idx; simpl; [reflexivity|].
  rewrite !length_app. specialize (IH (S idx)).
  destruct (item idx t) as [[d|]|e]; simpl; lia.
Qed.

(** A run is the run of its first part followed by the run of the rest:
    nothing that happens to one identifier changes what the later ones
    contribute. *)
Lemma run_records_app {A : Type} (item : nat -> string -> res (option A))
    (ts1 ts2 : list string) :
  forall idx,
    run_records item idx (ts1 ++ ts2) =
    run_records item idx ts1 ++ run_records item (idx + length ts1) ts2.
Proof.
  induction ts1 as [|t rest IH]; intros idx; simpl.
  - by rewrite Nat.add_0_r.
  - rewrite IH, <- app_assoc. do 3 f_equal. lia.
Qed.

Lemma run_messages_app {A : Type} (item : nat -> string -> res (option A))
    (ts1 ts2 : list string) :
  forall idx,
    run_messages item idx (ts1 ++ ts2) =
    run_messages item idx ts1 ++ run_messages item (idx + length ts1) ts2.
Proof.
  induction ts1 as [|t rest IH]; intros idx; simpl.
  - by rewrite Nat.add_0_r.
  - rewrite IH, <- app_assoc. do 3 f_equal. lia.
Qed.

Lemma run_messages_items {A : Type} (item : nat -> string -> res (option A))
    (tickers : list string) :
  forall idx, Forall is_item_message (run_messages item idx tickers).
Proof.
  induction tickers as [|t rest IH]; intros idx; simpl; [constructor|].
  apply Forall_app. split; [|apply IH].
  destruct (item idx t) as [[d|]|e]; simpl; repeat constructor.
Qed.

(** An identifier whose processing raises is reported, it alone. *)
Lemma raising_item_is_reported {A : Type} (item : nat -> string -> res (option A))
    (ts1 ts2 : list string) (t : string) (e : exn) (idx : nat) :
  item (idx + length ts1) t = Raise e ->
  run_messages item idx (ts1 ++ t :: ts2) =
    run_messages item idx ts1 ++ ErrorFor t e :: run_messages item (S (idx + length ts1)) ts2
  /\ run_records item idx (ts1 ++ t :: ts2) =
    run_records item idx ts1 ++ run_records item (S (idx + length ts1)) ts2.
Proof.
  intros E. rewrite run_messages_app, run_records_app. simpl. by rewrite E.
Qed.

Lemma fetch_to_sqlite_spec (w : world) (tickers : list string) (db : database) :
  fetch_to_sqlite w tickers db =
  let results := run_records (sqlite_item w) 0 tickers in
  let log := run_messages (sqlite_item w) 0 tickers in
  match results with
  | [] => (Ok tt, db, log)
  | _ =>
      match to_sql_append (frame_of_records results) db with
      | (Ok _, db') => (Ok tt, db', log ++ [SuccessSaved (length results)])
      | (Raise e, db') => (Raise e, db', log)
      end
  end.
Proof. unfold fetch_to_sqlite. rewrite sqlite_loop_spec. reflexivity. Qed.

Lemma fetch_to_mongodb_spec (w : world) (tickers : list string) (m : mongo) (p : port) :
  get_mongo_client m = Some p ->
  fetch_to_mongodb w tickers m =
  (with_filings m p (upsert_all (run_records (mongo_item w) 0 tickers) (filings_of m p)),
   run_messages (mongo_item w) 0 tickers ++ [SuccessSynced (length tickers)]).
Proof.
  intros Hp. unfold fetch_to_mongodb. rewrite Hp, mongo_loop_spec. reflexivity.
Qed.

(** ** The batch write of [fetch_to_sqlite] *)

Lemma sqlite_item_keys (w : world) (idx : nat) (t : string) (data : row) :
  sqlite_item w idx t = Ok (Some data) -> map fst data = record_keys.
Proof.
  unfold sqlite_item. destruct (provider w t) as [e| |f]; simpl; try discriminate.
  destruct (sqlite_audit _); simpl; [|discriminate]. by intros [= <-].
Qed.

Lemma run_records_keys (w : world) (tickers : list string) :
  forall idx,
    Forall (fun data => map fst data = record_keys)
           (run_records (sqlite_item w) idx tickers).
Proof.
  induction tickers as [|t rest IH]; intros idx; simpl; [constructor|].
  apply Forall_app. split; [|apply IH].
  destruct (sqlite_item w idx t) as [[data|]|e] eqn:E; simpl; repeat constructor.
  by apply (sqlite_item_keys w idx t).
Qed.

Lemma frame_of_records_columns (r : row) (rs : list row) :
  Frame.columns (frame_of_records (r :: rs)) = map fst r.
Proof.
  unfold frame_of_records, Frame.columns. rewrite map_map. simpl.
  induction (map fst r) as [|k ks IH]; simpl; [reflexivity | by rewrite IH].
Qed.

(** The table that [init_sqlite_db] creates has no [audit_pass] column,
    while every ingested record has that key: the INSERT is refused
    whenever there is something to insert. *)
Lemma to_sql_append_refused (w : world) (tickers : list string) (t : table) :
  tcols t = tcols financials_schema ->
  run_records (sqlite_item w) 0 tickers <> [] ->
  to_sql_append (frame_of_records (run_records (sqlite_item w) 0 tickers)) (Some t)
  = (Raise (OperationalError "table financials has no column named audit_pass"), Some t).
Proof.
  intros Hcols Hne.
  pose proof (run_records_keys w tickers 0) as Hkeys.
  destruct (run_records (sqlite_item w) 0 tickers) as [|r rs]; [congruence|].
  inversion Hkeys as [|? ? Hr _]; subst.
  unfold to_sql_append, Sql.insert_rows, Sql.has_col.
  rewrite frame_of_records_columns, Hr, Hcols. reflexivity.
Qed.

Lemma fetch_to_sqlite_refused (w : world) (tickers : list string) (t : table) :
  tcols t = tcols financials_schema ->
  run_records (sqlite_item w) 0 tickers <> [] ->
  fetch_to_sqlite w tickers (Some t) =
  (Raise (OperationalError "table financials has no column named audit_pass"),
   Some t, run_messages (sqlite_item w) 0 tickers).
Proof.
  intros Hcols Hne.
  pose proof (to_sql_append_refused w tickers t Hcols Hne) as Hr.
  rewrite fetch_to_sqlite_spec. cbv zeta.
  destruct (run_records (sqlite_item w) 0 tickers); [congruence|].
  rewrite Hr. reflexivity.
Qed.

(** Hence a table with that schema is never changed by an ingestion. *)
Lemma fetch_to_sqlite_stores_nothing (w : world) (tickers : list string) (t : table) :
  tcols t = tcols financials_schema ->
  snd (fst (fetch_to_sqlite w tickers (Some t))) = Some t.
Proof.
  intros Hcols.
  destruct (run_records (sqlite_item w) 0 tickers) as [|r rs] eqn:E.
  - rewrite fetch_to_sqlite_spec. cbv zeta. rewrite E. reflexivity.
  - rewrite (fetch_to_sqlite_refused w tickers t Hcols); [reflexivity | congruence].
Qed.

(** Starting without a database file, no series of runs ever stores a
    row. *)
Lemma after_runs_empty (runs : list (world * list string)) :
  row_count (after_runs runs None) = 0.
Proof.
  assert (H : forall db, db = None \/ db = Some financials_schema ->
                         row_count (after_runs runs db) = 0).
  { induction runs as [|[w ts] rest IH]; intros db Hdb.
    - destruct Hdb as [-> | ->]; reflexivity.
    - simpl. apply IH. right. unfold press_fetch_to_sqlite.
      replace (init_sqlite_db db) with (Some financials_schema)
        by (destruct Hdb as [-> | ->]; reflexivity).
      by apply fetch_to_sqlite_stores_nothing. }
  apply H. by left.
Qed.

(** C1, at the input of the specification's test.  On the table that
    [init_sqlite_db] has just created, ingesting the valid "AAPL" and the
    unknown "ZZZZ" reports the error for "ZZZZ", then the batch write,
    which stands outside the per-item handler, raises to the caller and
    no record is persisted. *)
Theorem ingest_valid_and_invalid_sqlite :
  fetch_to_sqlite (sample_world 2025) ["AAPL"; "ZZZZ"] (init_sqlite_db None) =
  (Raise (OperationalError "table financials has no column named audit_pass"),
   Some financials_schema,
   [ErrorFor "ZZZZ" (ProviderError "unknown ticker")])
  /\ row_count (Some financials_schema) = 0.
Proof. split; vm_compute; reflexivity. Qed.

(** The document backend does what C1 says: one document written, one
    error reported, and the call returns. *)
Lemma ingest_valid_and_invalid_mongo (w : world) (m : mongo) (p : port)
    (t1 t2 : string) (d : document) (e : exn) :
  get_mongo_client m = Some p ->
  mongo_item w 0 t1 = Ok (Some d) ->
  mongo_item w 1 t2 = Raise e ->
  fetch_to_mongodb w [t1; t2] m =
  (with_filings m p (update_one t1 d (filings_of m p)),
   [ErrorFor t2 e; SuccessSynced 2]).
Proof.
  intros Hp H1 H2. rewrite (fetch_to_mongodb_spec w _ m p Hp). simpl.
  rewrite H1, H2. simpl. by rewrite (mongo_item_ticker _ _ _ _ H1).
Qed.

(** ** Validation *)



(** The two rules disagree, for instance on a filing whose equity is off
    by two million: the document path passes what the relational path
    fails. *)
Example audit_rules_diverge :
  sqlite_audit [("assets", CNum 5000000); ("liabilities", CNum 2000000);
                ("equity", CNum 1000000)] = Ok 0%Z
  /\ py_gt0 (CNum 5000000) = Ok true.
Proof. split; vm_compute; reflexivity. Qed.

(** ** What a run reports *)

Lemma infer_column_length (s : series) : length (infer_column s) = length s.
Proof.
  unfold infer_column.
  destruct (forallb _ s && existsb is_number s && existsb is_none s);
    [apply length_map | reflexivity].
Qed.

Lemma rows_length (df : DataFrame) : length (Frame.rows df) = Frame.nrows df.
Proof. unfold Frame.rows. by rewrite length_map, length_seq. Qed.

Lemma frame_of_records_nrows (r : row) (rs : list row) :
  map fst r = record_keys ->
  Frame.nrows (frame_of_records (r :: rs)) = S (length rs).
Proof.
  intros Hr. unfold frame_of_records. rewrite Hr. simpl.
  rewrite infer_column_length. simpl. by rewrite length_map.
Qed.

(** An accepted batch write adds one row per row of the frame. *)
Lemma to_sql_append_row_count (df : DataFrame) (db db' : database) :
  to_sql_append df db = (Ok tt, db') ->
  row_count db' = row_count db + Frame.nrows df.
Proof.
  unfold to_sql_append.
  destruct (Sql.insert_rows _ _ _) as [t'|e] eqn:Ei; [|discriminate].
  intros [= <-]. revert Ei. unfold Sql.insert_rows.
  destruct (filter _ _); [|discriminate].
  destruct (forallb Sql.bindable_row _); simpl; [|discriminate].
  destruct (match tkey _ with [] => true | _ => _ end); [|discriminate].
  intros [= <-]. simpl. rewrite length_app, length_map, rows_length.
  by destruct db.
Qed.

Lemma item_messages_not_success (msgs : list message) (n : nat) :
  Forall is_item_message msgs -> ~ In (SuccessSaved n) msgs.
Proof.
  intros H Hin. rewrite Forall_forall in H.
  apply list_elem_of_In in Hin. exact (H _ Hin).
Qed.

(** What a relational run shows: one warning for each identifier
    without a 10-K and one error for each identifier whose processing
    raised, and no count of either; the success message appears exactly
    when the call returns with at least one record fetched, and the
    number it shows is the number of rows the run has persisted. *)
Lemma sqlite_run_report (w : world) (tickers : list string) (db db' : database)
    (r : res unit) (log : list message) :
  fetch_to_sqlite w tickers db = (r, db', log) ->
  let items := run_messages (sqlite_item w) 0 tickers in
  let results := run_records (sqlite_item w) 0 tickers in
  Forall is_item_message items /\
  length results + length items = length tickers /\
  (log = items \/ log = items ++ [SuccessSaved (length results)]) /\
  (forall n, In (SuccessSaved n) log <->
             r = Ok tt /\ results <> [] /\ n = length results) /\
  (forall n, In (SuccessSaved n) log -> row_count db' = row_count db + n).
Proof.
  intros H items results.
  pose proof (run_messages_items (sqlite_item w) tickers 0) as Hitems.
  pose proof (run_records_keys w tickers 0) as Hkeys.
  fold items in Hitems. fold results in Hkeys.
  split; [exact Hitems|]. split; [apply run_accounting|].
  rewrite fetch_to_sqlite_spec in H. cbv zeta in H. fold items results in H.
  destruct results as [|r0 rs] eqn:E.
  - inversion H; subst; clear H. split; [by left|]. split.
    + intros n. split.
      * intros Hin. by destruct (item_messages_not_success _ n Hitems).
      * intros (_ & Hne & _). congruence.
    + intros n Hin. by destruct (item_messages_not_success _ n Hitems).
  - destruct (to_sql_append (frame_of_records (r0 :: rs)) db) as [[[]|e] db1] eqn:Ew;
      inversion H; subst; clear H.
    + split; [by right|].
      assert (Hin : forall n, In (SuccessSaved n) (items ++ [SuccessSaved (length (r0 :: rs))])
                              -> n = length (r0 :: rs)).
      { intros n Hin. apply in_app_or in Hin as [Hin|[Hin|[]]].
        - by destruct (item_messages_not_success _ n Hitems).
        - congruence. }
      split.
      * intros n. split.
        -- intros Hn. split; [reflexivity|]. split; [discriminate | by apply Hin].
        -- intros (_ & _ & ->). apply in_or_app. right. by left.
      * intros n Hn. rewrite (Hin n Hn).
        rewrite (to_sql_append_row_count _ _ _ Ew). f_equal.
        inversion Hkeys; subst. by apply frame_of_records_nrows.
    + split; [by left|]. split.
      * intros n. split.
        -- intros Hin. by destruct (item_messages_not_success _ n Hitems).
        -- intros (Hr & _). discriminate.
      * intros n Hin. by destruct (item_messages_not_success _ n Hitems).
Qed.

(** The success line of the document path shows the length of the
    ticker list, whatever was written: the documents written are one
    for each identifier that was neither skipped nor failed. *)
Lemma synced_count_is_list_length (w : world) (tickers : list string) (m : mongo) (p : port) :
  get_mongo_client m = Some p ->
  let records := run_records (mongo_item w) 0 tickers in
  let items := run_messages (mongo_item w) 0 tickers in
  fetch_to_mongodb w tickers m =
    (with_filings m p (upsert_all records (filings_of m p)),
     items ++ [SuccessSynced (length tickers)]) /\
  Forall is_item_message items /\
  length records + length items = length tickers.
Proof.
  intros Hp. cbv zeta. split; [by apply fetch_to_mongodb_spec|].
  split; [apply run_messages_items | apply run_accounting].
Qed.

(** On the table that [init_sqlite_db] creates the success line of the
    relational path is never shown. *)
Lemma saved_line_never_shown (w : world) (tickers : list string) (t : table) (n : nat) :
  tcols t = tcols financials_schema ->
  ~ In (SuccessSaved n) (snd (fetch_to_sqlite w tickers (Some t))).
Proof.
  intros Hcols.
  pose proof (run_messages_items (sqlite_item w) tickers 0) as Hitems.
  destruct (run_records (sqlite_item w) 0 tickers) as [|r rs] eqn:E.
  - rewrite fetch_to_sqlite_spec. cbv zeta. rewrite E. simpl.
    by apply item_messages_not_success.
  - rewrite (fetch_to_sqlite_refused w tickers t Hcols) by congruence. simpl.
    by apply item_messages_not_success.
Qed.

(** C9, at a run with one valid and one invalid identifier.  The
    document path writes one document, shows the error of the other
    identifier and reports 2 companies synced, the length of the list.
    The relational path, on a table that has the columns of the frame,
    reports the 1 record it saved; on the table of [init_sqlite_db] it
    raises and reports no success.  Neither shows a count of skipped or
    failed identifiers. *)
Theorem run_report_at_partial_success :
  fetch_to_mongodb (sample_world 2025) ["AAPL"; "ZZZZ"] (mongo_up []) =
    (mongo_up [aapl_document 2025 0],
     [ErrorFor "ZZZZ" (ProviderError "unknown ticker"); SuccessSynced 2])
  /\ run_records (mongo_item (sample_world 2025)) 0 ["AAPL"; "ZZZZ"] = [aapl_document 2025 0]
  /\ fetch_to_sqlite (sample_world 2025) ["AAPL"; "ZZZZ"] (Some widened_schema) =
    (Ok tt, Some (widened_with [aapl_stored_row 2025]),
     [ErrorFor "ZZZZ" (ProviderError "unknown ticker"); SuccessSaved 1])
  /\ fetch_to_sqlite (sample_world 2025) ["AAPL"; "ZZZZ"] (Some financials_schema) =
    (Raise (OperationalError "table financials has no column named audit_pass"),
     Some financials_schema, [ErrorFor "ZZZZ" (ProviderError "unknown ticker")]).
Proof. repeat split; vm_compute; reflexivity. Qed.

(** ** Keys of the two stores *)

(** *** Document store: one document per ticker *)

Lemma update_one_tickers (t : string) (d : document) (c : collection) :
  ticker d = t ->
  ticker <$> update_one t d c =
  if decide (t ∈ (ticker <$> c)) then ticker <$> c else (ticker <$> c) ++ [t].
Proof.
  intros Hd. induction c as [|d0 rest IH].
  - simpl. rewrite Hd. destruct (decide (t ∈ (ticker <$> []))) as [Hin|_]; [|reflexivity].
    by apply not_elem_of_nil in Hin.
  - change (ticker <$> d0 :: rest) with (ticker d0 :: (ticker <$> rest)).
    simpl update_one.
    destruct (String.eqb_spec (ticker d0) t) as [E|Hne].
    + change (ticker <$> d :: rest) with (ticker d :: (ticker <$> rest)).
      rewrite decide_True by (rewrite E; apply list_elem_of_here). by rewrite Hd, E.
    + change (ticker <$> d0 :: update_one t d rest)
        with (ticker d0 :: (ticker <$> update_one t d rest)).
      rewrite IH. destruct (decide (t ∈ (ticker <$> rest))) as [Hin|Hnin].
      * rewrite decide_True by (by apply list_elem_of_further). reflexivity.
      * rewrite decide_False; [reflexivity|].
        intros Hin. apply elem_of_cons in Hin as [?|?]; [congruence | done].
Qed.

Lemma update_one_unique (t : string) (d : document) (c : collection) :
  ticker d = t -> NoDup (ticker <$> c) -> NoDup (ticker <$> update_one t d c).
Proof.
  intros Hd Hc. rewrite (update_one_tickers t d c Hd).
  destruct (decide (t ∈ (ticker <$> c))) as [Hin|Hnin]; [exact Hc|].
  apply NoDup_app. split; [exact Hc|]. split; [|apply NoDup_singleton].
  intros x Hx Hx'. apply list_elem_of_singleton in Hx'. congruence.
Qed.

Lemma update_one_length (t : string) (d : document) (c : collection) :
  ticker d = t ->
  length (update_one t d c) = if decide (t ∈ (ticker <$> c)) then length c else S (length c).
Proof.
  intros Hd.
  rewrite <- (length_fmap ticker (update_one t d c)), (update_one_tickers t d c Hd).
  destruct (decide _); [apply length_fmap|].
  rewrite length_app, length_fmap. simpl. lia.
Qed.

(** After the upsert the only document of ticker [t] is the new one:
    what was stored for [t] before is gone. *)
Lemma update_one_elem (t : string) (d d' : document) (c : collection) :
  NoDup (ticker <$> c) ->
  d' ∈ update_one t d c -> d' = d \/ (d' ∈ c /\ ticker d' <> t).
Proof.
  induction c as [|d0 rest IH]; simpl; intros Hc.
  - intros H. apply list_elem_of_singleton in H. by left.
  - apply NoDup_cons in Hc as [Hd0 Hrest].
    destruct (String.eqb_spec (ticker d0) t) as [E|Hne]; intros H;
      apply elem_of_cons in H as [->|H].
    + by left.
    + right. split; [by apply list_elem_of_further|].
      intros Ht. apply Hd0. rewrite E, <- Ht. by apply list_elem_of_fmap_2.
    + right. split; [apply list_elem_of_here | exact Hne].
    + destruct (IH Hrest H) as [->|[Hin Ht]]; [by left|].
      right. split; [by apply list_elem_of_further | exact Ht].
Qed.

Lemma update_one_holds (t : string) (d : document) (c : collection) :
  d ∈ update_one t d c.
Proof.
  induction c as [|d0 rest IH]; simpl.
  - apply list_elem_of_here.
  - destruct (String.eqb (ticker d0) t).
    + apply list_elem_of_here.
    + by apply list_elem_of_further.
Qed.

Lemma upsert_all_unique (ds : list document) :
  forall c, NoDup (ticker <$> c) -> NoDup (ticker <$> upsert_all ds c).
Proof.
  induction ds as [|d ds IH]; intros c Hc; simpl; [exact Hc|].
  apply IH. by apply update_one_unique.
Qed.

Lemma filings_of_with_filings (m : mongo) (p : port) (c : collection) :
  filings_of (with_filings m p c) p = c.
Proof. by destruct p. Qed.

(** The collection holds at most one document per ticker, run after
    run. *)
Lemma fetch_to_mongodb_unique (w : world) (tickers : list string) (m : mongo) (p : port) :
  get_mongo_client m = Some p ->
  NoDup (ticker <$> filings_of m p) ->
  NoDup (ticker <$> filings_of (fst (fetch_to_mongodb w tickers m)) p).
Proof.
  intros Hp Hc. rewrite (fetch_to_mongodb_spec w tickers m p Hp). simpl.
  rewrite filings_of_with_filings. by apply upsert_all_unique.
Qed.

(** Re-ingesting a ticker that is stored replaces its document: the
    collection keeps its size, and the old document is not to be found
    under that ticker any more. *)
Lemma reingest_overwrites_document (w : world) (m : mongo) (p : port) (t : string)
    (d : document) :
  get_mongo_client m = Some p ->
  NoDup (ticker <$> filings_of m p) ->
  t ∈ (ticker <$> filings_of m p) ->
  mongo_item w 0 t = Ok (Some d) ->
  let c' := filings_of (fst (fetch_to_mongodb w [t] m)) p in
  length c' = length (filings_of m p) /\
  d ∈ c' /\
  forall d', d' ∈ c' -> ticker d' = t -> d' = d.
Proof.
  intros Hp Hc Ht Hd. rewrite (fetch_to_mongodb_spec w [t] m p Hp). simpl.
  rewrite filings_of_with_filings, Hd. simpl.
  pose proof (mongo_item_ticker _ _ _ _ Hd) as Htd. rewrite Htd.
  split; [|split].
  - rewrite (update_one_length t d _ Htd). by rewrite decide_True.
  - apply update_one_holds.
  - intros d' Hin Ht'. destruct (update_one_elem t d d' _ Hc Hin) as [->|[_ Hne]]; done.
Qed.

(** *** Relational store: (ticker, year) is the key *)

(** What [key_unique] checks: two rows at different places differ on the
    key. *)
Lemma key_unique_spec (key : list string) (rs : list row) :
  Sql.key_unique key rs = true ->
  forall i j r r', i < j -> rs !! i = Some r -> rs !! j = Some r' ->
    Sql.key_eqb (Sql.key_of key r) (Sql.key_of key r') = false.
Proof.
  induction rs as [|r0 rest IH]; simpl; [intros _ i j r r' _ Hi; discriminate|].
  intros H. apply andb_true_iff in H as [Hhead Hrest].
  intros [|i] [|j] r r' Hij Hi Hj; simpl in *; try lia.
  - injection Hi as ->. apply negb_true_iff in Hhead.
    destruct (Sql.key_eqb _ _) eqn:E; [|reflexivity].
    assert (existsb (fun r'0 => Sql.key_eqb (Sql.key_of key r) (Sql.key_of key r'0)) rest = true);
      [|congruence].
    apply existsb_exists. exists r'. split; [|exact E].
    apply list_elem_of_In, list_elem_of_lookup. eauto.
  - apply (IH Hrest i j); [lia | assumption | assumption].
Qed.


(** The table of [init_sqlite_db] is keyed by (ticker, year), and stays
    so: no run changes it. *)
Lemma relational_key_invariant (runs : list (world * list string)) :
  match after_runs runs None with
  | None => runs = []
  | Some t => tkey t = ["ticker"; "year"] /\
              Sql.key_unique (tkey t) (trows t) = true
  end.
Proof.
  assert (H : forall rs, after_runs rs (Some financials_schema) = Some financials_schema).
  { induction rs as [|[w ts] rest IH]; [reflexivity|].
    simpl. unfold press_fetch_to_sqlite. simpl init_sqlite_db.
    rewrite fetch_to_sqlite_stores_nothing by reflexivity. exact IH. }
  destruct runs as [|[w ts] rest]; [reflexivity|].
  simpl. unfold press_fetch_to_sqlite. simpl init_sqlite_db.
  rewrite fetch_to_sqlite_stores_nothing by reflexivity.
  rewrite H. split; reflexivity.
Qed.

(** C3, at the input of the specification's test.  With the relational
    backend on a new installation, ingesting "AAPL" in 2024 and again in
    2025 raises both times at the batch write, and the table holds no
    row afterwards: no second row is appended, nor a first one. *)
Theorem reingest_new_year_sqlite :
  press_fetch_to_sqlite (sample_world 2024) ["AAPL"] None =
    (Raise (OperationalError "table financials has no column named audit_pass"),
     Some financials_schema, [])
  /\ press_fetch_to_sqlite (sample_world 2025) ["AAPL"] (Some financials_schema) =
    (Raise (OperationalError "table financials has no column named audit_pass"),
     Some financials_schema, [])
  /\ row_count (after_runs [(sample_world 2024, ["AAPL"]); (sample_world 2025, ["AAPL"])] None) = 0.
Proof. repeat split; vm_compute; reflexivity. Qed.

(** Had the table the [audit_pass] column, the key would do what C3
    says: a new year appends a row, the same year is refused. *)
Example reingest_new_year_widened :
  fetch_to_sqlite (sample_world 2025) ["AAPL"] (Some (widened_with [aapl_stored_row 2024])) =
    (Ok tt, Some (widened_with [aapl_stored_row 2024; aapl_stored_row 2025]),
     [SuccessSaved 1])
  /\ fetch_to_sqlite (sample_world 2025) ["AAPL"] (Some (widened_with [aapl_stored_row 2025])) =
    (Raise IntegrityError, Some (widened_with [aapl_stored_row 2025]), []).
Proof. split; vm_compute; reflexivity. Qed.

(** The document backend at the same input keeps the 2025 document
    only. *)
Example reingest_new_year_mongo :
  fetch_to_mongodb (sample_world 2025) ["AAPL"]
    (fst (fetch_to_mongodb (sample_world 2024) ["AAPL"] (mongo_up []))) =
  (mongo_up [aapl_document 2025 0], [SuccessSynced 1]).
Proof. vm_compute. reflexivity. Qed.

(** ** Round trips *)

Lemma lookup_map {A B : Type} (f : A -> B) (l : list A) (i : nat) :
  map f l !! i = f <$> (l !! i).
Proof.
  revert i. induction l as [|x l IH]; intros [|i]; simpl; try reflexivity. apply IH.
Qed.

Lemma infer_column_numbers (xs : list float) :
  infer_column (map CNum xs) = map CNum xs.
Proof.
  unfold infer_column.
  replace (existsb is_none (map CNum xs)) with false; [by rewrite andb_false_r|].
  induction xs as [|x xs IH]; simpl; [reflexivity | exact IH].
Qed.

(** Inference never touches a float that is there. *)
Lemma infer_column_keeps_number (s : series) (i : nat) (x : float) :
  s !! i = Some (CNum x) -> infer_column s !! i = Some (CNum x).
Proof.
  intros H. unfold infer_column.
  destruct (forallb _ s && existsb is_number s && existsb is_none s); [|exact H].
  rewrite lookup_map, H. reflexivity.
Qed.

Lemma numeric_column (c : collection) (f : financials_doc -> cell) :
  Forall (fun d => f (doc_financials d) = CNum (number_of (f (doc_financials d)))) c ->
  infer_column (map (fun d => f (doc_financials d)) c) =
  map CNum (map (fun d => number_of (f (doc_financials d))) c).
Proof.
  intros H. rewrite <- infer_column_numbers. f_equal.
  rewrite map_map. induction H as [|d c Hd _ IH]; simpl; [reflexivity|].
  by rewrite <- Hd, IH.
Qed.

Lemma numeric_doc_fields (c : collection) :
  Forall numeric_doc c ->
  forall f, In f [revenue; net_income; total_assets; total_liabilities] ->
    Forall (fun d => f (doc_financials d) = CNum (number_of (f (doc_financials d)))) c.
Proof.
  intros H f Hf. eapply Forall_impl; [exact H|].
  intros d (r & n & a & l & ->).
  destruct Hf as [<-|[<-|[<-|[<-|[]]]]]; reflexivity.
Qed.

(** The table loaded from a collection of numeric documents: one row per
    document, the four figures as stored and [equity] their difference. *)
Lemma mongo_frame_numeric (c : collection) :
  Forall numeric_doc c ->
  exists df,
    mongo_frame c = Ok df /\
    Frame.columns df = ["ticker"; "revenue"; "net_income"; "assets"; "liabilities"; "equity"] /\
    (c <> [] -> Frame.nrows df = length c) /\
    forall i d, c !! i = Some d ->
      Frame.row_at df i =
      flat_row d (CNum (PrimFloat.sub (number_of (total_assets (doc_financials d)))
                                      (number_of (total_liabilities (doc_financials d))))).
Proof.
  intros H. pose proof (numeric_doc_fields c H) as Hf.
  unfold mongo_frame.
  rewrite !(numeric_column c) by (apply Hf; simpl; tauto).
  unfold series_sub. rewrite series_zip_numbers. simpl.
  eexists. split; [reflexivity|]. split; [reflexivity|]. split.
  - intros _. simpl. by rewrite length_map.
  - intros i d Hd. unfold Frame.row_at, flat_row. simpl.
    assert (Hnum : forall f, In f [revenue; net_income; total_assets; total_liabilities] ->
              map CNum (map (fun d => number_of (f (doc_financials d))) c) !! i
              = Some (f (doc_financials d))).
    { intros f Hin. rewrite !lookup_map, Hd. simpl.
      pose proof (Hf f Hin) as HF. rewrite Forall_forall in HF.
      rewrite <- (HF d); [reflexivity|]. apply list_elem_of_lookup. eauto. }
    rewrite lookup_map, Hd. simpl.
    rewrite !Hnum by (simpl; tauto).
    rewrite (lookup_zip_numbers PrimFloat.sub _ _ i
               (number_of (total_assets (doc_financials d)))
               (number_of (total_liabilities (doc_financials d))))
      by (rewrite lookup_map, Hd; reflexivity).
    reflexivity.
Qed.


Lemma get_mongo_client_with_filings (m : mongo) (p : port) (c : collection) :
  get_mongo_client m = Some p -> get_mongo_client (with_filings m p c) = Some p.
Proof.
  unfold get_mongo_client. destruct m as [[c17|] [c18|]], p; simpl; congruence.
Qed.

(** Loading from a reachable server whose documents are numeric. *)
Lemma load_mongo_numeric (db : database) (m : mongo) (p : port) :
  get_mongo_client m = Some p ->
  filings_of m p <> [] ->
  Forall numeric_doc (filings_of m p) ->
  exists df,
    load MongoDB db m = (df, [SidebarLoaded (Frame.nrows df)]) /\
    mongo_frame (filings_of m p) = Ok df.
Proof.
  intros Hp Hne Hnum. destruct (mongo_frame_numeric _ Hnum) as (df & Hdf & _).
  exists df. split; [|exact Hdf]. unfold load. rewrite Hp.
  destruct (filings_of m p) as [|d c]; [congruence|]. by rewrite Hdf.
Qed.



(** *** Relational path *)

Lemma infer_column_keeps_plain (s : series) (i : nat) (v : cell) :
  plain v = true -> s !! i = Some v -> infer_column s !! i = Some v.
Proof.
  intros Hv H. unfold infer_column.
  destruct (forallb _ s && existsb is_number s && existsb is_none s); [|exact H].
  rewrite lookup_map, H. by destruct v.
Qed.

Lemma lookup_col_tabulate (g : string -> series) (ks : list string) (c : string) :
  In c ks -> Frame.lookup_col c (map (fun k => (k, g k)) ks) = Some (g c).
Proof.
  induction ks as [|k ks IH]; simpl; [tauto|].
  destruct (String.eqb_spec c k) as [->|Hne]; [reflexivity|].
  intros [?|Hin]; [congruence | by apply IH].
Qed.

Lemma row_lookup_row_at (df : DataFrame) (c : string) (s : series) (i : nat) (v : cell) :
  Frame.lookup_col c df = Some s -> s !! i = Some v ->
  row_lookup c (Frame.row_at df i) = Some v.
Proof.
  unfold Frame.row_at. induction df as [|[k s0] rest IH]; simpl; [discriminate|].
  destruct (String.eqb_spec c k) as [->|Hne].
  - intros [= ->] Hv. rewrite Hv. simpl. by rewrite String.eqb_refl.
  - intros Hs Hv. destruct (s0 !! i); simpl; [|by apply IH].
    destruct (String.eqb_spec c k); [congruence | by apply IH].
Qed.

Lemma stored_row_lookup (cols : list string) (r : row) (c : string) :
  In c cols ->
  row_lookup c (Sql.stored_row cols r) =
  Some (Sql.bind_value (default CNone (row_lookup c r))).
Proof.
  unfold Sql.stored_row. induction cols as [|k ks IH]; simpl; [tauto|].
  destruct (String.eqb_spec c k) as [->|Hne]; [reflexivity|].
  intros [?|Hin]; [congruence | by apply IH].
Qed.



(** ** The shape of the loaded table *)

Lemma read_sql_all_columns (t : table) :
  exists df, read_sql_all (Some t) = Ok df /\ Frame.columns df = tcols t.
Proof.
  eexists. split; [reflexivity|]. unfold Frame.columns. rewrite map_map. simpl.
  apply map_id.
Qed.

(** What [SELECT *] shows of a stored value that is a string or a
    non-NaN number: the value, at the place of its row. *)
Lemma read_sql_all_value (t : table) (i : nat) (r : row) (c : string) (v : cell) :
  trows t !! i = Some r -> In c (tcols t) -> row_lookup c r = Some v -> plain v = true ->
  exists df s,
    read_sql_all (Some t) = Ok df /\ Frame.lookup_col c df = Some s /\ s !! i = Some v.
Proof.
  intros Hi Hc Hv Hplain. simpl. eexists _, _. split; [reflexivity|]. split.
  - apply (lookup_col_tabulate
             (fun c => infer_column (map (fun r => default CNone (row_lookup c r)) (trows t)))).
    exact Hc.
  - apply infer_column_keeps_plain; [exact Hplain|].
    rewrite lookup_map, Hi. simpl. by rewrite Hv.
Qed.

(** C6, as the code has it.  For every relational table with the schema
    of [init_sqlite_db] and every non-empty collection of numeric
    documents on a reachable server, both read paths give a table.  The
    document one has the columns ticker, revenue, net_income, assets,
    liabilities, equity, its rows showing the stored figures of the
    documents with assets - liabilities for equity.  The relational one
    has these six columns and year in addition, and shows the stored
    strings and non-NaN numbers as they are. *)
Theorem read_paths_shape (t : table) (m : mongo) (p : port) :
  tcols t = tcols financials_schema ->
  get_mongo_client m = Some p ->
  filings_of m p <> [] ->
  Forall numeric_doc (filings_of m p) ->
  exists sql doc,
    fst (load SQLite (Some t) m) = sql /\
    fst (load MongoDB (Some t) m) = doc /\
    Frame.columns doc =
      ["ticker"; "revenue"; "net_income"; "assets"; "liabilities"; "equity"] /\
    Frame.columns sql =
      ["ticker"; "year"; "revenue"; "net_income"; "assets"; "liabilities"; "equity"] /\
    (forall c, In c (Frame.columns doc) -> In c (Frame.columns sql)) /\
    In "year" (Frame.columns sql) /\ ~ In "year" (Frame.columns doc) /\
    (forall i d, filings_of m p !! i = Some d ->
       Frame.row_at doc i =
       flat_row d (CNum (PrimFloat.sub (number_of (total_assets (doc_financials d)))
                                       (number_of (total_liabilities (doc_financials d)))))) /\
    (forall i r c v,
       trows t !! i = Some r -> In c (tcols t) -> row_lookup c r = Some v ->
       plain v = true ->
       exists s, Frame.lookup_col c sql = Some s /\ s !! i = Some v).
Proof.
  intros Hcols Hp Hne Hnum.
  destruct (load_mongo_numeric (Some t) m p Hp Hne Hnum) as (doc & Hload & Hframe).
  destruct (mongo_frame_numeric _ Hnum) as (doc' & Hframe' & Hdoc & _ & Hrows).
  assert (doc' = doc) by congruence. subst doc'.
  destruct (read_sql_all_columns t) as (sql & Hsql & Hsqlcols).
  exists sql, doc. rewrite Hload. unfold load. rewrite Hsql. simpl.
  rewrite Hdoc, Hsqlcols, Hcols. simpl.
  repeat split; try reflexivity.
  - intros c Hc. tauto.
  - tauto.
  - intros [H|[H|[H|[H|[H|[H|[]]]]]]]; discriminate.
  - exact Hrows.
  - intros i r c v Hi Hc Hv Hplain.
    assert (Hc' : In c (tcols t)) by (rewrite Hcols; exact Hc).
    destruct (read_sql_all_value t i r c v Hi Hc' Hv Hplain) as (sql' & s & Hsql' & Hs).
    assert (sql' = sql) by congruence. subst sql'. eauto.
Qed.

Lemma read_paths_shape_witness :
  exists sql doc,
    fst (load SQLite (Some (aapl_table 2025)) (mongo_up [aapl_document 2025 0])) = sql /\
    fst (load MongoDB (Some (aapl_table 2025)) (mongo_up [aapl_document 2025 0])) = doc /\
    Frame.columns doc =
      ["ticker"; "revenue"; "net_income"; "assets"; "liabilities"; "equity"] /\
    Frame.columns sql =
      ["ticker"; "year"; "revenue"; "net_income"; "assets"; "liabilities"; "equity"] /\
    (forall c, In c (Frame.columns doc) -> In c (Frame.columns sql)) /\
    In "year" (Frame.columns sql) /\ ~ In "year" (Frame.columns doc) /\
    (forall i d, filings_of (mongo_up [aapl_document 2025 0]) P27017 !! i = Some d ->
       Frame.row_at doc i =
       flat_row d (CNum (PrimFloat.sub (number_of (total_assets (doc_financials d)))
                                       (number_of (total_liabilities (doc_financials d)))))) /\
    (forall i r c v,
       trows (aapl_table 2025) !! i = Some r -> In c (tcols (aapl_table 2025)) ->
       row_lookup c r = Some v -> plain v = true ->
       exists s, Frame.lookup_col c sql = Some s /\ s !! i = Some v).
Proof.
  apply (read_paths_shape (aapl_table 2025) (mongo_up [aapl_document 2025 0]) P27017).
  - reflexivity.
  - reflexivity.
  - discriminate.
  - repeat constructor. exists 100%float, 10%float, 500%float, 200%float. reflexivity.
Defined.

(** C6 as stated fails where both stores hold the very same figures for
    AAPL: the relational table comes with seven columns, the document
    table with six. *)
Lemma read_paths_differ_counterexample :
  fst (load SQLite (Some (aapl_table 2025)) (mongo_up [aapl_document 2025 0])) =
    [ ("ticker", [CStr "AAPL"]); ("year", [CInt 2025]); ("revenue", [CNum 100]);
      ("net_income", [CNum 10]); ("assets", [CNum 500]); ("liabilities", [CNum 200]);
      ("equity", [CNum 300]) ]
  /\ fst (load MongoDB (Some (aapl_table 2025)) (mongo_up [aapl_document 2025 0])) =
    [ ("ticker", [CStr "AAPL"]); ("revenue", [CNum 100]);
      ("net_income", [CNum 10]); ("assets", [CNum 500]); ("liabilities", [CNum 200]);
      ("equity", [CNum 300]) ]
  /\ Frame.columns (fst (load SQLite (Some (aapl_table 2025)) (mongo_up [aapl_document 2025 0])))
     <> Frame.columns (fst (load MongoDB (Some (aapl_table 2025)) (mongo_up [aapl_document 2025 0]))).
Proof.
  split; [vm_compute; reflexivity|]. split; [vm_compute; reflexivity|].
  vm_compute. discriminate.
Qed.

(** ** The query box *)

(** The database after a query is the one the engine leaves: the
    program neither inspects the statement nor restores anything. *)
Lemma sql_query_interface_state
    (read_sql : string -> database -> res DataFrame * database)
    (search_query : string) (db : database) :
  fst (sql_query_interface read_sql search_query db) = snd (read_sql search_query db).
Proof.
  unfold sql_query_interface. by destruct (read_sql search_query db) as [[df|e] db'].
Qed.

(** * Further properties *)

(** ** The ticker box *)

Example parse_default_input :
  parse_tickers "NVDA, AAPL, MSFT, TSLA, JPM, WMT, LLY, XOM, GOOGL, AMZN" =
  ["NVDA"; "AAPL"; "MSFT"; "TSLA"; "JPM"; "WMT"; "LLY"; "XOM"; "GOOGL"; "AMZN"]
  /\ parse_tickers " aapl ,, msft,  " = ["AAPL"; "MSFT"]
  /\ parse_tickers " , ,  " = [].
Proof. repeat split; vm_compute; reflexivity. Qed.

Lemma upper_char_space (a : ascii) : Text.is_space (Text.upper_char a) = Text.is_space a.
Proof. destruct a as [[] [] [] [] [] [] [] []]; reflexivity. Qed.

Lemma upper_char_comma (a : ascii) : Text.is_comma (Text.upper_char a) = Text.is_comma a.
Proof. destruct a as [[] [] [] [] [] [] [] []]; reflexivity. Qed.

Lemma upper_char_idem (a : ascii) : Text.upper_char (Text.upper_char a) = Text.upper_char a.
Proof. destruct a as [[] [] [] [] [] [] [] []]; reflexivity. Qed.

Lemma comma_not_space (a : ascii) : Text.is_comma a = true -> Text.is_space a = false.
Proof. destruct a as [[] [] [] [] [] [] [] []]; (reflexivity || discriminate). Qed.

Lemma upper_idem (s : string) : Text.upper (Text.upper s) = Text.upper s.
Proof. induction s as [|a s IH]; simpl; [reflexivity | by rewrite upper_char_idem, IH]. Qed.

Lemma upper_empty (s : string) : Text.upper s = EmptyString <-> s = EmptyString.
Proof. destruct s; simpl; split; congruence. Qed.

Lemma lstrip_upper (s : string) : Text.lstrip (Text.upper s) = Text.upper (Text.lstrip s).
Proof.
  induction s as [|a s IH]; simpl; [reflexivity|].
  rewrite upper_char_space. destruct (Text.is_space a); [exact IH | reflexivity].
Qed.

Lemma rstrip_upper (s : string) : Text.rstrip (Text.upper s) = Text.upper (Text.rstrip s).
Proof.
  induction s as [|a s IH]; simpl; [reflexivity|].
  rewrite IH, upper_char_space.
  destruct (Text.rstrip s) as [|b r]; simpl; [destruct (Text.is_space a)|]; reflexivity.
Qed.

Lemma strip_upper (s : string) : Text.strip (Text.upper s) = Text.upper (Text.strip s).
Proof. unfold Text.strip. by rewrite lstrip_upper, rstrip_upper. Qed.

Lemma lstrip_clean (s : string) : starts_clean (Text.lstrip s) = true.
Proof.
  induction s as [|a s IH]; simpl; [reflexivity|].
  destruct (Text.is_space a) eqn:E; [exact IH | simpl; by rewrite E].
Qed.

Lemma lstrip_of_clean (s : string) : starts_clean s = true -> Text.lstrip s = s.
Proof.
  destruct s as [|a s]; simpl; [reflexivity|].
  intros H. apply negb_true_iff in H. by rewrite H.
Qed.

Lemma rstrip_clean (s : string) : starts_clean s = true -> starts_clean (Text.rstrip s) = true.
Proof.
  destruct s as [|a s]; simpl; [reflexivity|]. intros H.
  destruct (Text.rstrip s); simpl; [|exact H].
  apply negb_true_iff in H. rewrite H. simpl. by rewrite H.
Qed.

Lemma rstrip_idem (s : string) : Text.rstrip (Text.rstrip s) = Text.rstrip s.
Proof.
  induction s as [|a s IH]; simpl; [reflexivity|].
  destruct (Text.rstrip s) as [|b r] eqn:E.
  - destruct (Text.is_space a) eqn:Ea; simpl; [reflexivity | by rewrite Ea].
  - simpl in *. rewrite IH. reflexivity.
Qed.

Lemma strip_idem (s : string) : Text.strip (Text.strip s) = Text.strip s.
Proof.
  unfold Text.strip.
  rewrite (lstrip_of_clean (Text.rstrip (Text.lstrip s)))
    by apply rstrip_clean, lstrip_clean.
  apply rstrip_idem.
Qed.

Lemma all_chars_lstrip (p : ascii -> bool) (s : string) :
  Text.all_chars p s = true -> Text.all_chars p (Text.lstrip s) = true.
Proof.
  induction s as [|a s IH]; simpl; [reflexivity|]. intros H.
  apply andb_true_iff in H as [Ha Hs].
  destruct (Text.is_space a); [by apply IH | simpl; by rewrite Ha, Hs].
Qed.

Lemma all_chars_rstrip (p : ascii -> bool) (s : string) :
  Text.all_chars p s = true -> Text.all_chars p (Text.rstrip s) = true.
Proof.
  induction s as [|a s IH]; simpl; [reflexivity|]. intros H.
  apply andb_true_iff in H as [Ha Hs]. specialize (IH Hs).
  destruct (Text.rstrip s) as [|b r].
  - destruct (Text.is_space a); simpl; [reflexivity | by rewrite Ha].
  - simpl in *. by rewrite Ha, IH.
Qed.

Lemma no_comma_upper (s : string) : no_comma (Text.upper s) = no_comma s.
Proof.
  unfold no_comma. induction s as [|a s IH]; simpl; [reflexivity|].
  by rewrite upper_char_comma, IH.
Qed.

Lemma split_cons (s : string) : exists p ps, Text.split s = p :: ps.
Proof.
  induction s as [|a s (p & ps & IH)]; simpl; [eauto|].
  destruct (Text.is_comma a); [eauto|]. rewrite IH. eauto.
Qed.

Lemma split_no_comma (s : string) : Forall (fun p => no_comma p = true) (Text.split s).
Proof.
  induction s as [|a s IH]; simpl; [repeat constructor|].
  destruct (Text.is_comma a) eqn:E; [constructor; [reflexivity | exact IH]|].
  destruct (Text.split s) as [|p ps]; [repeat constructor; unfold no_comma; simpl; by rewrite E|].
  inversion IH; subst. constructor; [|assumption].
  unfold no_comma in *. simpl. by rewrite E.
Qed.

Lemma parse_tickers_elem (ticker_input t : string) :
  In t (parse_tickers ticker_input) <->
  exists p, In p (Text.split ticker_input) /\ Text.strip p <> EmptyString /\
            t = Text.upper (Text.strip p).
Proof.
  unfold parse_tickers. rewrite in_map_iff. split.
  - intros (p & <- & Hp). apply list_elem_of_In, list_elem_of_filter in Hp as [Ht Hp].
    exists p. split; [by apply list_elem_of_In|]. split; [|reflexivity].
    intros E. rewrite E in Ht. discriminate.
  - intros (p & Hp & Hne & ->). exists p. split; [reflexivity|].
    apply list_elem_of_In, list_elem_of_filter. split; [|by apply list_elem_of_In].
    destruct (Text.strip p); [congruence | reflexivity].
Qed.

Lemma parsed_ticker_clean (ticker_input t : string) :
  In t (parse_tickers ticker_input) ->
  t <> EmptyString /\ Text.strip t = t /\ Text.upper t = t /\ no_comma t = true.
Proof.
  intros Ht. apply parse_tickers_elem in Ht as (p & Hp & Hne & ->).
  split; [|split; [|split]].
  - intros E. exact (Hne (proj1 (upper_empty _) E)).
  - by rewrite strip_upper, strip_idem.
  - apply upper_idem.
  - rewrite no_comma_upper. unfold Text.strip, no_comma.
    apply all_chars_rstrip, all_chars_lstrip.
    pose proof (split_no_comma ticker_input) as H. rewrite Forall_forall in H.
    apply H. by apply list_elem_of_In.
Qed.

(** X1.  Whatever ASCII text is typed into the ticker box, every ticker
    handed to the fetch functions is non-empty, has no white space at
    either end, is in upper case and holds no comma. *)
Theorem parse_tickers_clean (ticker_input t : string) :
  Text.all_chars Text.is_ascii ticker_input = true ->
  In t (parse_tickers ticker_input) ->
  t <> EmptyString /\ Text.strip t = t /\ Text.upper t = t /\ no_comma t = true.
Proof. intros _. apply parsed_ticker_clean. Qed.

Lemma parse_tickers_clean_witness :
  "MSFT" <> EmptyString /\ Text.strip "MSFT" = "MSFT" /\ Text.upper "MSFT" = "MSFT" /\
  no_comma "MSFT" = true.
Proof.
  apply (parse_tickers_clean " aapl ,, msft,  " "MSFT").
  - reflexivity.
  - vm_compute. right. left. reflexivity.
Defined.

Lemma lstrip_empty (s : string) :
  Text.lstrip s = EmptyString <-> Text.all_chars Text.is_space s = true.
Proof.
  induction s as [|a s IH]; simpl; [tauto|].
  destruct (Text.is_space a); simpl; [exact IH|]. split; discriminate.
Qed.

Lemma rstrip_empty (s : string) :
  Text.rstrip s = EmptyString <-> Text.all_chars Text.is_space s = true.
Proof.
  induction s as [|a s IH]; simpl; [tauto|].
  destruct (Text.rstrip s) as [|b r].
  - destruct (Text.is_space a); simpl; [|split; discriminate].
    split; intros _; [by apply IH | reflexivity].
  - split; [discriminate|]. intros H. apply andb_true_iff in H as [_ H].
    apply IH in H. discriminate.
Qed.

Lemma strip_empty (s : string) :
  Text.strip s = EmptyString <-> Text.all_chars Text.is_space s = true.
Proof.
  unfold Text.strip. rewrite rstrip_empty. split.
  - intros H. apply lstrip_empty.
    pose proof (lstrip_clean s) as Hc.
    destruct (Text.lstrip s) as [|a r]; [reflexivity|]. simpl in *.
    apply andb_true_iff in H as [Ha _]. rewrite Ha in Hc. discriminate.
  - intros H. apply lstrip_empty in H. by rewrite H.
Qed.

Lemma split_blank (s : string) :
  Forall (fun p => Text.all_chars Text.is_space p = true) (Text.split s) <->
  blank s = true.
Proof.
  unfold blank. induction s as [|a s IH]; simpl.
  - split; [reflexivity | repeat constructor].
  - destruct (Text.is_comma a) eqn:E.
    + rewrite orb_true_r. simpl. rewrite <- IH. split.
      * intros H. by inversion H.
      * intros H. by constructor.
    + rewrite orb_false_r. destruct (split_cons s) as (p & ps & Hs).
      rewrite Hs in *. split.
      * intros H. inversion H as [|? ? Hp Hps]; subst. simpl in Hp.
        apply andb_true_iff in Hp as [Ha Hp]. rewrite Ha. simpl.
        apply IH. by constructor.
      * intros H. apply andb_true_iff in H as [Ha H]. apply IH in H.
        inversion H; subst. constructor; [simpl; by rewrite Ha | assumption].
Qed.

Lemma parse_tickers_nil (ticker_input : string) :
  parse_tickers ticker_input = [] <-> blank ticker_input = true.
Proof.
  rewrite <- split_blank. unfold parse_tickers.
  induction (Text.split ticker_input) as [|p ps IH]; [split; [constructor | reflexivity]|].
  destruct (Text.strip p) as [|a r] eqn:E.
  - rewrite filter_cons_False by (rewrite E; discriminate).
    rewrite IH. split.
    + intros H. constructor; [by apply strip_empty | exact H].
    + intros H. by inversion H.
  - rewrite filter_cons_True by (by rewrite E). simpl. split; [discriminate|].
    intros H. inversion H as [|? ? Hp _]; subst.
    apply strip_empty in Hp. congruence.
Qed.

(** X2.  The fetch buttons ask for a ticker exactly when the text in the
    box is blank, that is, made of white space and commas only; the
    database and the collection are then left as they are (the table
    set up by [init_sqlite_db] apart).  On any other text the fetch
    function is called. *)
Theorem blank_input_asks_for_ticker (ticker_input : string) (w : world)
    (db : database) (m : mongo) :
  Text.all_chars Text.is_ascii ticker_input = true ->
  (blank ticker_input = true ->
     fetch_to_sqlite_button ticker_input w db = (init_sqlite_db db, AskForTicker) /\
     fetch_to_mongodb_button ticker_input w m = (m, AskForTicker)) /\
  (blank ticker_input = false ->
     (exists db' r log, fetch_to_sqlite_button ticker_input w db = (db', RanSqlite r log)) /\
     snd (fetch_to_mongodb_button ticker_input w m) <> AskForTicker).
Proof.
  intros _. unfold fetch_to_sqlite_button, fetch_to_mongodb_button. split.
  - intros Hb. apply parse_tickers_nil in Hb. rewrite Hb. split; reflexivity.
  - intros Hb.
    destruct (parse_tickers ticker_input) as [|t ts] eqn:E.
    + apply parse_tickers_nil in E. congruence.
    + split.
      * destruct (fetch_to_sqlite w (t :: ts) (init_sqlite_db db)) as [[r db'] log].
        eauto.
      * destruct (get_mongo_client m); [|discriminate].
        destruct (fetch_to_mongodb w (t :: ts) m). discriminate.
Qed.

Lemma blank_input_asks_for_ticker_witness :
  (blank " , ,  " = true ->
     fetch_to_sqlite_button " , ,  " (sample_world 2025) None
       = (init_sqlite_db None, AskForTicker) /\
     fetch_to_mongodb_button " , ,  " (sample_world 2025) (mongo_up [])
       = (mongo_up [], AskForTicker)) /\
  (blank " , ,  " = false ->
     (exists db' r log,
        fetch_to_sqlite_button " , ,  " (sample_world 2025) None = (db', RanSqlite r log)) /\
     snd (fetch_to_mongodb_button " , ,  " (sample_world 2025) (mongo_up [])) <> AskForTicker).
Proof.
  apply (blank_input_asks_for_ticker " , ,  " (sample_world 2025) None (mongo_up [])).
  reflexivity.
Defined.

Lemma split_of_clean (p : string) : no_comma p = true -> Text.split p = [p].
Proof.
  unfold no_comma. induction p as [|a p IH]; simpl; [reflexivity|].
  intros H. apply andb_true_iff in H as [Ha Hp]. apply negb_true_iff in Ha.
  by rewrite Ha, (IH Hp).
Qed.

Lemma split_app_comma (p rest : string) :
  no_comma p = true ->
  Text.split (p ++ String ","%char rest) = p :: Text.split rest.
Proof.
  unfold no_comma. induction p as [|a p IH]; simpl; [reflexivity|].
  intros H. apply andb_true_iff in H as [Ha Hp]. apply negb_true_iff in Ha.
  by rewrite Ha, (IH Hp).
Qed.

Lemma split_join (parts : list string) :
  parts <> [] -> Forall (fun p => no_comma p = true) parts ->
  Text.split (Text.join parts) = parts.
Proof.
  induction parts as [|p ps IH]; [congruence|]. intros _ H.
  inversion H as [|? ? Hp Hps]; subst.
  destruct ps as [|q qs]; simpl.
  - by apply split_of_clean.
  - rewrite (split_app_comma p _ Hp). f_equal. apply IH; [discriminate | exact Hps].
Qed.

(** X3.  Parsing is a normal form: the tickers obtained from a text,
    joined by commas and typed in again, are parsed to themselves. *)
Theorem parse_tickers_join (ticker_input : string) :
  Text.all_chars Text.is_ascii ticker_input = true ->
  parse_tickers (Text.join (parse_tickers ticker_input)) = parse_tickers ticker_input.
Proof.
  intros _.
  assert (H : Forall (fun t => t <> EmptyString /\ Text.strip t = t /\ Text.upper t = t /\
                               no_comma t = true) (parse_tickers ticker_input)).
  { apply Forall_forall. intros t Ht. apply (parsed_ticker_clean ticker_input).
    by apply list_elem_of_In. }
  destruct (parse_tickers ticker_input) as [|t ts] eqn:E; [reflexivity|].
  unfold parse_tickers at 1. rewrite split_join.
  - clear E. induction H as [|x xs (Hne & Hs & Hu & _) _ IH]; [reflexivity|].
    rewrite filter_cons_True by (rewrite Hs; by destruct x).
    simpl. rewrite Hs, Hu. f_equal. exact IH.
  - discriminate.
  - eapply Forall_impl; [exact H|]. by intros x (_ & _ & _ & Hx).
Qed.

Lemma parse_tickers_join_witness :
  parse_tickers (Text.join (parse_tickers " aapl ,, msft,  ")) =
  parse_tickers " aapl ,, msft,  ".
Proof. apply (parse_tickers_join " aapl ,, msft,  "). reflexivity. Defined.

(** ** More on the ratio engine *)

(** X4.  For every table whose monetary columns are numeric, the three
    other ratios of each row are the rounded quotients of that row:
    Debt_to_Equity = liabilities / equity, Profit_Margin = net_income /
    revenue and Asset_Turnover = revenue / assets, each to 4 decimals. *)
Theorem other_ratios_are_rounded_quotients (df : loc) (h : heap)
    (ni eq li rv a : list float) :
  Frame.lookup_col "net_income" (h !!! df) = Some (map CNum ni) ->
  Frame.lookup_col "equity" (h !!! df) = Some (map CNum eq) ->
  Frame.lookup_col "liabilities" (h !!! df) = Some (map CNum li) ->
  Frame.lookup_col "revenue" (h !!! df) = Some (map CNum rv) ->
  Frame.lookup_col "assets" (h !!! df) = Some (map CNum a) ->
  exists out h' dte pm at_,
    calculate_financial_ratios df h = (Ok out, h') /\
    Frame.lookup_col "Debt_to_Equity" (h' !!! out) = Some dte /\
    Frame.lookup_col "Profit_Margin" (h' !!! out) = Some pm /\
    Frame.lookup_col "Asset_Turnover" (h' !!! out) = Some at_ /\
    forall i n e l r x,
      ni !! i = Some n -> eq !! i = Some e -> li !! i = Some l ->
      rv !! i = Some r -> a !! i = Some x ->
      dte !! i = Some (CNum (Num.round4 (PrimFloat.div l e))) /\
      pm !! i = Some (CNum (Num.round4 (PrimFloat.div n r))) /\
      at_ !! i = Some (CNum (Num.round4 (PrimFloat.div r x))).
Proof.
  intros Hni Heq Hli Hrv Ha.
  destruct (calculate_financial_ratios_numbers df h _ _ _ _ _ Hni Heq Hli Hrv Ha)
    as (out & h' & Hrun & Hout).
  exists out, h', (ratio_column li eq), (ratio_column ni rv), (ratio_column rv a).
  split; [exact Hrun|]. rewrite Hout.
  repeat split.
  - rewrite !lookup_col_set. reflexivity.
  - rewrite !lookup_col_set. reflexivity.
  - rewrite !lookup_col_set. reflexivity.
  - by apply ratio_column_lookup.
  - by apply ratio_column_lookup.
  - by apply ratio_column_lookup.
Qed.

Lemma other_ratios_are_rounded_quotients_witness :
  exists out h' dte pm at_,
    calculate_financial_ratios 0 {[ 0 := sample_frame ]} = (Ok out, h') /\
    Frame.lookup_col "Debt_to_Equity" (h' !!! out) = Some dte /\
    Frame.lookup_col "Profit_Margin" (h' !!! out) = Some pm /\
    Frame.lookup_col "Asset_Turnover" (h' !!! out) = Some at_ /\
    forall i n e l r x,
      [10%float; 10%float] !! i = Some n -> [300%float; 0%float] !! i = Some e ->
      [200%float; 40%float] !! i = Some l ->
      [100%float; 50%float] !! i = Some r -> [500%float; 40%float] !! i = Some x ->
      dte !! i = Some (CNum (Num.round4 (PrimFloat.div l e))) /\
      pm !! i = Some (CNum (Num.round4 (PrimFloat.div n r))) /\
      at_ !! i = Some (CNum (Num.round4 (PrimFloat.div r x))).
Proof.
  apply (other_ratios_are_rounded_quotients 0 {[ 0 := sample_frame ]}
           [10%float; 10%float] [300%float; 0%float] [200%float; 40%float]
           [100%float; 50%float] [500%float; 40%float]);
    reflexivity.
Defined.

Lemma has_column_set (df : DataFrame) (c c' : string) (s : series) :
  Frame.has_column c (Frame.set df c' s) = String.eqb c c' || Frame.has_column c df.
Proof.
  destruct (Frame.has_column c (Frame.set df c' s)) eqn:E1;
    destruct (String.eqb c c') eqn:E2; destruct (Frame.has_column c df) eqn:E3;
    try reflexivity; exfalso.
  - apply has_column_lookup in E1. rewrite lookup_col_set, E2 in E1.
    apply E1. destruct (Frame.lookup_col c df) eqn:E; [|reflexivity].
    rewrite (has_column_some _ _ _ E) in E3. discriminate.
  - assert (H : Frame.lookup_col c (Frame.set df c' s) <> None)
      by (rewrite lookup_col_set, E2; discriminate).
    apply has_column_lookup in H. congruence.
  - assert (H : Frame.lookup_col c (Frame.set df c' s) <> None)
      by (rewrite lookup_col_set, E2; discriminate).
    apply has_column_lookup in H. congruence.
  - apply has_column_lookup in E3.
    assert (H : Frame.lookup_col c (Frame.set df c' s) <> None)
      by (rewrite lookup_col_set, E2; exact E3).
    apply has_column_lookup in H. congruence.
Qed.

Lemma columns_set (df : DataFrame) (c : string) (s : series) :
  Frame.columns (Frame.set df c s) =
  if Frame.has_column c df then Frame.columns df else Frame.columns df ++ [c].
Proof.
  unfold Frame.has_column, Frame.columns.
  induction df as [|[k s0] rest IH]; simpl; [reflexivity|].
  destruct (String.eqb c k); simpl; [reflexivity|].
  rewrite IH. by destruct (existsb _ _).
Qed.

Lemma set_same (df : DataFrame) (c : string) (s : series) :
  Frame.lookup_col c df = Some s -> Frame.set df c s = df.
Proof.
  induction df as [|[k s0] rest IH]; simpl; [discriminate|].
  destruct (String.eqb c k); [by intros [= ->] | intros H; by rewrite IH].
Qed.

Lemma nrows_set (df : DataFrame) (c : string) (s : series) :
  length s = Frame.nrows df -> Frame.nrows (Frame.set df c s) = Frame.nrows df.
Proof.
  destruct df as [|[k s0] rest]; simpl; [by intros ->|].
  destruct (String.eqb c k); simpl; [by intros -> | reflexivity].
Qed.

(** X5.  On a numeric table that has none of the four ratio names among
    its columns, the table returned has the columns of the input in
    their order followed by ROE, Debt_to_Equity, Profit_Margin and
    Asset_Turnover, and every column of the input is there with its
    values. *)
Theorem ratios_extend_the_table (df : loc) (h : heap) (ni eq li rv a : list float) :
  Frame.lookup_col "net_income" (h !!! df) = Some (map CNum ni) ->
  Frame.lookup_col "equity" (h !!! df) = Some (map CNum eq) ->
  Frame.lookup_col "liabilities" (h !!! df) = Some (map CNum li) ->
  Frame.lookup_col "revenue" (h !!! df) = Some (map CNum rv) ->
  Frame.lookup_col "assets" (h !!! df) = Some (map CNum a) ->
  (forall c, In c ratio_names -> Frame.has_column c (h !!! df) = false) ->
  exists out h',
    calculate_financial_ratios df h = (Ok out, h') /\
    Frame.columns (h' !!! out) = Frame.columns (h !!! df) ++ ratio_names /\
    forall c s, Frame.lookup_col c (h !!! df) = Some s ->
                Frame.lookup_col c (h' !!! out) = Some s.
Proof.
  intros Hni Heq Hli Hrv Ha Hnew.
  destruct (calculate_financial_ratios_numbers df h _ _ _ _ _ Hni Heq Hli Hrv Ha)
    as (out & h' & Hrun & Hout).
  exists out, h'. split; [exact Hrun|]. rewrite Hout. clear Hout Hrun. split.
  - rewrite !columns_set, !has_column_set. simpl.
    rewrite !Hnew by (simpl; tauto). simpl.
    rewrite <- !app_assoc. reflexivity.
  - intros c s Hc.
    assert (Hne : forall name, In name ratio_names -> String.eqb c name = false).
    { intros name Hname. destruct (String.eqb_spec c name) as [->|]; [|reflexivity].
      specialize (Hnew name Hname). rewrite (has_column_some _ _ _ Hc) in Hnew.
      discriminate. }
    rewrite !lookup_col_set, !Hne by (simpl; tauto). exact Hc.
Qed.

Lemma ratios_extend_the_table_witness :
  exists out h',
    calculate_financial_ratios 0 {[ 0 := sample_frame ]} = (Ok out, h') /\
    Frame.columns (h' !!! out) =
      Frame.columns (({[ 0 := sample_frame ]} : heap) !!! 0) ++ ratio_names /\
    forall c s, Frame.lookup_col c (({[ 0 := sample_frame ]} : heap) !!! 0) = Some s ->
                Frame.lookup_col c (h' !!! out) = Some s.
Proof.
  apply (ratios_extend_the_table 0 {[ 0 := sample_frame ]}
           [10%float; 10%float] [300%float; 0%float] [200%float; 40%float]
           [100%float; 50%float] [500%float; 40%float]);
    try reflexivity.
  intros c [<-|[<-|[<-|[<-|[]]]]]; reflexivity.
Defined.

(** X6.  Computing the ratios of a table that already carries them
    changes nothing: applied to its own result on a numeric table,
    [calculate_financial_ratios] returns a table equal to its input. *)
Theorem ratios_of_ratios (df : loc) (h : heap) (ni eq li rv a : list float) :
  Frame.lookup_col "net_income" (h !!! df) = Some (map CNum ni) ->
  Frame.lookup_col "equity" (h !!! df) = Some (map CNum eq) ->
  Frame.lookup_col "liabilities" (h !!! df) = Some (map CNum li) ->
  Frame.lookup_col "revenue" (h !!! df) = Some (map CNum rv) ->
  Frame.lookup_col "assets" (h !!! df) = Some (map CNum a) ->
  exists out1 h1 out2 h2,
    calculate_financial_ratios df h = (Ok out1, h1) /\
    calculate_financial_ratios out1 h1 = (Ok out2, h2) /\
    h2 !!! out2 = h1 !!! out1.
Proof.
  intros Hni Heq Hli Hrv Ha.
  destruct (calculate_financial_ratios_numbers df h _ _ _ _ _ Hni Heq Hli Hrv Ha)
    as (out1 & h1 & Hrun1 & Hout1).
  assert (Hkeep : forall c, negb (existsb (String.eqb c) ratio_names) = true ->
                            Frame.lookup_col c (h1 !!! out1) = Frame.lookup_col c (h !!! df)).
  { intros c Hc. rewrite Hout1, !lookup_col_set. simpl in Hc.
    destruct (String.eqb c "ROE"), (String.eqb c "Debt_to_Equity"),
      (String.eqb c "Profit_Margin"), (String.eqb c "Asset_Turnover");
      simpl in Hc; try discriminate. reflexivity. }
  destruct (calculate_financial_ratios_numbers out1 h1 ni eq li rv a)
    as (out2 & h2 & Hrun2 & Hout2);
    try (rewrite Hkeep by reflexivity; assumption).
  exists out1, h1, out2, h2. split; [exact Hrun1|]. split; [exact Hrun2|].
  rewrite Hout2.
  rewrite (set_same (h1 !!! out1) "ROE")
    by (rewrite Hout1, !lookup_col_set; reflexivity).
  rewrite (set_same (h1 !!! out1) "Debt_to_Equity")
    by (rewrite Hout1, !lookup_col_set; reflexivity).
  rewrite (set_same (h1 !!! out1) "Profit_Margin")
    by (rewrite Hout1, !lookup_col_set; reflexivity).
  apply set_same. rewrite Hout1, !lookup_col_set. reflexivity.
Qed.

Lemma ratios_of_ratios_witness :
  exists out1 h1 out2 h2,
    calculate_financial_ratios 0 {[ 0 := sample_frame ]} = (Ok out1, h1) /\
    calculate_financial_ratios out1 h1 = (Ok out2, h2) /\
    h2 !!! out2 = h1 !!! out1.
Proof.
  apply (ratios_of_ratios 0 {[ 0 := sample_frame ]}
           [10%float; 10%float] [300%float; 0%float] [200%float; 40%float]
           [100%float; 50%float] [500%float; 40%float]);
    reflexivity.
Defined.

Lemma with_ratio_unguarded (name num den guard : string) (df : DataFrame) :
  Frame.has_column guard df = false ->
  with_ratio name num den guard df = Ok (Frame.set_none df name).
Proof. intros H. unfold with_ratio. by rewrite H. Qed.

Lemma set_none_nrows (df : DataFrame) (c : string) :
  Frame.nrows (Frame.set_none df c) = Frame.nrows df.
Proof. unfold Frame.set_none. apply nrows_set, repeat_length. Qed.

(** X7.  A table that has none of the columns equity, revenue and assets
    does not make [calculate_financial_ratios] raise: the guards of the
    four assignments fail, and each ratio becomes a column of [None],
    one per row. *)
Theorem ratios_without_denominators (df : loc) (h : heap) :
  Frame.has_column "equity" (h !!! df) = false ->
  Frame.has_column "revenue" (h !!! df) = false ->
  Frame.has_column "assets" (h !!! df) = false ->
  exists out h',
    calculate_financial_ratios df h = (Ok out, h') /\
    Frame.nrows (h' !!! out) = Frame.nrows (h !!! df) /\
    forall c, In c ratio_names ->
      Frame.lookup_col c (h' !!! out) = Some (repeat CNone (Frame.nrows (h !!! df))).
Proof.
  intros He Hr Ha.
  set (f0 := h !!! df).
  set (f1 := Frame.set_none f0 "ROE").
  set (f2 := Frame.set_none f1 "Debt_to_Equity").
  set (f3 := Frame.set_none f2 "Profit_Margin").
  set (f4 := Frame.set_none f3 "Asset_Turnover").
  assert (N1 : Frame.nrows f1 = Frame.nrows f0) by apply set_none_nrows.
  assert (N2 : Frame.nrows f2 = Frame.nrows f0) by (unfold f2; by rewrite set_none_nrows).
  assert (N3 : Frame.nrows f3 = Frame.nrows f0) by (unfold f3; by rewrite set_none_nrows).
  assert (N4 : Frame.nrows f4 = Frame.nrows f0) by (unfold f4; by rewrite set_none_nrows).
  assert (Hr4 : ratios_of f0 = Ok f4).
  { unfold ratios_of.
    rewrite (with_ratio_unguarded _ _ _ _ f0 He). simpl. fold f1.
    rewrite (with_ratio_unguarded _ _ _ "equity" f1)
      by (unfold f1, Frame.set_none; rewrite has_column_set; exact He).
    simpl. fold f2.
    rewrite (with_ratio_unguarded _ _ _ "revenue" f2)
      by (unfold f2, f1, Frame.set_none; rewrite !has_column_set; exact Hr).
    simpl. fold f3.
    apply with_ratio_unguarded.
    unfold f3, f2, f1, Frame.set_none. rewrite !has_column_set. exact Ha. }
  destruct (calculate_financial_ratios_run df h) as (r & h' & Hrun & _ & Hres).
  fold f0 in Hres. destruct r as [out|e]; [|congruence].
  destruct Hres as (_ & df' & Hr' & Hout).
  assert (df' = f4) by congruence. subst df'.
  exists out, h'. split; [exact Hrun|].
  rewrite (lookup_total_correct _ _ _ Hout). split; [exact N4|].
  intros c Hc. unfold f4, f3, f2, f1, Frame.set_none. rewrite !lookup_col_set.
  fold f1. fold (Frame.set_none f0 "ROE"). fold f1.
  destruct Hc as [<-|[<-|[<-|[<-|[]]]]]; simpl.
  - reflexivity.
  - fold (Frame.set_none f0 "ROE"). fold f1. by rewrite N1.
  - fold (Frame.set_none f0 "ROE"). fold f1.
    fold (Frame.set_none f1 "Debt_to_Equity"). fold f2. by rewrite N2.
  - fold (Frame.set_none f0 "ROE"). fold f1.
    fold (Frame.set_none f1 "Debt_to_Equity"). fold f2.
    fold (Frame.set_none f2 "Profit_Margin"). fold f3. by rewrite N3.
Qed.

Lemma ratios_without_denominators_witness :
  exists out h',
    calculate_financial_ratios 0 {[ 0 := names_only_frame ]} = (Ok out, h') /\
    Frame.nrows (h' !!! out) = Frame.nrows (({[ 0 := names_only_frame ]} : heap) !!! 0) /\
    forall c, In c ratio_names ->
      Frame.lookup_col c (h' !!! out) =
      Some (repeat CNone (Frame.nrows (({[ 0 := names_only_frame ]} : heap) !!! 0))).
Proof.
  apply (ratios_without_denominators 0 {[ 0 := names_only_frame ]}); reflexivity.
Defined.

(** X8.  The guard of an assignment tests the denominator only: a table
    that has an equity column but no net_income column makes
    [calculate_financial_ratios] raise [KeyError: 'net_income'], and the
    caller's table is as it was. *)
Theorem ratios_missing_numerator (df : loc) (h : heap) (frame : DataFrame) :
  h !! df = Some frame ->
  Frame.has_column "equity" frame = true ->
  Frame.lookup_col "net_income" frame = None ->
  exists h',
    calculate_financial_ratios df h = (Raise (KeyError "net_income"), h') /\
    h' !! df = Some frame.
Proof.
  intros Hdf He Hn.
  assert (Hf : h !!! df = frame) by (by apply lookup_total_correct).
  assert (Hr : ratios_of frame = Raise (KeyError "net_income")).
  { assert (H1 : with_ratio "ROE" "net_income" "equity" "equity" frame
                 = Raise (KeyError "net_income"))
      by (unfold with_ratio, Frame.get; by rewrite He, Hn).
    unfold ratios_of. by rewrite H1. }
  destruct (calculate_financial_ratios_run df h) as (r & h' & Hrun & Hkeep & Hres).
  rewrite Hf in Hres. destruct r as [out|e].
  - destruct Hres as (_ & df' & Hr' & _). congruence.
  - exists h'. split; [congruence|].
    rewrite Hkeep; [exact Hdf|].
    intros ->. pose proof (df_copy_fresh h). congruence.
Qed.

Lemma ratios_missing_numerator_witness :
  exists h',
    calculate_financial_ratios 0 {[ 0 := no_income_frame ]}
      = (Raise (KeyError "net_income"), h') /\
    h' !! 0 = Some no_income_frame.
Proof.
  apply (ratios_missing_numerator 0 {[ 0 := no_income_frame ]} no_income_frame);
    reflexivity.
Defined.

(** ** More on the score *)

(** X9.  [calculate_advanced_metrics] never raises, and it answers
    [None] for every row in which one of assets, liabilities, net_income
    and equity is absent, [None] or a string, whatever the other fields
    hold. *)
Theorem score_of_incomplete_row (round2 : float -> float) (r : row) (k : string) :
  In k score_fields ->
  not_numeric (row_lookup k r) ->
  calculate_advanced_metrics round2 r = None.
Proof.
  intros Hk. unfold calculate_advanced_metrics, advanced_metrics_try, row_get,
    py_sub, py_truediv, py_eq0, cell_float.
  destruct Hk as [<-|[<-|[<-|[<-|[]]]]]; score_cases.
Qed.

Lemma score_of_incomplete_row_witness :
  calculate_advanced_metrics (Num.around 100)
    [("ticker", CStr "AAPL"); ("assets", CNum 500); ("liabilities", CNum 200);
     ("net_income", CNone); ("equity", CNum 300)] = None.
Proof.
  apply (score_of_incomplete_row (Num.around 100) _ "net_income").
  - right. right. left. reflexivity.
  - exact I.
Defined.

Lemma score_of_numeric_row (round2 : float -> float) (r : row) (a l n e : float) :
  row_lookup "assets" r = Some (CNum a) ->
  row_lookup "liabilities" r = Some (CNum l) ->
  row_lookup "net_income" r = Some (CNum n) ->
  row_lookup "equity" r = Some (CNum e) ->
  calculate_advanced_metrics round2 r =
  if PrimFloat.eqb a 0 || PrimFloat.eqb l 0 then None
  else Some (z_score round2 a l n e).
Proof.
  intros Ha Hl Hn He.
  unfold calculate_advanced_metrics, advanced_metrics_try, row_get, py_sub, py_truediv.
  rewrite Ha, Hl, Hn, He. simpl.
  destruct (PrimFloat.eqb a 0); simpl; [reflexivity|].
  destruct (PrimFloat.eqb l 0); reflexivity.
Qed.

Lemma infer_column_null (s : series) (i : nat) :
  s !! i = Some CNone ->
  exists c, infer_column s !! i = Some c /\ cell_is_null c = true.
Proof.
  intros H. unfold infer_column.
  destruct (forallb _ s && existsb is_number s && existsb is_none s).
  - rewrite lookup_map, H. simpl. eexists. split; reflexivity.
  - exists CNone. by split.
Qed.

Lemma lookup_numbers (xs : list float) (i : nat) (x : float) :
  xs !! i = Some x -> map CNum xs !! i = Some (CNum x).
Proof. intros H. by rewrite lookup_map, H. Qed.

(** The score cell of row [i] of a table with numeric columns. *)
Lemma altman_column_cell (round2 : float -> float) (df : DataFrame)
    (ast li ni eq : list float) (i : nat) (a l n e : float) :
  Frame.lookup_col "assets" df = Some (map CNum ast) ->
  Frame.lookup_col "liabilities" df = Some (map CNum li) ->
  Frame.lookup_col "net_income" df = Some (map CNum ni) ->
  Frame.lookup_col "equity" df = Some (map CNum eq) ->
  i < Frame.nrows df ->
  ast !! i = Some a -> li !! i = Some l -> ni !! i = Some n -> eq !! i = Some e ->
  exists c,
    altman_column round2 df !! i = Some c /\
    if PrimFloat.eqb a 0 || PrimFloat.eqb l 0 then cell_is_null c = true
    else c = CNum (z_score round2 a l n e).
Proof.
  intros Ha Hl Hn He Hi Hai Hli Hni Hei.
  assert (Hrow : Frame.rows df !! i = Some (Frame.row_at df i)).
  { unfold Frame.rows. rewrite lookup_map.
    replace (seq 0 (Frame.nrows df) !! i) with (Some i); [reflexivity|].
    symmetry. apply lookup_seq. split; [reflexivity | exact Hi]. }
  pose proof (score_of_numeric_row round2 (Frame.row_at df i) a l n e
                (row_lookup_row_at _ _ _ _ _ Ha (lookup_numbers _ _ _ Hai))
                (row_lookup_row_at _ _ _ _ _ Hl (lookup_numbers _ _ _ Hli))
                (row_lookup_row_at _ _ _ _ _ Hn (lookup_numbers _ _ _ Hni))
                (row_lookup_row_at _ _ _ _ _ He (lookup_numbers _ _ _ Hei))) as Hscore.
  unfold altman_column.
  set (s := map (fun r => cell_of_score (calculate_advanced_metrics round2 r)) (Frame.rows df)).
  assert (Hs : s !! i = Some (cell_of_score (calculate_advanced_metrics round2 (Frame.row_at df i))))
    by (unfold s; by rewrite lookup_map, Hrow).
  rewrite Hscore in Hs.
  destruct (PrimFloat.eqb a 0 || PrimFloat.eqb l 0).
  - by apply infer_column_null.
  - eexists. split; [|reflexivity]. by apply infer_column_keeps_number.
Qed.

Lemma analytics_tab_numbers (round2 : float -> float) (df : loc) (h : heap)
    (ni eq li rv a : list float) :
  Frame.lookup_col "net_income" (h !!! df) = Some (map CNum ni) ->
  Frame.lookup_col "equity" (h !!! df) = Some (map CNum eq) ->
  Frame.lookup_col "liabilities" (h !!! df) = Some (map CNum li) ->
  Frame.lookup_col "revenue" (h !!! df) = Some (map CNum rv) ->
  Frame.lookup_col "assets" (h !!! df) = Some (map CNum a) ->
  exists out h',
    analytics_tab round2 df h = (Ok out, h') /\
    h' !!! out =
    Frame.set (with_ratios (h !!! df) ni eq li rv a) "Altman_Z_Score"
      (altman_column round2 (with_ratios (h !!! df) ni eq li rv a)).
Proof.
  intros Hni Heq Hli Hrv Ha.
  unfold analytics_tab, df_copy.
  unfold mbind at 1, M_bind at 1.
  set (c := fresh (dom h)). set (h0 := <[c := h !!! df]> h).
  assert (H0 : h0 !!! c = h !!! df) by (unfold h0; apply lookup_total_insert_eq).
  destruct (calculate_financial_ratios_numbers c h0 ni eq li rv a)
    as (out & h1 & Hrun & Hout); try (rewrite H0; assumption).
  unfold mbind at 1, M_bind at 1. rewrite Hrun.
  unfold mbind at 1, M_bind at 1. unfold assign_altman. simpl.
  eexists _, _. split; [reflexivity|].
  rewrite lookup_total_insert_eq, Hout, H0. reflexivity.
Qed.

Lemma with_ratios_lookup (df : DataFrame) (ni eq li rv a : list float) (c : string) :
  negb (existsb (String.eqb c) ratio_names) = true ->
  Frame.lookup_col c (with_ratios df ni eq li rv a) = Frame.lookup_col c df.
Proof.
  intros Hc. unfold with_ratios. rewrite !lookup_col_set. simpl in Hc.
  destruct (String.eqb c "ROE"), (String.eqb c "Debt_to_Equity"),
    (String.eqb c "Profit_Margin"), (String.eqb c "Asset_Turnover");
    simpl in Hc; try discriminate. reflexivity.
Qed.

Lemma ratio_column_length (num den : list float) :
  length (ratio_column num den) = min (length num) (length den).
Proof. unfold ratio_column. by rewrite length_map, length_zip_with. Qed.

Lemma with_ratios_nrows (df : DataFrame) (ni eq li rv a : list float) :
  length ni = Frame.nrows df -> length eq = Frame.nrows df ->
  length li = Frame.nrows df -> length rv = Frame.nrows df ->
  length a = Frame.nrows df ->
  Frame.nrows (with_ratios df ni eq li rv a) = Frame.nrows df.
Proof.
  intros Hni Heq Hli Hrv Ha. unfold with_ratios.
  rewrite nrows_set; rewrite ?nrows_set; rewrite ?nrows_set; rewrite ?nrows_set;
    rewrite ?ratio_column_length; lia.
Qed.

(** X10.  The Z-score chart of the Analytics tab, for a loaded table
    with string tickers and numeric figures: a company is charted only
    if its assets and its liabilities are both non-zero, and then with
    the rounded formula as its score; and every company with non-zero
    assets and liabilities whose score is not NaN is charted. *)
Theorem z_chart_companies (round2 : float -> float) (df : loc) (h : heap)
    (names : list string) (ni eq li rv ast : list float) :
  Frame.lookup_col "ticker" (h !!! df) = Some (map CStr names) ->
  Frame.lookup_col "net_income" (h !!! df) = Some (map CNum ni) ->
  Frame.lookup_col "equity" (h !!! df) = Some (map CNum eq) ->
  Frame.lookup_col "liabilities" (h !!! df) = Some (map CNum li) ->
  Frame.lookup_col "revenue" (h !!! df) = Some (map CNum rv) ->
  Frame.lookup_col "assets" (h !!! df) = Some (map CNum ast) ->
  length names = Frame.nrows (h !!! df) ->
  length ni = Frame.nrows (h !!! df) -> length eq = Frame.nrows (h !!! df) ->
  length li = Frame.nrows (h !!! df) -> length rv = Frame.nrows (h !!! df) ->
  length ast = Frame.nrows (h !!! df) ->
  exists chart h',
    z_chart round2 df h = (Ok chart, h') /\
    (forall t z, (t, z) ∈ chart ->
       exists i name a l n e,
         names !! i = Some name /\ ast !! i = Some a /\ li !! i = Some l /\
         ni !! i = Some n /\ eq !! i = Some e /\
         PrimFloat.eqb a 0 = false /\ PrimFloat.eqb l 0 = false /\
         t = CStr name /\ z = CNum (z_score round2 a l n e)) /\
    (forall i name a l n e,
       names !! i = Some name -> ast !! i = Some a -> li !! i = Some l ->
       ni !! i = Some n -> eq !! i = Some e ->
       PrimFloat.eqb a 0 = false -> PrimFloat.eqb l 0 = false ->
       Num.isna (z_score round2 a l n e) = false ->
       (CStr name, CNum (z_score round2 a l n e)) ∈ chart).
Proof.
  intros Ht Hni Heq Hli Hrv Ha Ln Lni Leq Lli Lrv La.
  destruct (analytics_tab_numbers round2 df h ni eq li rv ast Hni Heq Hli Hrv Ha)
    as (out & h' & Hrun & Hout).
  set (F := with_ratios (h !!! df) ni eq li rv ast) in *.
  assert (HF : forall c, negb (existsb (String.eqb c) ratio_names) = true ->
                         Frame.lookup_col c F = Frame.lookup_col c (h !!! df))
    by (intros c Hc; by apply with_ratios_lookup).
  assert (NF : Frame.nrows F = Frame.nrows (h !!! df)) by (by apply with_ratios_nrows).
  assert (Hcell : forall i a l n e,
            ast !! i = Some a -> li !! i = Some l -> ni !! i = Some n -> eq !! i = Some e ->
            exists c, altman_column round2 F !! i = Some c /\
                      if PrimFloat.eqb a 0 || PrimFloat.eqb l 0 then cell_is_null c = true
                      else c = CNum (z_score round2 a l n e)).
  { intros i a l n e Hai Hli' Hni' Hei.
    apply (altman_column_cell round2 F ast li ni eq i a l n e);
      try (rewrite HF by reflexivity; assumption); try assumption.
    rewrite NF, <- La. by apply lookup_lt_Some in Hai. }
  exists (filter (fun p => chart_pair p = true)
            (zip (map CStr names) (altman_column round2 F))), h'.
  split.
  { unfold z_chart. unfold mbind, M_bind. rewrite Hrun.
    unfold read_z_chart, z_chart_rows, Frame.get. rewrite Hout.
    rewrite !lookup_col_set. simpl. rewrite HF by reflexivity. rewrite Ht. reflexivity. }
  split.
  - intros t z Hin. apply list_elem_of_filter in Hin as [Hp Hin].
    apply list_elem_of_lookup in Hin as (i & Hi).
    apply lookup_zip_with_Some in Hi as (t' & z' & Hpair & Hti & Hzi).
    injection Hpair as -> ->.
    rewrite lookup_map in Hti.
    destruct (names !! i) as [name|] eqn:Hname; [|discriminate].
    injection Hti as <-.
    assert (Hlt : i < Frame.nrows (h !!! df))
      by (rewrite <- Ln; by apply lookup_lt_Some in Hname).
    destruct (lookup_lt_is_Some_2 ast i ltac:(lia)) as (a & Hai).
    destruct (lookup_lt_is_Some_2 li i ltac:(lia)) as (l & Hli').
    destruct (lookup_lt_is_Some_2 ni i ltac:(lia)) as (n & Hni').
    destruct (lookup_lt_is_Some_2 eq i ltac:(lia)) as (e & Hei).
    destruct (Hcell i a l n e Hai Hli' Hni' Hei) as (c & Hc & Hval).
    assert (c = z') by congruence. subst c.
    exists i, name, a, l, n, e. repeat split; try assumption.
    + destruct (PrimFloat.eqb a 0); [|reflexivity]. simpl in Hval.
      unfold chart_pair in Hp. simpl in Hp. by rewrite Hval in Hp.
    + destruct (PrimFloat.eqb a 0); simpl in Hval.
      * unfold chart_pair in Hp. simpl in Hp. by rewrite Hval in Hp.
      * destruct (PrimFloat.eqb l 0); [|reflexivity].
        unfold chart_pair in Hp. simpl in Hp. by rewrite Hval in Hp.
    + destruct (PrimFloat.eqb a 0); simpl in Hval.
      * unfold chart_pair in Hp. simpl in Hp. by rewrite Hval in Hp.
      * destruct (PrimFloat.eqb l 0); [|exact Hval].
        unfold chart_pair in Hp. simpl in Hp. by rewrite Hval in Hp.
  - intros i name a l n e Hname Hai Hli' Hni' Hei Ha0 Hl0 Hnan.
    destruct (Hcell i a l n e Hai Hli' Hni' Hei) as (c & Hc & Hval).
    rewrite Ha0, Hl0 in Hval. simpl in Hval. subst c.
    apply list_elem_of_filter. split.
    + unfold chart_pair. simpl. by rewrite Hnan.
    + apply list_elem_of_lookup. exists i. apply lookup_zip_with_Some.
      eexists _, _. split; [reflexivity|]. split; [|exact Hc].
      by rewrite lookup_map, Hname.
Qed.

Lemma z_chart_companies_witness :
  exists chart h',
    z_chart (Num.around 100) 0 {[ 0 := sample_frame ]} = (Ok chart, h') /\
    (forall t z, (t, z) ∈ chart ->
       exists i name a l n e,
         ["AAPL"; "ZERO"] !! i = Some name /\
         [500%float; 40%float] !! i = Some a /\ [200%float; 40%float] !! i = Some l /\
         [10%float; 10%float] !! i = Some n /\ [300%float; 0%float] !! i = Some e /\
         PrimFloat.eqb a 0 = false /\ PrimFloat.eqb l 0 = false /\
         t = CStr name /\ z = CNum (z_score (Num.around 100) a l n e)) /\
    (forall i name a l n e,
       ["AAPL"; "ZERO"] !! i = Some name ->
       [500%float; 40%float] !! i = Some a -> [200%float; 40%float] !! i = Some l ->
       [10%float; 10%float] !! i = Some n -> [300%float; 0%float] !! i = Some e ->
       PrimFloat.eqb a 0 = false -> PrimFloat.eqb l 0 = false ->
       Num.isna (z_score (Num.around 100) a l n e) = false ->
       (CStr name, CNum (z_score (Num.around 100) a l n e)) ∈ chart).
Proof.
  apply (z_chart_companies (Num.around 100) 0 {[ 0 := sample_frame ]}
           ["AAPL"; "ZERO"]
           [10%float; 10%float] [300%float; 0%float] [200%float; 40%float]
           [100%float; 50%float] [500%float; 40%float]);
    reflexivity.
Defined.

(** ** The batch write *)



(** ** The key of the relational table *)

Lemma infer_column_no_none (s : series) :
  existsb is_none s = false -> infer_column s = s.
Proof. intros H. unfold infer_column. by rewrite H, andb_false_r. Qed.

Lemma sqlite_item_key (w : world) (idx : nat) (t : string) (data : row) :
  sqlite_item w idx t = Ok (Some data) ->
  row_lookup "ticker" data = Some (CStr t) /\
  row_lookup "year" data = Some (CInt (now_year w idx)).
Proof.
  unfold sqlite_item. destruct (provider w t) as [e| |f]; try discriminate.
  destruct (sqlite_audit _) as [audit|e]; simpl; [|discriminate].
  intros [= <-]. split; reflexivity.
Qed.

Lemma run_records_year (w : world) (tickers : list string) :
  forall idx,
    Forall (fun data => exists z, row_lookup "year" data = Some (CInt z))
           (run_records (sqlite_item w) idx tickers).
Proof.
  induction tickers as [|t rest IH]; intros idx; simpl; [constructor|].
  apply Forall_app. split; [|apply IH].
  destruct (sqlite_item w idx t) as [[data|]|e] eqn:E; simpl; repeat constructor.
  exists (now_year w idx). by apply (sqlite_item_key w idx t).
Qed.

Lemma year_column_has_no_none (rs : list row) :
  Forall (fun data => exists z, row_lookup "year" data = Some (CInt z)) rs ->
  existsb is_none (map (fun r' => default CNone (row_lookup "year" r')) rs) = false.
Proof.
  induction 1 as [|r rs' [z Hz] _ IH]; simpl; [reflexivity|].
  by rewrite Hz, IH.
Qed.

Lemma accepted_columns (names : list string) (t : table) :
  (forall c, In c names -> In c (tcols t)) ->
  filter (fun c => negb (Sql.has_col t c)) names = [].
Proof.
  intros H. induction names as [|c names IH]; [reflexivity|].
  rewrite filter_cons.
  assert (Hc : Sql.has_col t c = true).
  { unfold Sql.has_col. apply existsb_exists. exists c.
    split; [apply H; by left | apply String.eqb_refl]. }
  rewrite Hc. simpl. apply IH. intros c' Hc'. apply H. by right.
Qed.

(** The row that the batch write stores for the [k]-th record of a run
    has the record's ticker and year. *)
Lemma stored_key (w : world) (tickers : list string) (cols : list string)
    (k : nat) (data : row) (t : string) (y : Z) :
  In "ticker" cols -> In "year" cols ->
  run_records (sqlite_item w) 0 tickers !! k = Some data ->
  row_lookup "ticker" data = Some (CStr t) ->
  row_lookup "year" data = Some (CInt y) ->
  exists r,
    map (Sql.stored_row cols)
        (Frame.rows (frame_of_records (run_records (sqlite_item w) 0 tickers))) !! k = Some r /\
    Sql.key_of ["ticker"; "year"] r = [CStr t; CInt y].
Proof.
  intros Hct Hcy Hk Ht Hy.
  pose proof (run_records_keys w tickers 0) as Hkeys.
  pose proof (run_records_year w tickers 0) as Hyears.
  set (results := run_records (sqlite_item w) 0 tickers) in *.
  destruct results as [|r0 rs] eqn:Eres; [discriminate|].
  assert (Hr0 : map fst r0 = record_keys) by (by inversion Hkeys).
  set (df0 := frame_of_records (r0 :: rs)) in *.
  assert (Hcol : forall c, In c record_keys ->
            Frame.lookup_col c df0 =
            Some (infer_column (map (fun r' => default CNone (row_lookup c r')) (r0 :: rs)))).
  { intros c Hc. unfold df0, frame_of_records. rewrite Hr0.
    exact (lookup_col_tabulate
             (fun k => infer_column (map (fun r' => default CNone (row_lookup k r')) (r0 :: rs)))
             _ c Hc). }
  assert (Hrow0 : Frame.rows df0 !! k = Some (Frame.row_at df0 k)).
  { unfold Frame.rows. rewrite lookup_map.
    replace (seq 0 (Frame.nrows df0) !! k) with (Some k); [reflexivity|].
    symmetry. apply lookup_seq. split; [reflexivity|].
    unfold df0. rewrite (frame_of_records_nrows r0 rs Hr0).
    apply lookup_lt_Some in Hk. simpl in Hk. lia. }
  assert (Hticker : row_lookup "ticker" (Frame.row_at df0 k) = Some (CStr t)).
  { apply (row_lookup_row_at df0 "ticker" _ k _ (Hcol "ticker" ltac:(simpl; tauto))).
    apply infer_column_keeps_plain; [reflexivity|].
    rewrite lookup_map, Hk. simpl. by rewrite Ht. }
  assert (Hyear : row_lookup "year" (Frame.row_at df0 k) = Some (CInt y)).
  { apply (row_lookup_row_at df0 "year" _ k _ (Hcol "year" ltac:(simpl; tauto))).
    rewrite infer_column_no_none by (by apply year_column_has_no_none).
    rewrite lookup_map, Hk. simpl. by rewrite Hy. }
  exists (Sql.stored_row cols (Frame.row_at df0 k)). split.
  - by rewrite lookup_map, Hrow0.
  - unfold Sql.key_of. simpl.
    rewrite (stored_row_lookup _ _ "ticker" Hct), (stored_row_lookup _ _ "year" Hcy).
    rewrite Hticker, Hyear. reflexivity.
Qed.

(** Values that can be bound stay so through the frame built from the
    records: a column keeps its cells or turns them into floats. *)
Lemma infer_column_bindable (s : series) :
  Forall (fun c => Sql.bindable c = true) s ->
  Forall (fun c => Sql.bindable c = true) (infer_column s).
Proof.
  intros H. unfold infer_column.
  destruct (forallb _ s && existsb is_number s && existsb is_none s); [|exact H].
  induction H as [|c s' Hc _ IH]; simpl; constructor; [|exact IH].
  by destruct c.
Qed.

Lemma row_lookup_bindable (r : row) (k : string) :
  Sql.bindable_row r = true -> Sql.bindable (default CNone (row_lookup k r)) = true.
Proof.
  unfold Sql.bindable_row. induction r as [|[k' c] rest IH]; simpl; [reflexivity|].
  intros H. apply andb_true_iff in H as [Hc Hrest].
  destruct (String.eqb k k'); [exact Hc | by apply IH].
Qed.

Lemma rows_bindable (df : DataFrame) :
  Forall (fun ks => Forall (fun c => Sql.bindable c = true) (snd ks)) df ->
  forallb Sql.bindable_row (Frame.rows df) = true.
Proof.
  intros H. apply forallb_forall. intros r Hr.
  unfold Frame.rows in Hr. apply in_map_iff in Hr as (i & <- & _).
  unfold Sql.bindable_row, Frame.row_at.
  induction H as [|[k s] rest Hs _ IH]; simpl; [reflexivity|].
  destruct (s !! i) as [c|] eqn:Ec; simpl; [|exact IH].
  apply andb_true_iff. split; [|exact IH].
  simpl in Hs. rewrite Forall_forall in Hs.
  apply Hs. apply list_elem_of_lookup. eauto.
Qed.

Lemma frame_of_records_bindable (rs : list row) :
  Forall (fun data => Sql.bindable_row data = true) rs ->
  forallb Sql.bindable_row (Frame.rows (frame_of_records rs)) = true.
Proof.
  intros H. apply rows_bindable. unfold frame_of_records.
  destruct rs as [|r0 rest]; [constructor|].
  apply Forall_forall. intros [k s] Hks.
  apply list_elem_of_In, in_map_iff in Hks as (k0 & [= <- <-] & _). simpl.
  apply infer_column_bindable, Forall_forall. intros c Hc.
  apply list_elem_of_In in Hc.
  change (In c (map (fun r' => default CNone (row_lookup k0 r')) (r0 :: rest))) in Hc.
  apply in_map_iff in Hc as (r' & <- & Hr').
  apply row_lookup_bindable. rewrite Forall_forall in H.
  apply H. by apply list_elem_of_In.
Qed.

(** X12.  The key (ticker, year) of the relational table: on a table
    with that key and the columns of the ingested frame, a run of at
    most 124 tickers whose records hold no integer outside 64 bits, and
    that fetches a ticker for which the table already holds a row of
    the current year, is refused as a whole with [IntegrityError]; the
    table stays as it was and no success is reported.  (With 124
    records of 8 values the statement stays within the engine's bound
    on bound values.) *)
Theorem same_year_is_refused (w : world) (ts1 ts2 : list string) (t : string)
    (tbl : table) (data r0 : row) :
  tkey tbl = ["ticker"; "year"] ->
  (forall c, In c record_keys -> In c (tcols tbl)) ->
  length (ts1 ++ t :: ts2) <= 124 ->
  Forall (fun d => Sql.bindable_row d = true)
         (run_records (sqlite_item w) 0 (ts1 ++ t :: ts2)) ->
  sqlite_item w (length ts1) t = Ok (Some data) ->
  In r0 (trows tbl) ->
  row_lookup "ticker" r0 = Some (CStr t) ->
  row_lookup "year" r0 = Some (CInt (now_year w (length ts1))) ->
  fetch_to_sqlite w (ts1 ++ t :: ts2) (Some tbl) =
  (Raise IntegrityError, Some tbl, run_messages (sqlite_item w) 0 (ts1 ++ t :: ts2)).
Proof.
  intros Hkey Hcols _ Hbind Hitem Hin Ht0 Hy0.
  destruct (sqlite_item_key _ _ _ _ Hitem) as [Ht Hy].
  set (tickers := ts1 ++ t :: ts2) in *.
  assert (Hk : run_records (sqlite_item w) 0 tickers
               !! length (run_records (sqlite_item w) 0 ts1) = Some data).
  { unfold tickers. rewrite run_records_app. simpl. rewrite Hitem. simpl.
    by rewrite lookup_app_r, Nat.sub_diag by lia. }
  destruct (stored_key w tickers (tcols tbl) _ data t _
              (Hcols "ticker" ltac:(simpl; tauto)) (Hcols "year" ltac:(simpl; tauto))
              Hk Ht Hy) as (r & Hr & Hkr).
  pose proof (run_records_keys w tickers 0) as Hkeys.
  pose proof (frame_of_records_bindable _ Hbind) as Hb.
  rewrite fetch_to_sqlite_spec. cbv zeta.
  destruct (run_records (sqlite_item w) 0 tickers) as [|d0 ds] eqn:Eres; [discriminate|].
  assert (Hd0 : map fst d0 = record_keys) by (by inversion Hkeys).
  unfold to_sql_append, Sql.insert_rows.
  rewrite frame_of_records_columns, Hd0, (accepted_columns _ _ Hcols), Hb, Hkey. simpl.
  destruct (Sql.key_unique _ _) eqn:Eu; [|reflexivity].
  exfalso.
  apply list_elem_of_In, list_elem_of_lookup in Hin as (i & Hi).
  pose proof (key_unique_spec _ _ Eu i
                (length (trows tbl) + length (run_records (sqlite_item w) 0 ts1)) r0 r) as Hne.
  rewrite Hkr in Hne. unfold Sql.key_of in Hne. simpl in Hne.
  rewrite Ht0, Hy0 in Hne. simpl in Hne.
  rewrite String.eqb_refl, Z.eqb_refl in Hne.
  assert (Hlt : i < length (trows tbl)) by (by apply lookup_lt_Some in Hi).
  discriminate Hne.
  - lia.
  - by rewrite lookup_app_l.
  - rewrite lookup_app_r by lia.
    replace (length (trows tbl) + length (run_records (sqlite_item w) 0 ts1)
             - length (trows tbl)) with (length (run_records (sqlite_item w) 0 ts1)) by lia.
    exact Hr.
Qed.

Lemma same_year_is_refused_witness :
  fetch_to_sqlite (sample_world 2025) (["NEWCO"] ++ "AAPL" :: ["CORP"])
    (Some (widened_with [aapl_stored_row 2025])) =
  (Raise IntegrityError, Some (widened_with [aapl_stored_row 2025]),
   run_messages (sqlite_item (sample_world 2025)) 0 (["NEWCO"] ++ "AAPL" :: ["CORP"])).
Proof.
  apply (same_year_is_refused (sample_world 2025) ["NEWCO"] ["CORP"] "AAPL"
           (widened_with [aapl_stored_row 2025]) (aapl_record 2025) (aapl_stored_row 2025)).
  - reflexivity.
  - simpl. tauto.
  - simpl. lia.
  - repeat constructor.
  - vm_compute. reflexivity.
  - left. reflexivity.
  - reflexivity.
  - reflexivity.
Defined.

(** ** The document collection *)

Lemma update_one_keeps_tickers (t t0 : string) (d : document) (c : collection) :
  ticker d = t -> t0 ∈ (ticker <$> c) -> t0 ∈ (ticker <$> update_one t d c).
Proof.
  intros Hd H. rewrite (update_one_tickers t d c Hd).
  destruct (decide (t ∈ (ticker <$> c))); [exact H|].
  apply elem_of_app. by left.
Qed.

Lemma upsert_all_keeps_tickers (ds : list document) (t0 : string) :
  forall c, t0 ∈ (ticker <$> c) -> t0 ∈ (ticker <$> upsert_all ds c).
Proof.
  induction ds as [|d ds IH]; intros c H; simpl; [exact H|].
  apply IH. by apply update_one_keeps_tickers.
Qed.

Lemma upsert_all_length (ds : list document) :
  forall c, length c <= length (upsert_all ds c) <= length c + length ds.
Proof.
  induction ds as [|d ds IH]; intros c; simpl; [lia|].
  specialize (IH (update_one (ticker d) d c)).
  pose proof (update_one_length (ticker d) d c eq_refl) as Hl.
  destruct (decide (ticker d ∈ (ticker <$> c))); lia.
Qed.

(** X13.  A run of [fetch_to_mongodb] deletes nothing: every ticker that
    had a document still has one, the number of documents grows by at
    most the number of filings fetched, the server on the other port is
    not touched, and the next connection picks the same server. *)
Theorem fetch_to_mongodb_keeps_documents (w : world) (tickers : list string)
    (m : mongo) (p : port) :
  get_mongo_client m = Some p ->
  let m' := fst (fetch_to_mongodb w tickers m) in
  get_mongo_client m' = Some p /\
  (forall q, q <> p -> filings_of m' q = filings_of m q) /\
  (forall t, t ∈ (ticker <$> filings_of m p) -> t ∈ (ticker <$> filings_of m' p)) /\
  length (filings_of m p) <= length (filings_of m' p) /\
  length (filings_of m' p)
    <= length (filings_of m p) + length (run_records (mongo_item w) 0 tickers) /\
  length (run_records (mongo_item w) 0 tickers) <= length tickers.
Proof.
  intros Hp. cbv zeta. rewrite (fetch_to_mongodb_spec w tickers m p Hp). simpl.
  rewrite filings_of_with_filings.
  pose proof (upsert_all_length (run_records (mongo_item w) 0 tickers) (filings_of m p)) as Hl.
  pose proof (run_accounting (mongo_item w) tickers 0) as Hacc.
  repeat split.
  - by apply get_mongo_client_with_filings.
  - intros q Hq. by destruct p, q.
  - intros t. apply upsert_all_keeps_tickers.
  - lia.
  - lia.
  - lia.
Qed.

Lemma fetch_to_mongodb_keeps_documents_witness :
  let m' := fst (fetch_to_mongodb (sample_world 2025) ["AAPL"; "NEWCO"]
                   (mongo_up [aapl_document 2024 0])) in
  get_mongo_client m' = Some P27017 /\
  (forall q, q <> P27017 -> filings_of m' q = filings_of (mongo_up [aapl_document 2024 0]) q) /\
  (forall t, t ∈ (ticker <$> filings_of (mongo_up [aapl_document 2024 0]) P27017) ->
             t ∈ (ticker <$> filings_of m' P27017)) /\
  length (filings_of (mongo_up [aapl_document 2024 0]) P27017)
    <= length (filings_of m' P27017) /\
  length (filings_of m' P27017)
    <= length (filings_of (mongo_up [aapl_document 2024 0]) P27017)
       + length (run_records (mongo_item (sample_world 2025)) 0 ["AAPL"; "NEWCO"]) /\
  length (run_records (mongo_item (sample_world 2025)) 0 ["AAPL"; "NEWCO"])
    <= length ["AAPL"; "NEWCO"].
Proof.
  apply (fetch_to_mongodb_keeps_documents (sample_world 2025) ["AAPL"; "NEWCO"]
           (mongo_up [aapl_document 2024 0]) P27017).
  reflexivity.
Defined.

(** ** The document viewer *)

Lemma raw_doc_update_one (t t' : string) (d : document) (c : collection) :
  ticker d = t ->
  raw_doc (update_one t d c) t' = if String.eqb t' t then Some d else raw_doc c t'.
Proof.
  intros Hd. unfold raw_doc. induction c as [|d0 rest IH]; simpl.
  - rewrite Hd, (String.eqb_sym t t'). reflexivity.
  - destruct (String.eqb_spec (ticker d0) t) as [E0|E0]; simpl.
    + rewrite Hd. rewrite (String.eqb_sym t t').
      destruct (String.eqb_spec t' t) as [->|Hne]; [reflexivity|].
      rewrite E0. destruct (String.eqb_spec t t'); [congruence | reflexivity].
    + rewrite IH.
      destruct (String.eqb_spec t' t) as [->|Hne]; [|reflexivity].
      destruct (String.eqb_spec (ticker d0) t); [congruence | reflexivity].
Qed.

Lemma raw_doc_upsert_other (ds : list document) (t' : string) :
  ~ In t' (map ticker ds) ->
  forall c, raw_doc (upsert_all ds c) t' = raw_doc c t'.
Proof.
  induction ds as [|d ds IH]; intros Hn c; simpl; [reflexivity|].
  simpl in Hn. rewrite IH by tauto.
  rewrite (raw_doc_update_one (ticker d) t' d c eq_refl).
  destruct (String.eqb_spec t' (ticker d)); [|reflexivity].
  exfalso. apply Hn. left. congruence.
Qed.

Lemma upsert_all_app (ds1 ds2 : list document) (c : collection) :
  upsert_all (ds1 ++ ds2) c = upsert_all ds2 (upsert_all ds1 c).
Proof. unfold upsert_all. apply fold_left_app. Qed.

Lemma run_records_tickers (w : world) (tickers : list string) :
  forall idx d, In d (run_records (mongo_item w) idx tickers) -> In (ticker d) tickers.
Proof.
  induction tickers as [|t rest IH]; intros idx d; simpl; [tauto|].
  rewrite in_app_iff. intros [H|H]; [left | right; by apply (IH (S idx))].
  destruct (mongo_item w idx t) as [[d0|]|e] eqn:E; simpl in H; try tauto.
  destruct H as [<-|[]]. symmetry. by apply (mongo_item_ticker w idx).
Qed.

Lemma run_records_not_fetched (w : world) (tickers : list string) (idx : nat) (t' : string) :
  ~ In t' tickers -> ~ In t' (map ticker (run_records (mongo_item w) idx tickers)).
Proof.
  intros Hn H. apply in_map_iff in H as (d & <- & Hd).
  apply Hn. by apply (run_records_tickers w tickers idx).
Qed.

(** X14.  After a run of [fetch_to_mongodb], the document viewer shows
    for a fetched ticker the document written for its last occurrence in
    the list, and for a ticker that was not in the list the document it
    showed before. *)
Theorem viewer_shows_fetched_document (w : world) (ts1 ts2 : list string) (t : string)
    (m : mongo) (p : port) (d : document) :
  get_mongo_client m = Some p ->
  mongo_item w (length ts1) t = Ok (Some d) ->
  ~ In t ts2 ->
  let mongo_data := load_mongo_data MongoDB (fst (fetch_to_mongodb w (ts1 ++ t :: ts2) m)) in
  raw_doc mongo_data t = Some d /\
  forall t', ~ In t' (ts1 ++ t :: ts2) ->
             raw_doc mongo_data t' = raw_doc (load_mongo_data MongoDB m) t'.
Proof.
  intros Hp Hitem Hnot. cbv zeta.
  rewrite (fetch_to_mongodb_spec w _ m p Hp). simpl.
  rewrite (get_mongo_client_with_filings m p _ Hp), Hp, filings_of_with_filings.
  split.
  - rewrite run_records_app. simpl. rewrite Hitem. simpl.
    rewrite upsert_all_app. simpl.
    rewrite raw_doc_upsert_other by (by apply run_records_not_fetched).
    rewrite (raw_doc_update_one (ticker d) t d _ eq_refl).
    rewrite (mongo_item_ticker w _ t d Hitem). by rewrite String.eqb_refl.
  - intros t' Hn. apply raw_doc_upsert_other. by apply run_records_not_fetched.
Qed.

Lemma viewer_shows_fetched_document_witness :
  let mongo_data :=
    load_mongo_data MongoDB
      (fst (fetch_to_mongodb (sample_world 2025) (["AAPL"] ++ "AAPL" :: ["NEWCO"])
              (mongo_up [aapl_document 2024 0]))) in
  raw_doc mongo_data "AAPL" = Some (aapl_document 2025 1) /\
  forall t', ~ In t' (["AAPL"] ++ "AAPL" :: ["NEWCO"]) ->
             raw_doc mongo_data t'
             = raw_doc (load_mongo_data MongoDB (mongo_up [aapl_document 2024 0])) t'.
Proof.
  apply (viewer_shows_fetched_document (sample_world 2025) ["AAPL"] ["NEWCO"] "AAPL"
           (mongo_up [aapl_document 2024 0]) P27017 (aapl_document 2025 1)).
  - reflexivity.
  - vm_compute. reflexivity.
  - intros [H|[]]. discriminate H.
Defined.

(** ** Filings without liabilities *)

(** X15.  The two ingestion paths do not validate alike: a filing whose
    liabilities are missing is an error on the SQLite path, whatever its
    other figures, while the MongoDB path stores it, liabilities
    [None], as soon as its assets are a number. *)
Theorem missing_liabilities_paths_differ (w : world) (idx : nat) (t : string)
    (f : filing) (a : float) :
  provider w t = Latest f ->
  get_total_liabilities (filing_financials f) = CNone ->
  get_total_assets (filing_financials f) = CNum a ->
  sqlite_item w idx t = Raise TypeError /\
  exists d,
    mongo_item w idx t = Ok (Some d) /\
    ticker d = t /\
    total_assets (doc_financials d) = CNum a /\
    total_liabilities (doc_financials d) = CNone /\
    audit_pass d = (if PrimFloat.ltb 0 a then 1 else 0)%Z.
Proof.
  intros Hp Hl Ha. split.
  - unfold sqlite_item. rewrite Hp. unfold sqlite_audit, sqlite_data, row_get. simpl.
    rewrite Hl, Ha. reflexivity.
  - unfold mongo_item. rewrite Hp. simpl. rewrite Ha. simpl.
    eexists. split; [reflexivity|]. simpl. rewrite ?Hl, ?Ha. repeat split.
Qed.

Lemma missing_liabilities_paths_differ_witness :
  sqlite_item bare_world 0 "BARE" = Raise TypeError /\
  exists d,
    mongo_item bare_world 0 "BARE" = Ok (Some d) /\
    ticker d = "BARE" /\
    total_assets (doc_financials d) = CNum 500 /\
    total_liabilities (doc_financials d) = CNone /\
    audit_pass d = (if PrimFloat.ltb 0 500 then 1 else 0)%Z.
Proof.
  apply (missing_liabilities_paths_differ bare_world 0 "BARE" bare_filing 500);
    reflexivity.
Defined.

(** ** Counts *)

Lemma read_sql_all_nrows (t : table) (df : DataFrame) :
  tcols t <> [] -> read_sql_all (Some t) = Ok df -> Frame.nrows df = length (trows t).
Proof.
  intros Hc [= <-]. destruct (tcols t) as [|c cs]; [congruence|]. simpl.
  by rewrite infer_column_length, length_map.
Qed.

Lemma mongo_frame_nrows (c : collection) (df : DataFrame) :
  mongo_frame c = Ok df -> Frame.nrows df = length c.
Proof.
  unfold mongo_frame. destruct (series_sub _ _) as [equity|e]; simpl; [|discriminate].
  intros [= <-]. simpl. by rewrite length_map.
Qed.

(** X16.  In a script run that shows "Loaded n records" and reaches the
    Database Statistics, n is not zero and is the number of rows of the
    table the tabs work on.  With MongoDB as the source it is the
    number of documents the statistics show.  With SQLite as the source
    it is the number of rows the table had at the load, while the
    statistics count the rows that the statement of the query box has
    left: the two agree exactly when that statement has kept the
    number of rows. *)
Theorem sidebar_count_and_statistics
    (read_sql : string -> database -> res DataFrame * database)
    (src : data_source) (search_query : string) (db : database) (m : mongo)
    (n : nat) (s_sql s_mongo : metric) :
  (forall t, db = Some t -> tcols t <> []) ->
  statistics_of_run read_sql src search_query db m = ([SidebarLoaded n], s_sql, s_mongo) ->
  n <> 0 /\ Frame.nrows (fst (load src db m)) = n /\
  match src with
  | MongoDB => s_mongo = Records n
  | SQLite =>
      n = row_count db /\
      s_sql = Records (row_count (snd (read_sql search_query db))) /\
      (s_sql = Records n <-> row_count (snd (read_sql search_query db)) = row_count db)
  end.
Proof.
  intros Hcols. unfold statistics_of_run. destruct src; unfold load.
  - destruct db as [t|]; simpl; [|discriminate].
    set (df0 := map _ (tcols t)).
    assert (Hn : Frame.nrows df0 = length (trows t))
      by (apply (read_sql_all_nrows t); [by apply Hcols | reflexivity]).
    unfold Frame.empty. destruct (Nat.eqb_spec (Frame.nrows df0) 0) as [E|E];
      [discriminate|].
    rewrite sql_query_interface_state. unfold sqlite_statistic.
    intros [= <- <- <-]. rewrite Hn.
    split; [lia|]. split; [reflexivity|]. split; [reflexivity|]. split; [reflexivity|].
    split; [intros [= H]; exact H | intros H; by rewrite H].
  - unfold mongo_statistic. destruct (get_mongo_client m) as [p|]; [|discriminate].
    destruct (filings_of m p) as [|d c] eqn:Ec; [discriminate|].
    destruct (mongo_frame (d :: c)) as [df0|e] eqn:Ef; [|discriminate].
    intros [= <- <- <-]. simpl. rewrite (mongo_frame_nrows _ _ Ef). simpl.
    split; [discriminate|]. split; reflexivity.
Qed.

Lemma sidebar_count_and_statistics_witness :
  1 <> 0 /\
  Frame.nrows (fst (load SQLite (Some (aapl_table 2025)) (mongo_up []))) = 1 /\
  1 = row_count (Some (aapl_table 2025)) /\
  Records 1
  = Records (row_count (snd (reads_nothing "SELECT 1" (Some (aapl_table 2025))))) /\
  (Records 1 = Records 1 <->
   row_count (snd (reads_nothing "SELECT 1" (Some (aapl_table 2025))))
   = row_count (Some (aapl_table 2025))).
Proof.
  apply (sidebar_count_and_statistics reads_nothing SQLite "SELECT 1"
           (Some (aapl_table 2025)) (mongo_up []) 1 (Records 1) (Records 0)).
  - intros t [= <-]. discriminate.
  - vm_compute. reflexivity.
Defined.

(** ** A new installation *)

Lemma after_runs_schema (runs : list (world * list string)) :
  forall db,
    init_sqlite_db db = Some financials_schema ->
    init_sqlite_db (after_runs runs db) = Some financials_schema.
Proof.
  induction runs as [|[w tickers] rest IH]; intros db H; [exact H|].
  change (after_runs ((w, tickers) :: rest) db)
    with (after_runs rest (snd (fst (press_fetch_to_sqlite w tickers db)))).
  apply IH. unfold press_fetch_to_sqlite. rewrite H.
  by rewrite fetch_to_sqlite_stores_nothing.
Qed.

(** X17.  On a new installation the "Fetch to SQLite" button alone never
    brings data into the dashboard: after any series of runs, whatever
    the provider answers, the script finds the table of
    [init_sqlite_db] without a row, the sidebar reports that there is
    no data, and the statistics show 0 records. *)
Theorem new_installation_stays_empty (runs : list (world * list string)) (m : mongo) :
  load SQLite (init_sqlite_db (after_runs runs None)) m =
    (map (fun c => (c, [])) (tcols financials_schema), [SidebarNoData]) /\
  sqlite_statistic (after_runs runs None) = Records 0.
Proof.
  split.
  - by rewrite (after_runs_schema runs None eq_refl).
  - unfold sqlite_statistic. by rewrite after_runs_empty.
Qed.

(** ** A database without the table *)







(** ** The MongoDB button *)

(** X19.  The button looks for a server before it calls
    [fetch_to_mongodb], so the function's own "not available" branch is
    never taken from it: whenever the function is called its messages
    are the warnings and errors of the identifiers followed by the
    success line for the whole list; and the button reports a missing
    server itself, leaving the stores alone, exactly when there are
    tickers and no server answers. *)
Theorem mongo_button_finds_the_server_first (ticker_input : string) (w : world)
    (m m' : mongo) (o : button_outcome) :
  fetch_to_mongodb_button ticker_input w m = (m', o) ->
  (forall log, o = RanMongo log ->
     ~ In ErrorMongoUnavailable log /\
     exists items,
       Forall is_item_message items /\
       log = items ++ [SuccessSynced (length (parse_tickers ticker_input))]) /\
  (o = MongoNotAvailable <->
   parse_tickers ticker_input <> [] /\ get_mongo_client m = None) /\
  (o = MongoNotAvailable -> m' = m).
Proof.
  unfold fetch_to_mongodb_button.
  destruct (parse_tickers ticker_input) as [|t ts] eqn:Ep.
  - intros [= <- <-]. split; [|split; [split|]].
    + discriminate.
    + discriminate.
    + intros [H _]. congruence.
    + discriminate.
  - destruct (get_mongo_client m) as [p|] eqn:Hp.
    + rewrite (fetch_to_mongodb_spec w (t :: ts) m p Hp).
      intros [= <- <-]. split; [|split; [split|]].
      * intros lg [= <-]. split.
        -- intros Hin. apply in_app_iff in Hin as [Hin|[Hin|[]]]; [|discriminate].
           pose proof (run_messages_items (mongo_item w) (t :: ts) 0) as Hitems.
           rewrite Forall_forall in Hitems.
           exact (Hitems _ (proj2 (list_elem_of_In _ _) Hin)).
        -- exists (run_messages (mongo_item w) 0 (t :: ts)).
           split; [apply run_messages_items | reflexivity].
      * discriminate.
      * intros [_ H]. discriminate.
      * discriminate.
    + intros [= <- <-]. split; [|split; [split|]].
      * discriminate.
      * intros _. split; [discriminate | reflexivity].
      * reflexivity.
      * reflexivity.
Qed.

Lemma mongo_button_finds_the_server_first_witness :
  (forall log,
     snd (fetch_to_mongodb_button "aapl, newco" (sample_world 2025) (mongo_up []))
     = RanMongo log ->
     ~ In ErrorMongoUnavailable log /\
     exists items,
       Forall is_item_message items /\
       log = items ++ [SuccessSynced (length (parse_tickers "aapl, newco"))]) /\
  (snd (fetch_to_mongodb_button "aapl, newco" (sample_world 2025) (mongo_up []))
   = MongoNotAvailable <->
   parse_tickers "aapl, newco" <> [] /\ get_mongo_client (mongo_up []) = None) /\
  (snd (fetch_to_mongodb_button "aapl, newco" (sample_world 2025) (mongo_up []))
   = MongoNotAvailable ->
   fst (fetch_to_mongodb_button "aapl, newco" (sample_world 2025) (mongo_up []))
   = mongo_up []).
Proof.
  apply (mongo_button_finds_the_server_first "aapl, newco" (sample_world 2025) (mongo_up [])).
  apply surjective_pairing.
Defined.

(** ** Missing liabilities in the loaded table *)

Lemma sub_nan (a : float) : PrimFloat.sub a PrimFloat.nan = PrimFloat.nan.
Proof.
  apply Prim2SF_inj. rewrite FloatAxioms.sub_spec.
  change (Prim2SF PrimFloat.nan) with S754_nan.
  by destruct (Prim2SF a).
Qed.

(** A column of numbers and [None]s that holds a number is read as
    float64, the missing values NaN. *)
Lemma infer_column_number_or_none (s : series) :
  Forall (fun x => x = CNone \/ exists v, x = CNum v) s ->
  existsb is_number s = true ->
  infer_column s = map CNum (map number_of s).
Proof.
  intros Hall Hnum. unfold infer_column.
  assert (Hf : forallb (fun c => is_number c || is_none c) s = true).
  { apply forallb_forall. intros x Hx. rewrite Forall_forall in Hall.
    destruct (Hall x (proj2 (list_elem_of_In _ _) Hx)) as [->|[v ->]]; reflexivity. }
  rewrite Hf, Hnum. simpl.
  destruct (existsb is_none s) eqn:En.
  - rewrite map_map. apply map_ext_in. intros x Hx. rewrite Forall_forall in Hall.
    destruct (Hall x (proj2 (list_elem_of_In _ _) Hx)) as [->|[v ->]]; reflexivity.
  - clear Hf Hnum. induction Hall as [|x s' Hx _ IH]; [reflexivity|].
    simpl in En. apply orb_false_iff in En as [Ex En].
    destruct Hx as [->|[v ->]]; [discriminate|]. simpl. f_equal. by apply IH.
Qed.

(** X20.  A document without liabilities does not stop the load as long
    as some document of the collection has them: with assets that are
    floats throughout, the table is built with one row per document,
    and in the row of each document whose liabilities are [None] both
    the liabilities and the equity are NaN. *)
Theorem missing_liabilities_load_as_nan (db : database) (m : mongo) (p : port)
    (d0 : document) (l0 : float) :
  get_mongo_client m = Some p ->
  Forall (fun d => (exists a, total_assets (doc_financials d) = CNum a) /\
                   (total_liabilities (doc_financials d) = CNone \/
                    exists l, total_liabilities (doc_financials d) = CNum l))
         (filings_of m p) ->
  In d0 (filings_of m p) ->
  total_liabilities (doc_financials d0) = CNum l0 ->
  exists df lia equity,
    load MongoDB db m = (df, [SidebarLoaded (length (filings_of m p))]) /\
    Frame.lookup_col "liabilities" df = Some lia /\
    Frame.lookup_col "equity" df = Some equity /\
    forall i d, filings_of m p !! i = Some d ->
                total_liabilities (doc_financials d) = CNone ->
                lia !! i = Some (CNum PrimFloat.nan) /\
                equity !! i = Some (CNum PrimFloat.nan).
Proof.
  intros Hp Hall Hin Hl0. unfold load. rewrite Hp.
  set (c := filings_of m p) in *.
  assert (Hassets : infer_column (map (fun d => total_assets (doc_financials d)) c)
                    = map CNum (map (fun d => number_of (total_assets (doc_financials d))) c)).
  { rewrite <- infer_column_numbers. f_equal. rewrite map_map.
    apply map_ext_in. intros d Hd. rewrite Forall_forall in Hall.
    destruct (Hall d (proj2 (list_elem_of_In _ _) Hd)) as [[a ->] _]. reflexivity. }
  assert (Hlia : infer_column (map (fun d => total_liabilities (doc_financials d)) c)
                 = map CNum (map (fun d => number_of (total_liabilities (doc_financials d))) c)).
  { rewrite infer_column_number_or_none.
    - by rewrite !map_map.
    - apply Forall_forall. intros x Hx.
      apply list_elem_of_In, in_map_iff in Hx as (d & <- & Hd).
      rewrite Forall_forall in Hall.
      exact (proj2 (Hall d (proj2 (list_elem_of_In _ _) Hd))).
    - apply existsb_exists. exists (CNum l0). split; [|reflexivity].
      apply in_map_iff. exists d0. by rewrite Hl0. }
  assert (Hframe : mongo_frame c =
            Ok [ ("ticker", map (fun d => CStr (ticker d)) c);
                 ("revenue", infer_column (map (fun d => revenue (doc_financials d)) c));
                 ("net_income", infer_column (map (fun d => net_income (doc_financials d)) c));
                 ("assets", map CNum (map (fun d => number_of (total_assets (doc_financials d))) c));
                 ("liabilities",
                  map CNum (map (fun d => number_of (total_liabilities (doc_financials d))) c));
                 ("equity",
                  map CNum (zip_with PrimFloat.sub
                    (map (fun d => number_of (total_assets (doc_financials d))) c)
                    (map (fun d => number_of (total_liabilities (doc_financials d))) c))) ]).
  { unfold mongo_frame. rewrite Hassets, Hlia. unfold series_sub.
    by rewrite series_zip_numbers. }
  destruct c as [|d1 c'] eqn:Ec; [destruct Hin|]. rewrite <- Ec in *.
  rewrite Hframe. unfold Frame.nrows. rewrite length_map.
  eexists _, _, _. split; [reflexivity|]. split; [reflexivity|]. split; [reflexivity|].
  intros i d Hi Hd. split.
  - rewrite !lookup_map, Hi. simpl. by rewrite Hd.
  - rewrite (lookup_zip_numbers PrimFloat.sub _ _ i
               (number_of (total_assets (doc_financials d))) PrimFloat.nan).
    + by rewrite sub_nan.
    + by rewrite lookup_map, Hi.
    + rewrite lookup_map, Hi. simpl. by rewrite Hd.
Qed.

Lemma missing_liabilities_load_as_nan_witness :
  exists df lia equity,
    load MongoDB None
      (fst (fetch_to_mongodb bare_world ["BARE"] (mongo_up [aapl_document 2025 0])))
    = (df, [SidebarLoaded
              (length (filings_of
                 (fst (fetch_to_mongodb bare_world ["BARE"] (mongo_up [aapl_document 2025 0])))
                 P27017))]) /\
    Frame.lookup_col "liabilities" df = Some lia /\
    Frame.lookup_col "equity" df = Some equity /\
    forall i d,
      filings_of (fst (fetch_to_mongodb bare_world ["BARE"] (mongo_up [aapl_document 2025 0])))
                 P27017 !! i = Some d ->
      total_liabilities (doc_financials d) = CNone ->
      lia !! i = Some (CNum PrimFloat.nan) /\
      equity !! i = Some (CNum PrimFloat.nan).
Proof.
  apply (missing_liabilities_load_as_nan None
           (fst (fetch_to_mongodb bare_world ["BARE"] (mongo_up [aapl_document 2025 0])))
           P27017 (aapl_document 2025 0) 200).
  - reflexivity.
  - constructor; [split; [by eexists | right; by eexists]|].
    constructor; [split; [by eexists | by left]|]. constructor.
  - left. reflexivity.
  - reflexivity.
Defined.
